(** * Accounting engine: tax split, P&L, balance sheet and validation

    A shallow embedding of the computation core of the accounting backend
    ([app/crud.py], [app/reports.py], [app/validation.py], [app/models.py]).

    Conventions of the embedding.
    - A [Decimal] money amount stored in a [Numeric(15, 2)] column is the
      integer number of cents ([Z]); [Decimal("0.00")] is [0].
    - A tax rate stored in a [Numeric(5, 4)] column is the integer number of
      ten-thousandths ([Z]); [Decimal("0.081")] is [810].
    - The SQLAlchemy session is a record of tables (lists of rows); a query is
      a filter over the rows, a join is a lookup of the referenced row.
    - A Python exception is a [Raise] in the [result] type.
    - The system clock read by [datetime.date.today()] is an explicit
      argument [today] of the functions that read it. *)

From stdpp Require Import gmap strings pretty list.

Local Open Scope Z_scope.

(** ** Exceptions *)

(** Both exceptions are [ValueError] in the source: the one raised by the
    report services for an unknown business, and the one raised by the
    [datetime.date] constructor for a date that does not exist. *)
Inductive exn : Type :=
  | BusinessNotFound (business_id : Z)
  | DateOutOfRange.

Inductive result (A : Type) : Type :=
  | Ok (a : A)
  | Raise (e : exn).

Arguments Ok {A} a.
Arguments Raise {A} e.

#[global] Instance result_ret : MRet result := fun A a => Ok a.

#[global] Instance result_bind : MBind result := fun A B k r =>
  match r with
  | Ok a => k a
  | Raise e => Raise e
  end.

(** [for x in xs: ys.append(f x)], stopping at the first exception. *)
Fixpoint mapM_result {A B : Type} (f : A -> result B) (xs : list A) : result (list B) :=
  match xs with
  | [] => Ok []
  | x :: xs' => y ← f x; ys ← mapM_result f xs'; Ok (y :: ys)
  end.

(** ** Enumerations ([app/models.py]) *)

Inductive AccountType : Type := BANK | CREDIT_CARD | CASH | ASSET.
Inductive CategoryType : Type := INCOME | COGS | EXPENSE.
Inductive TransactionDirection : Type := IN | OUT.
Inductive SpecialType : Type :=
  | CAPITAL | LOAN_IN | TRANSFER_IN | TRANSFER_OUT | ASSET_PURCHASE
  | TAX_PAYMENT | LOAN_REPAYMENT | DRAWINGS | INCOME_TAX | PAYROLL_TAX.

#[global] Instance AccountType_eq_dec : EqDecision AccountType.
Proof. solve_decision. Defined.
#[global] Instance CategoryType_eq_dec : EqDecision CategoryType.
Proof. solve_decision. Defined.
#[global] Instance TransactionDirection_eq_dec : EqDecision TransactionDirection.
Proof. solve_decision. Defined.
#[global] Instance SpecialType_eq_dec : EqDecision SpecialType.
Proof. solve_decision. Defined.

(** ** Calendar dates ([datetime.date]) *)

Record date : Type := mkdate { year : Z; month : Z; day : Z }.

#[global] Instance date_eq_dec : EqDecision date.
Proof. solve_decision. Defined.

Definition is_leap (y : Z) : bool :=
  ((y mod 4 =? 0) && negb (y mod 100 =? 0)) || (y mod 400 =? 0).

Definition days_in_month (y m : Z) : Z :=
  if m =? 2 then (if is_leap y then 29 else 28)
  else if (m =? 4) || (m =? 6) || (m =? 9) || (m =? 11) then 30
  else 31.

(** [date(y, m, d)]: raises [ValueError] outside [MINYEAR..MAXYEAR], outside
    months [1..12] and outside the days of the month. *)
Definition date_new (y m d : Z) : result date :=
  if (1 <=? y) && (y <=? 9999) && (1 <=? m) && (m <=? 12)
     && (1 <=? d) && (d <=? days_in_month y m)
  then Ok (mkdate y m d)
  else Raise DateOutOfRange.

(** Dates compare as the tuples (year, month, day). *)
Definition date_lt (a b : date) : bool :=
  (year a <? year b)
  || ((year a =? year b)
      && ((month a <? month b) || ((month a =? month b) && (day a <? day b)))).

Definition date_le (a b : date) : bool := negb (date_lt b a).

(** [date.toordinal()]: day 1 is 0001-01-01 (proleptic Gregorian). *)
Definition days_before_year (y : Z) : Z :=
  let p := y - 1 in p * 365 + p / 4 - p / 100 + p / 400.

Fixpoint days_before_month_aux (y : Z) (n : nat) : Z :=
  match n with
  | O => 0
  | S k => days_before_month_aux y k + days_in_month y (Z.of_nat (S k))
  end.

Definition days_before_month (y m : Z) : Z :=
  days_before_month_aux y (Z.to_nat (m - 1)).

Definition toordinal (d : date) : Z :=
  days_before_year (year d) + days_before_month (year d) (month d) + day d.

(** [(a - b).days] *)
Definition days_between (a b : date) : Z := toordinal a - toordinal b.

(** A date that the [date] constructor accepts. *)
Definition valid_date (d : date) : Prop :=
  1 <= year d <= 9999 /\ 1 <= month d <= 12
  /\ 1 <= day d <= days_in_month (year d) (month d).

(** ** Rows of the tables ([app/models.py]) *)

Record Business : Type := mkBusiness {
  biz_id : Z;
  biz_name : string;
  currency : string
}.

Record Account : Type := mkAccount {
  acc_id : Z;
  acc_business_id : Z;
  acc_name : string;
  acc_type : AccountType;
  opening_balance : Z
}.

Record Category : Type := mkCategory {
  cat_id : Z;
  cat_business_id : Z;
  code : string;
  cat_type : CategoryType
}.

Record TaxRate : Type := mkTaxRate {
  tr_id : Z;
  rate : Z
}.

Record Transaction : Type := mkTransaction {
  txn_id : Z;
  account_id : Z;
  txn_date : date;
  direction : TransactionDirection;
  gross_amount : Z;
  tax_amount : Z;
  net_amount : Z;
  is_reconciled : bool
}.

Record TransactionLine : Type := mkTransactionLine {
  line_id : Z;
  transaction_id : Z;
  category_id : option Z;
  special_type : option SpecialType;
  amount : Z
}.

(** The contents of the database a session reads. *)
Record Session : Type := mkSession {
  businesses : list Business;
  accounts : list Account;
  categories : list Category;
  transactions : list Transaction;
  transaction_lines : list TransactionLine
}.

(** ** Tax calculation service ([app/crud.py], lines 17-32) *)

(** [Decimal.quantize(Decimal("0.01"))] of the quotient [num / den] of two
    integers, in cents, [den > 0].  No rounding argument is given and the
    [decimal] context is never changed, so the mode is the context default,
    [ROUND_HALF_EVEN].  The quotient itself is computed by [Decimal.__truediv__]
    to 28 significant digits; for a [Numeric(15, 2)] amount and a
    [Numeric(5, 4)] rate a quotient that is not an exact half-cent is more
    than [10^-7] away from one, so those 28 digits decide the rounding as the
    exact quotient does. *)
Definition quantize_cents (num den : Z) : Z :=
  let q := num / den in
  let r := num mod den in
  if 2 * r <? den then q
  else if den <? 2 * r then q + 1
  else if Z.even q then q else q + 1.

(** [calculate_tax_amount(gross_amount, tax_rate)] *)
Definition calculate_tax_amount (gross_amount : Z) (tax_rate : option TaxRate) : Z :=
  match tax_rate with
  | None => 0
  | Some tr =>
      if rate tr =? 0 then 0
      else
        (* divisor = Decimal("1") + tax_rate.rate; tax = gross_amount / divisor *)
        quantize_cents (gross_amount * 10000) (10000 + rate tr)
  end.

(** [calculate_net_amount(gross_amount, tax_amount)] *)
Definition calculate_net_amount (gross_amount tax_amount : Z) : Z :=
  gross_amount - tax_amount.

(** The pair (tax, net) that [create_transaction] and [update_transaction]
    store when the request carries neither amount. *)
Definition tax_split (gross_amount : Z) (tax_rate : option TaxRate) : Z * Z :=
  let tax := calculate_tax_amount gross_amount tax_rate in
  (tax, calculate_net_amount gross_amount tax).

(** Rounding of [num / den] to the nearest integer with ties away from zero
    ([ROUND_HALF_UP]), as the specification words the rounding of the tax
    split. *)
Definition round_half_up (num den : Z) : Z :=
  let q := Z.abs num / den in
  let r := Z.abs num mod den in
  Z.sgn num * (if 2 * r <? den then q else q + 1).

(** ** Session queries *)

(** [db.query(Business).filter(Business.id == business_id).first()] *)
Definition query_business (db : Session) (business_id : Z) : option Business :=
  head (filter (fun b => biz_id b = business_id) (businesses db)).

(** [db.query(Category).filter(Category.business_id == business_id).all()] *)
Definition query_categories (db : Session) (business_id : Z) : list Category :=
  filter (fun c => cat_business_id c = business_id) (categories db).

(** [db.query(Account).filter(Account.business_id == business_id).all()] *)
Definition query_accounts (db : Session) (business_id : Z) : list Account :=
  filter (fun a => acc_business_id a = business_id) (accounts db).

(** The row of [Transaction] joins a row of [Account] of the business. *)
Definition txn_in_business (db : Session) (business_id : Z) (t : Transaction) : bool :=
  existsb (fun a => (acc_id a =? account_id t) && (acc_business_id a =? business_id))
          (accounts db).

(** [db.query(Transaction).join(Account).filter(Account.business_id ==
    business_id, <when>).all()] *)
Definition query_transactions (db : Session) (business_id : Z)
    (when : date -> bool) : list Transaction :=
  filter (fun t => txn_in_business db business_id t && when (txn_date t))
         (transactions db).

(** [db.query(TransactionLine).join(Transaction).join(Account).filter(
    Account.business_id == business_id, <when>).all()]: the lines that have
    a joined row passing the filter, each line once (the ORM returns every
    entity once). *)
Definition query_lines (db : Session) (business_id : Z)
    (when : date -> bool) : list TransactionLine :=
  filter (fun l =>
            existsb (fun t => (txn_id t =? transaction_id l)
                              && txn_in_business db business_id t
                              && when (txn_date t))
                    (transactions db))
         (transaction_lines db).

(** The same query with the extra filter
    [TransactionLine.special_type == st]. *)
Definition query_special_lines (db : Session) (business_id : Z)
    (when : date -> bool) (st : SpecialType) : list TransactionLine :=
  filter (fun l => special_type l = Some st) (query_lines db business_id when).

(** [db.query(Transaction).filter(Transaction.account_id == account.id,
    Transaction.date <= as_of_date).all()] *)
Definition query_account_transactions (db : Session) (account : Account)
    (as_of_date : date) : list Transaction :=
  filter (fun t => account_id t = acc_id account
                   /\ date_le (txn_date t) as_of_date)
         (transactions db).

(** The relationship [txn.lines]. *)
Definition lines (db : Session) (txn : Transaction) : list TransactionLine :=
  filter (fun l => transaction_id l = txn_id txn) (transaction_lines db).

(** The filter [Transaction.date >= start_date, Transaction.date < end_date
    if month != 12 else Transaction.date <= end_date]. *)
Definition in_window (start_date end_date : date) (month : Z) (d : date) : bool :=
  date_le start_date d
  && (if month =? 12 then date_le d end_date else date_lt d end_date).

(** The bounds of a month as the three services compute them:
    [start_date = date(year, month, 1)] and [end_date = date(year, 12, 31)]
    for December, [date(year, month + 1, 1)] otherwise. *)
Definition month_bounds (year month : Z) : result (date * date) :=
  start_date ← date_new year month 1;
  end_date ← (if month =? 12 then date_new year 12 31
              else date_new year (month + 1) 1);
  Ok (start_date, end_date).

(** [sum(line.amount for line in ls)], also the loops
    [for line in ls: acc += line.amount] from [Decimal("0.00")]. *)
Definition sum_amounts (ls : list TransactionLine) : Z :=
  foldl (fun acc l => acc + amount l) 0 ls.

(** ** P&L report service ([app/reports.py], lines 29-224) *)

Record PLSection : Type := mkPLSection {
  total : Z;
  by_category : gmap string Z
}.

Record PLMonth : Type := mkPLMonth {
  income : PLSection;
  cogs : PLSection;
  inventory_adjustment : Z;
  expenses : PLSection;
  gross_profit : Z;
  net_profit : Z
}.

Record PLReport : Type := mkPLReport {
  pl_business_id : Z;
  pl_year : Z;
  pl_currency : string;
  pl_months : list (Z * PLMonth);
  ytd : PLMonth
}.

(** [line.category_id and line.category_id in cat_ids]: an absent id and the
    id 0 are false. *)
Definition line_in_cats (cat_ids : list Z) (line : TransactionLine) : bool :=
  match category_id line with
  | Some i => negb (i =? 0) && bool_decide (i ∈ cat_ids)
  | None => false
  end.

(** [next((c.code for c in cats if c.id == line.category_id), "unknown")] *)
Definition cat_code (cats : list Category) (line : TransactionLine) : string :=
  match head (filter (fun c => Some (cat_id c) = category_id line) cats) with
  | Some c => code c
  | None => "unknown"
  end.

(** [if k not in d: d[k] = Decimal("0.00")] followed by [d[k] += v]. *)
Definition dict_add (k : string) (v : Z) (d : gmap string Z) : gmap string Z :=
  <[k := default 0 (d !! k) + v]> d.

(** One of the three loops of [_calculate_month] over the lines of the
    month, from [total = Decimal("0.00")] and [by_category = {}]. *)
Definition section_step (cats : list Category) (acc : PLSection)
    (line : TransactionLine) : PLSection :=
  if line_in_cats (cat_id <$> cats) line
  then {| total := total acc + amount line;
          by_category := dict_add (cat_code cats line) (amount line) (by_category acc) |}
  else acc.

Definition section_of (cats : list Category) (ls : list TransactionLine) : PLSection :=
  foldl (section_step cats) {| total := 0; by_category := ∅ |} ls.

(** [PLReportService._calculate_month] *)
Definition pl_calculate_month (db : Session) (business_id year month : Z)
    (income_cats cogs_cats expense_cats : list Category) : result PLMonth :=
  '(start_date, end_date) ← month_bounds year month;
  let ls := query_lines db business_id (in_window start_date end_date month) in
  let inc := section_of income_cats ls in
  let cg := section_of cogs_cats ls in
  let inventory_adjustment := 0 in
  let cogs_total := total cg + inventory_adjustment in
  let ex := section_of expense_cats ls in
  let gross_profit := total inc - cogs_total in
  let net_profit := gross_profit - total ex in
  Ok {| income := inc;
        cogs := {| total := cogs_total; by_category := by_category cg |};
        inventory_adjustment := inventory_adjustment;
        expenses := ex;
        gross_profit := gross_profit;
        net_profit := net_profit |}.

(** The inner loop of [_calculate_ytd]:
    [for cat_code, amount in month_section["by_category"].items()]. *)
Definition merge_by_category (acc m : gmap string Z) : gmap string Z :=
  foldl (fun d kv => dict_add kv.1 kv.2 d) acc (map_to_list m).

Definition merge_section (acc m : PLSection) : PLSection :=
  {| total := total acc + total m;
     by_category := merge_by_category (by_category acc) (by_category m) |}.

(** The body of the loop of [_calculate_ytd]. *)
Definition ytd_step (acc month_data : PLMonth) : PLMonth :=
  {| income := merge_section (income acc) (income month_data);
     cogs := merge_section (cogs acc) (cogs month_data);
     inventory_adjustment := inventory_adjustment acc + inventory_adjustment month_data;
     expenses := merge_section (expenses acc) (expenses month_data);
     gross_profit := gross_profit acc + gross_profit month_data;
     net_profit := net_profit acc + net_profit month_data |}.

Definition empty_section : PLSection := {| total := 0; by_category := ∅ |}.

Definition ytd_zero : PLMonth :=
  {| income := empty_section; cogs := empty_section; inventory_adjustment := 0;
     expenses := empty_section; gross_profit := 0; net_profit := 0 |}.

(** [PLReportService._calculate_ytd]: [months_data.values()] in insertion
    order. *)
Definition calculate_ytd (months_data : list (Z * PLMonth)) : PLMonth :=
  foldl ytd_step ytd_zero (snd <$> months_data).

(** [list(range(1, 13))] *)
Definition months_1_12 : list Z := [1; 2; 3; 4; 5; 6; 7; 8; 9; 10; 11; 12].

(** [PLReportService.generate_report] *)
Definition pl_generate_report (db : Session) (business_id year : Z) : result PLReport :=
  let cats := query_categories db business_id in
  let income_cats := filter (fun c => cat_type c = INCOME) cats in
  let cogs_cats := filter (fun c => cat_type c = COGS) cats in
  let expense_cats := filter (fun c => cat_type c = EXPENSE) cats in
  months ← mapM_result
    (fun month =>
       month_data ← pl_calculate_month db business_id year month
                      income_cats cogs_cats expense_cats;
       Ok (month, month_data))
    months_1_12;
  Ok {| pl_business_id := business_id;
        pl_year := year;
        pl_currency := "CHF";
        pl_months := months;
        ytd := calculate_ytd months |}.

(** ** Balance sheet service ([app/reports.py], lines 231-616) *)

Record BankEntry : Type := mkBankEntry {
  be_id : Z;
  be_name : string;
  be_balance : Z
}.

Record CardEntry : Type := mkCardEntry {
  ce_id : Z;
  ce_name : string;
  ce_balance : Z;
  liability : Z
}.

Record Assets : Type := mkAssets {
  assets_total : Z;
  bank_accounts_total : Z;
  bank_accounts : list BankEntry;
  inventory : Z;
  asset_purchases : Z
}.

Record Liabilities : Type := mkLiabilities {
  liabilities_total : Z;
  credit_cards_total : Z;
  credit_cards : list CardEntry;
  loans_received : Z;
  loans_repayments : Z;
  loans_net : Z;
  vat : Z;
  income_tax : Z;
  payroll_tax : Z;
  tax_payable_total : Z
}.

Record Equity : Type := mkEquity {
  equity_total : Z;
  capital : Z;
  retained_earnings : Z;
  current_year_profit : Z;
  drawings : Z
}.

Record Snapshot : Type := mkSnapshot {
  as_of_date : date;
  assets : Assets;
  liabilities : Liabilities;
  equity : Equity
}.

Record MonthValidation : Type := mkMonthValidation {
  net_assets : Z;
  mv_equity : Z;
  balanced : bool
}.

Record BalanceSheetReport : Type := mkBalanceSheetReport {
  bs_business_id : Z;
  bs_year : Z;
  bs_currency : string;
  bs_months : list (Z * Snapshot);
  validation : list (Z * MonthValidation)
}.

(** The loop [for txn in transactions: balance += / -= txn.gross_amount]
    from [balance = account.opening_balance]. *)
Definition balance_step (balance : Z) (txn : Transaction) : Z :=
  match direction txn with
  | IN => balance + gross_amount txn
  | OUT => balance - gross_amount txn
  end.

Definition account_balance (db : Session) (account : Account) (as_of : date) : Z :=
  foldl balance_step (opening_balance account)
        (query_account_transactions db account as_of).

(** [BalanceSheetService._calculate_opening_retained_earnings] *)
Definition calculate_opening_retained_earnings (db : Session) (business_id year : Z) : Z :=
  foldl (fun total_opening account =>
           match acc_type account with
           | BANK => total_opening + opening_balance account
           | CREDIT_CARD => total_opening - opening_balance account
           | _ => total_opening
           end)
        0 (query_accounts db business_id).

(** The loop over the bank accounts of [_calculate_snapshot]: the state is
    [(bank_balance, bank_accounts)]. *)
Definition bank_step (db : Session) (as_of : date)
    (st : Z * list BankEntry) (account : Account) : Z * list BankEntry :=
  match acc_type account with
  | BANK =>
      let balance := account_balance db account as_of in
      (st.1 + balance,
       st.2 ++ [ {| be_id := acc_id account; be_name := acc_name account;
                    be_balance := balance |} ])
  | _ => st
  end.

(** The loop over the credit cards of [_calculate_snapshot]: the state is
    [(credit_card_balance, credit_cards)]; the body assigns
    [credit_card_balance] ([= -balance] or [= Decimal("0.00")]). *)
Definition card_step (db : Session) (as_of : date)
    (st : Z * list CardEntry) (account : Account) : Z * list CardEntry :=
  match acc_type account with
  | CREDIT_CARD =>
      let balance := account_balance db account as_of in
      let credit_card_balance := if balance <? 0 then - balance else 0 in
      (credit_card_balance,
       st.2 ++ [ {| ce_id := acc_id account; ce_name := acc_name account;
                    ce_balance := balance;
                    liability := if balance <? 0 then credit_card_balance else 0 |} ])
  | _ => st
  end.

(** [BalanceSheetService._calculate_net_profit_ytd] *)
Definition calculate_net_profit_ytd (db : Session) (business_id year : Z)
    (as_of : date) : result Z :=
  start_date ← date_new year 1 1;
  let cats := query_categories db business_id in
  let income_cats := cat_id <$> filter (fun c => cat_type c = INCOME) cats in
  let cogs_cats := cat_id <$> filter (fun c => cat_type c = COGS) cats in
  let expense_cats := cat_id <$> filter (fun c => cat_type c = EXPENSE) cats in
  let ls := query_lines db business_id
              (fun d => date_le start_date d && date_le d as_of) in
  let '(inc, cg, ex) :=
    foldl (fun '(inc, cg, ex) line =>
             match category_id line with
             | Some i =>
                 if i =? 0 then (inc, cg, ex)
                 else if bool_decide (i ∈ income_cats) then (inc + amount line, cg, ex)
                 else if bool_decide (i ∈ cogs_cats) then (inc, cg + amount line, ex)
                 else if bool_decide (i ∈ expense_cats) then (inc, cg, ex + amount line)
                 else (inc, cg, ex)
             | None => (inc, cg, ex)
             end)
          (0, 0, 0) ls in
  Ok (inc - cg - ex).

(** [BalanceSheetService._calculate_snapshot] *)
Definition calculate_snapshot (db : Session) (business_id year month : Z)
    (as_of : date) (opening_retained_earnings : Z) : result Snapshot :=
  let upto := fun d => date_le d as_of in
  let accts := query_accounts db business_id in
  (* assets *)
  let '(bank_balance, bank_accts) := foldl (bank_step db as_of) (0, []) accts in
  let inventory_value := 0 in
  let asset_purchases := sum_amounts (query_special_lines db business_id upto ASSET_PURCHASE) in
  let total_assets := bank_balance + inventory_value + asset_purchases in
  (* liabilities *)
  let '(credit_card_balance, cards) := foldl (card_step db as_of) (0, []) accts in
  let loans := sum_amounts (query_special_lines db business_id upto LOAN_IN) in
  let loan_repayments := sum_amounts (query_special_lines db business_id upto LOAN_REPAYMENT) in
  let net_loans := loans - loan_repayments in
  let txns := query_transactions db business_id upto in
  let tax_collected :=
    foldl (fun acc txn => match direction txn with IN => acc + tax_amount txn | OUT => acc end)
          0 txns in
  let tax_paid0 :=
    foldl (fun acc txn => match direction txn with IN => acc | OUT => acc + tax_amount txn end)
          0 txns in
  let tax_paid := tax_paid0 + sum_amounts (query_special_lines db business_id upto TAX_PAYMENT) in
  let tax_payable0 := tax_collected - tax_paid in
  let tax_payable := if tax_payable0 <? 0 then 0 else tax_payable0 in
  let income_tax_paid := sum_amounts (query_special_lines db business_id upto INCOME_TAX) in
  let payroll_tax_paid := sum_amounts (query_special_lines db business_id upto PAYROLL_TAX) in
  let total_liabilities :=
    credit_card_balance + net_loans + tax_payable + income_tax_paid + payroll_tax_paid in
  (* equity *)
  let capital := sum_amounts (query_special_lines db business_id upto CAPITAL) in
  let drawings := sum_amounts (query_special_lines db business_id upto DRAWINGS) in
  current_year_profit ← calculate_net_profit_ytd db business_id year as_of;
  let retained_earnings := opening_retained_earnings + current_year_profit in
  let total_equity := capital + retained_earnings - drawings in
  Ok {| as_of_date := as_of;
        assets := {| assets_total := total_assets;
                     bank_accounts_total := bank_balance;
                     bank_accounts := bank_accts;
                     inventory := inventory_value;
                     asset_purchases := asset_purchases |};
        liabilities := {| liabilities_total := total_liabilities;
                          credit_cards_total := credit_card_balance;
                          credit_cards := cards;
                          loans_received := loans;
                          loans_repayments := loan_repayments;
                          loans_net := net_loans;
                          vat := tax_payable;
                          income_tax := income_tax_paid;
                          payroll_tax := payroll_tax_paid;
                          tax_payable_total := tax_payable + income_tax_paid + payroll_tax_paid |};
        equity := {| equity_total := total_equity;
                     capital := capital;
                     retained_earnings := retained_earnings;
                     current_year_profit := current_year_profit;
                     drawings := drawings |} |}.

(** The as-of date of a month in [BalanceSheetService.generate_report]. *)
Definition month_as_of_date (year month : Z) : result date :=
  _ ← date_new year month 1;
  if month =? 12 then date_new year 12 31
  else if bool_decide (month ∈ [1; 3; 5; 7; 8; 10; 12]) then date_new year month 31
  else if month =? 2 then
    (if ((year mod 4 =? 0) && negb (year mod 100 =? 0)) || (year mod 400 =? 0)
     then date_new year month 29
     else date_new year month 28)
  else date_new year month 30.

(** The validation loop of [generate_report]. *)
Definition validate_month (data : Snapshot) : MonthValidation :=
  let net_assets := assets_total (assets data) - liabilities_total (liabilities data) in
  let equity := equity_total (equity data) in
  {| net_assets := net_assets; mv_equity := equity;
     balanced := net_assets =? equity |}.

(** [BalanceSheetService.generate_report] *)
Definition bs_generate_report (db : Session) (business_id year : Z)
    : result BalanceSheetReport :=
  match query_business db business_id with
  | None => Raise (BusinessNotFound business_id)
  | Some business =>
      let opening_retained_earnings :=
        calculate_opening_retained_earnings db business_id year in
      months ← mapM_result
        (fun month =>
           as_of ← month_as_of_date year month;
           month_data ← calculate_snapshot db business_id year month as_of
                          opening_retained_earnings;
           Ok (month, month_data))
        months_1_12;
      Ok {| bs_business_id := business_id;
            bs_year := year;
            bs_currency := currency business;
            bs_months := months;
            validation := (fun md => (md.1, validate_month md.2)) <$> months |}
  end.

(** ** Transfer validation service ([app/validation.py], lines 48-151) *)

Record TransferEntry : Type := mkTransferEntry {
  te_transaction_id : Z;
  te_line_id : Z;
  te_amount : Z
}.

Record MonthTransfers : Type := mkMonthTransfers {
  mt_month : Z;
  is_balanced : bool;
  total_transfers_out : Z;
  total_transfers_in : Z;
  difference : Z;
  transfers_out_count : Z;
  transfers_in_count : Z;
  transfers_out : list TransferEntry;
  transfers_in : list TransferEntry
}.

Record TransferValidation : Type := mkTransferValidation {
  tv_business_id : Z;
  tv_year : Z;
  tv_months : list (Z * MonthTransfers);
  all_balanced : bool;
  unbalanced_months : list Z
}.

Definition transfer_entry (line : TransactionLine) : TransferEntry :=
  {| te_transaction_id := transaction_id line; te_line_id := line_id line;
     te_amount := amount line |}.

(** The state of the loop of [_validate_month]:
    [(total_out, transfers_out, total_in, transfers_in)]. *)
Definition transfer_step (st : Z * list TransferEntry * Z * list TransferEntry)
    (line : TransactionLine) : Z * list TransferEntry * Z * list TransferEntry :=
  let '(total_out, outs, total_in, ins) := st in
  match special_type line with
  | Some TRANSFER_OUT =>
      (total_out + amount line, outs ++ [transfer_entry line], total_in, ins)
  | Some TRANSFER_IN =>
      (total_out, outs, total_in + amount line, ins ++ [transfer_entry line])
  | _ => st
  end.

(** [TransferValidationService._validate_month] *)
Definition validate_transfers_month (db : Session) (business_id year month : Z)
    : result MonthTransfers :=
  '(start_date, end_date) ← month_bounds year month;
  let transfer_lines :=
    filter (fun l => special_type l ∈ [Some TRANSFER_IN; Some TRANSFER_OUT])
           (query_lines db business_id (in_window start_date end_date month)) in
  let '(total_out, outs, total_in, ins) :=
    foldl transfer_step (0, [], 0, []) transfer_lines in
  let difference := total_out - total_in in
  Ok {| mt_month := month;
        is_balanced := difference =? 0;
        total_transfers_out := total_out;
        total_transfers_in := total_in;
        difference := difference;
        transfers_out_count := Z.of_nat (length outs);
        transfers_in_count := Z.of_nat (length ins);
        transfers_out := outs;
        transfers_in := ins |}.

(** [TransferValidationService.validate_transfers]; [month] is optional, and
    the test [if month] also sends month 0 to the whole year. *)
Definition validate_transfers (db : Session) (business_id year : Z)
    (month : option Z) : result TransferValidation :=
  let months_to_check :=
    match month with
    | Some m => if m =? 0 then months_1_12 else [m]
    | None => months_1_12
    end in
  months ← mapM_result
    (fun m => r ← validate_transfers_month db business_id year m; Ok (m, r))
    months_to_check;
  let unbalanced := filter (fun mr => is_balanced mr.2 = false) months in
  Ok {| tv_business_id := business_id;
        tv_year := year;
        tv_months := months;
        all_balanced := bool_decide (unbalanced = []);
        unbalanced_months := fst <$> unbalanced |}.

(** ** Error highlighting service ([app/validation.py], lines 158-309) *)

Inductive ValidationSeverity : Type := ERROR | WARNING | INFO.

Inductive ValidationErrorType : Type :=
  | MISSING_ALLOCATION | ALLOCATION_MISMATCH | UNBALANCED_TRANSFER
  | MISSING_TAX_RATE | UNRECONCILED_TRANSACTION.

#[global] Instance ValidationSeverity_eq_dec : EqDecision ValidationSeverity.
Proof. solve_decision. Defined.
#[global] Instance ValidationErrorType_eq_dec : EqDecision ValidationErrorType.
Proof. solve_decision. Defined.

(** The keys a finding has besides the common ones. *)
Inductive FindingDetail : Type :=
  | NoDetail
  | MismatchDetail (expected_net allocated_total diff : Z)
  | TransferDetail (transfer_type : SpecialType)
  | UnreconciledDetail (days_unreconciled : Z).

(** A finding: the dictionary a check returns.  The [message] key is a
    formatting of the other keys and is left out. *)
Record Finding : Type := mkFinding {
  f_transaction_id : Z;
  f_account_id : Z;
  f_date : date;
  f_gross_amount : Z;
  error_type : ValidationErrorType;
  severity : ValidationSeverity;
  detail : FindingDetail
}.

#[global] Instance FindingDetail_eq_dec : EqDecision FindingDetail.
Proof. solve_decision. Defined.
#[global] Instance Finding_eq_dec : EqDecision Finding.
Proof. solve_decision. Defined.

Definition finding (txn : Transaction) (ty : ValidationErrorType)
    (sev : ValidationSeverity) (d : FindingDetail) : Finding :=
  {| f_transaction_id := txn_id txn; f_account_id := account_id txn;
     f_date := txn_date txn; f_gross_amount := gross_amount txn;
     error_type := ty; severity := sev; detail := d |}.

(** [ErrorHighlightingService._check_missing_allocation] *)
Definition check_missing_allocation (db : Session) (txn : Transaction) : option Finding :=
  match lines db txn with
  | [] => Some (finding txn MISSING_ALLOCATION ERROR NoDetail)
  | _ => None
  end.

(** [ErrorHighlightingService._check_allocation_mismatch] *)
Definition check_allocation_mismatch (db : Session) (txn : Transaction) : option Finding :=
  match lines db txn with
  | [] => None
  | ls =>
      let total_allocated := sum_amounts ls in
      let expected_amount :=
        if net_amount txn =? 0 then gross_amount txn - tax_amount txn
        else net_amount txn in
      if 1 <? Z.abs (total_allocated - expected_amount)
      then Some (finding txn ALLOCATION_MISMATCH ERROR
                   (MismatchDetail expected_amount total_allocated
                      (Z.abs (total_allocated - expected_amount))))
      else None
  end.

(** [ErrorHighlightingService._check_transfer_balance] *)
Definition check_transfer_balance (db : Session) (txn : Transaction) : option Finding :=
  let transfer_lines :=
    filter (fun l => special_type l ∈ [Some TRANSFER_IN; Some TRANSFER_OUT])
           (lines db txn) in
  match transfer_lines with
  | first :: _ =>
      if bool_decide (length transfer_lines = length (lines db txn))
      then match special_type first with
           | Some st => Some (finding txn UNBALANCED_TRANSFER WARNING (TransferDetail st))
           | None => None
           end
      else None
  | [] => None
  end.

(** [ErrorHighlightingService._check_unreconciled_transaction]; [today] is
    the value of [datetime.date.today()] when the check runs. *)
Definition check_unreconciled_transaction (today : date) (txn : Transaction)
    : option Finding :=
  if is_reconciled txn then None
  else
    let days_old := days_between today (txn_date txn) in
    if 30 <? days_old
    then Some (finding txn UNRECONCILED_TRANSACTION WARNING (UnreconciledDetail days_old))
    else None.

Record TransactionValidation : Type := mkTransactionValidation {
  tx_business_id : Z;
  tx_year : option Z;
  tx_month : option Z;
  total_transactions_checked : Z;
  error_count : Z;
  warning_count : Z;
  errors : list Finding;
  warnings : list Finding
}.

(** [[x] if x else []] for an optional finding. *)
Definition opt_list {A : Type} (o : option A) : list A :=
  match o with Some x => [x] | None => [] end.

(** The findings the body of the loop of [validate_transactions] appends for
    one transaction: to [errors] and to [warnings]. *)
Definition txn_errors (db : Session) (txn : Transaction) : list Finding :=
  opt_list (check_missing_allocation db txn)
  ++ opt_list (check_allocation_mismatch db txn).

Definition txn_warnings (db : Session) (today : date) (txn : Transaction) : list Finding :=
  opt_list (check_transfer_balance db txn)
  ++ opt_list (check_unreconciled_transaction today txn).

(** A Python test [if x] on an optional integer. *)
Definition truthy (x : option Z) : bool :=
  match x with Some v => negb (v =? 0) | None => false end.

(** [extract('year', Transaction.date)] and [extract('month', ...)]. *)
Definition extract_year (t : Transaction) : Z := year (txn_date t).
Definition extract_month (t : Transaction) : Z := month (txn_date t).

(** The transactions [validate_transactions] checks: those of the business,
    of the year if [year] is given, of the month if both are given. *)
Definition transactions_in_scope (db : Session) (business_id : Z)
    (year month : option Z) : list Transaction :=
  filter (fun t =>
            txn_in_business db business_id t
            && (if truthy year then bool_decide (Some (extract_year t) = year) else true)
            && (if truthy month && truthy year
                then bool_decide (Some (extract_month t) = month) else true))
         (transactions db).

(** [ErrorHighlightingService.validate_transactions], run when the system
    clock shows the date [today]. *)
Definition validate_transactions (today : date) (db : Session) (business_id : Z)
    (year month : option Z) : TransactionValidation :=
  let txns := transactions_in_scope db business_id year month in
  let '(errors, warnings) :=
    foldl (fun '(errors, warnings) txn =>
             (errors ++ txn_errors db txn, warnings ++ txn_warnings db today txn))
          ([], []) txns in
  {| tx_business_id := business_id;
     tx_year := year;
     tx_month := month;
     total_transactions_checked := Z.of_nat (length txns);
     error_count := Z.of_nat (length errors);
     warning_count := Z.of_nat (length warnings);
     errors := errors;
     warnings := warnings |}.

(** ** Reference notions used to state the properties *)

(** The lines whose transaction belongs to the business and is dated in the
    calendar month [m] of the year [y]. *)
Definition lines_of_month (db : Session) (business_id y m : Z) : list TransactionLine :=
  query_lines db business_id (fun d => (year d =? y) && (month d =? m)).

(** Those of them that carry the special type [st]. *)
Definition special_lines_of_month (db : Session) (business_id y m : Z)
    (st : SpecialType) : list TransactionLine :=
  filter (fun l => special_type l = Some st) (lines_of_month db business_id y m).

(** The dates of all the transactions are dates of the calendar. *)
Definition valid_dates (db : Session) : Prop :=
  Forall (fun t => valid_date (txn_date t)) (transactions db).

(** Scenario 5 of the specification: a transfer of 2000.00 out of account A
    and a transfer of 1500.00 into account B in March 2026. *)
Definition scenario5 : Session :=
  {| businesses := [ {| biz_id := 1; biz_name := "Test"; currency := "CHF" |} ];
     accounts :=
       [ {| acc_id := 1; acc_business_id := 1; acc_name := "A"; acc_type := BANK;
            opening_balance := 0 |};
         {| acc_id := 2; acc_business_id := 1; acc_name := "B"; acc_type := BANK;
            opening_balance := 0 |} ];
     categories := [];
     transactions :=
       [ {| txn_id := 1; account_id := 1; txn_date := mkdate 2026 3 10;
            direction := OUT; gross_amount := 200000; tax_amount := 0;
            net_amount := 200000; is_reconciled := false |};
         {| txn_id := 2; account_id := 2; txn_date := mkdate 2026 3 10;
            direction := IN; gross_amount := 150000; tax_amount := 0;
            net_amount := 150000; is_reconciled := false |} ];
     transaction_lines :=
       [ {| line_id := 1; transaction_id := 1; category_id := None;
            special_type := Some TRANSFER_OUT; amount := 200000 |};
         {| line_id := 2; transaction_id := 2; category_id := None;
            special_type := Some TRANSFER_IN; amount := 150000 |} ] |}.

(** A business with two credit cards, one owing 100.00 and one owing 200.00,
    and no transactions. *)
Definition two_cards : Session :=
  {| businesses := [ {| biz_id := 1; biz_name := "Test"; currency := "CHF" |} ];
     accounts :=
       [ {| acc_id := 1; acc_business_id := 1; acc_name := "Card A";
            acc_type := CREDIT_CARD; opening_balance := -10000 |};
         {| acc_id := 2; acc_business_id := 1; acc_name := "Card B";
            acc_type := CREDIT_CARD; opening_balance := -20000 |} ];
     categories := []; transactions := []; transaction_lines := [] |}.

(** A business with one bank account that pays 100.00 of income tax on
    2026-01-15. *)
Definition income_tax_ledger : Session :=
  {| businesses := [ {| biz_id := 1; biz_name := "Test"; currency := "CHF" |} ];
     accounts :=
       [ {| acc_id := 1; acc_business_id := 1; acc_name := "Bank";
            acc_type := BANK; opening_balance := 0 |} ];
     categories := [];
     transactions :=
       [ {| txn_id := 1; account_id := 1; txn_date := mkdate 2026 1 15;
            direction := OUT; gross_amount := 10000; tax_amount := 0;
            net_amount := 10000; is_reconciled := true |} ];
     transaction_lines :=
       [ {| line_id := 1; transaction_id := 1; category_id := None;
            special_type := Some INCOME_TAX; amount := 10000 |} ] |}.

(** The sum of the liabilities of the credit cards of a snapshot, account by
    account. *)
Definition sum_card_liabilities (cards : list CardEntry) : Z :=
  foldr (fun c acc => liability c + acc) 0 cards.

(** A session with no row in any table. *)
Definition no_business : Session :=
  {| businesses := []; accounts := []; categories := [];
     transactions := []; transaction_lines := [] |}.

(** The section of a month of the P&L for a type of category. *)
Definition section (ty : CategoryType) (md : PLMonth) : PLSection :=
  match ty with
  | INCOME => income md
  | COGS => cogs md
  | EXPENSE => expenses md
  end.

(** The categories of a business of one type, as [generate_report] passes
    them to [_calculate_month]. *)
Definition cats_of_type (db : Session) (business_id : Z) (ty : CategoryType)
    : list Category :=
  filter (fun c => cat_type c = ty) (query_categories db business_id).

(** Among the lines [ls], those allocated to a category of [cats] that is
    reported under the code [k]: the activity of the code. *)
Definition lines_with_code (cats : list Category) (k : string)
    (ls : list TransactionLine) : list TransactionLine :=
  filter (fun l => line_in_cats (cat_id <$> cats) l = true /\ cat_code cats l = k) ls.

(** The amounts the months report under the code [k] for a type, months
    without the code left out. *)
Definition monthly_amounts (ty : CategoryType) (k : string)
    (months : list (Z * PLMonth)) : list Z :=
  omap (fun p => by_category (section ty p.2) !! k) months.

Definition sum_Z (xs : list Z) : Z := foldr Z.add 0 xs.

(** Scenario 3 of the specification: an income of 100.00 net and an expense
    of 50.00 net in January 2026, both taxed at 8.1%, and nothing else. *)
Definition scenario3 : Session :=
  {| businesses := [ {| biz_id := 1; biz_name := "Test"; currency := "CHF" |} ];
     accounts :=
       [ {| acc_id := 1; acc_business_id := 1; acc_name := "Bank";
            acc_type := BANK; opening_balance := 0 |} ];
     categories :=
       [ {| cat_id := 1; cat_business_id := 1; code := "head_1"; cat_type := INCOME |};
         {| cat_id := 6; cat_business_id := 1; code := "head_6"; cat_type := COGS |};
         {| cat_id := 12; cat_business_id := 1; code := "head_12"; cat_type := EXPENSE |} ];
     transactions :=
       [ {| txn_id := 1; account_id := 1; txn_date := mkdate 2026 1 15;
            direction := IN; gross_amount := 10810; tax_amount := 810;
            net_amount := 10000; is_reconciled := true |};
         {| txn_id := 2; account_id := 1; txn_date := mkdate 2026 1 20;
            direction := OUT; gross_amount := 5405; tax_amount := 405;
            net_amount := 5000; is_reconciled := true |} ];
     transaction_lines :=
       [ {| line_id := 1; transaction_id := 1; category_id := Some 1;
            special_type := None; amount := 10000 |};
         {| line_id := 2; transaction_id := 2; category_id := Some 12;
            special_type := None; amount := 5000 |} ] |}.

(** A transaction of 100.00 dated 2026-01-01 and not reconciled. *)
Definition stale_txn : Transaction :=
  {| txn_id := 1; account_id := 1; txn_date := mkdate 2026 1 1;
     direction := IN; gross_amount := 10000; tax_amount := 0;
     net_amount := 10000; is_reconciled := false |}.

(** A business with that transaction alone, allocated in full to an income
    category. *)
Definition unreconciled_ledger : Session :=
  {| businesses := [ {| biz_id := 1; biz_name := "Test"; currency := "CHF" |} ];
     accounts :=
       [ {| acc_id := 1; acc_business_id := 1; acc_name := "Bank";
            acc_type := BANK; opening_balance := 0 |} ];
     categories :=
       [ {| cat_id := 1; cat_business_id := 1; code := "head_1"; cat_type := INCOME |} ];
     transactions := [ stale_txn ];
     transaction_lines :=
       [ {| line_id := 1; transaction_id := 1; category_id := Some 1;
            special_type := None; amount := 10000 |} ] |}.

(** The same transaction with no allocation line at all. *)
Definition unallocated_ledger : Session :=
  {| businesses := businesses unreconciled_ledger;
     accounts := accounts unreconciled_ledger;
     categories := categories unreconciled_ledger;
     transactions := transactions unreconciled_ledger;
     transaction_lines := [] |}.

(** The findings of a validation that are about the transaction [txn]. *)
Definition findings_about (txn : Transaction) (fs : list Finding) : list Finding :=
  filter (fun f => f_transaction_id f = txn_id txn) fs.

(** [sum(f(x) for x in xs)] *)
Definition sum_with {A : Type} (f : A -> Z) (xs : list A) : Z :=
  foldr (fun x acc => f x + acc) 0 xs.

(** The gross amount of a transaction with the sign of its direction. *)
Definition signed_gross (t : Transaction) : Z :=
  match direction t with
  | IN => gross_amount t
  | OUT => - gross_amount t
  end.

(** The VAT position of a business as of a date: the tax of the IN
    transactions, less the tax of the OUT transactions, less the TAX_PAYMENT
    lines. *)
Definition vat_position (db : Session) (business_id : Z) (d : date) : Z :=
  let upto := fun d' => date_le d' d in
  sum_with (fun t => match direction t with
                     | IN => tax_amount t
                     | OUT => - tax_amount t
                     end)
           (query_transactions db business_id upto)
  - sum_amounts (query_special_lines db business_id upto TAX_PAYMENT).

(** A line that fits a transaction of the direction [dir] in a double-entry
    reading of the ledger: money comes IN as income, capital, a loan or a
    transfer from another account, and goes OUT as COGS, an expense, an asset
    purchase, a loan repayment, drawings, a payment of sales tax, of income
    tax or of payroll tax, or a transfer to another account; the line has
    either a category of the business or a special type. *)
Definition line_fits (db : Session) (business_id : Z) (dir : TransactionDirection)
    (l : TransactionLine) : Prop :=
  match category_id l, special_type l with
  | Some i, None =>
      i <> 0
      /\ Exists (fun c => cat_id c = i
                          /\ match dir with
                             | IN => cat_type c = INCOME
                             | OUT => cat_type c = COGS \/ cat_type c = EXPENSE
                             end)
                (query_categories db business_id)
  | None, Some st =>
      match dir with
      | IN => st ∈ [CAPITAL; LOAN_IN; TRANSFER_IN]
      | OUT => st ∈ [ASSET_PURCHASE; LOAN_REPAYMENT; DRAWINGS; TAX_PAYMENT;
                     TRANSFER_OUT; INCOME_TAX; PAYROLL_TAX]
      end
  | _, _ => False
  end.

(** A ledger kept by double entry, for the business: identifiers are keys,
    and every transaction of the business is allocated in full (its lines sum
    to gross less tax) with lines that fit its direction.  Accounts of any
    type, transfers between accounts and transactions of earlier years are
    all allowed. *)
Record double_entry_ledger (db : Session) (business_id : Z) : Prop := {
  de_account_ids : NoDup (acc_id <$> accounts db);
  de_txn_ids : NoDup (txn_id <$> transactions db);
  de_cat_ids : NoDup (cat_id <$> categories db);
  de_txns :
    Forall (fun t =>
              txn_in_business db business_id t ->
              sum_amounts (lines db t) = gross_amount t - tax_amount t
              /\ Forall (line_fits db business_id (direction t)) (lines db t))
           (transactions db)
}.

(** The contribution of a line to the year-to-date net profit, as the loop of
    [_calculate_net_profit_ytd] adds it to income, COGS or expenses. *)
Definition profit_contribution (db : Session) (business_id : Z)
    (line : TransactionLine) : Z :=
  match category_id line with
  | Some i =>
      if i =? 0 then 0
      else if bool_decide (i ∈ cat_id <$> cats_of_type db business_id INCOME)
      then amount line
      else if bool_decide (i ∈ cat_id <$> cats_of_type db business_id COGS)
      then - amount line
      else if bool_decide (i ∈ cat_id <$> cats_of_type db business_id EXPENSE)
      then - amount line
      else 0
  | None => 0
  end.

(** The amount of a line if it carries the special type [st], else 0. *)
Definition special_amount (st : SpecialType) (line : TransactionLine) : Z :=
  if decide (special_type line = Some st) then amount line else 0.



(** The amounts of the lines of the business dated up to [d] that carry the
    special type [st], added up; and the amounts of the transactions of an
    account dated up to [d], signed by their direction, added up. *)
Definition special_total (db : Session) (business_id : Z) (d : date)
    (st : SpecialType) : Z :=
  sum_with (special_amount st) (query_lines db business_id (fun d' => date_le d' d)).

Definition account_activity (db : Session) (a : Account) (d : date) : Z :=
  sum_with signed_gross (query_account_transactions db a d).

(** The profit of the lines of the business dated before the year [y]. *)
Definition prior_profit (db : Session) (business_id y : Z) : Z :=
  sum_with (profit_contribution db business_id)
           (query_lines db business_id (fun d' => date_lt d' (mkdate y 1 1))).

(** What the balance sheet of the date [d] shows as the liability of the
    credit cards: the amount owed on the last credit card of the business. *)
Definition card_liability_shown (db : Session) (business_id : Z) (d : date) : Z :=
  match last (filter (fun a => acc_type a = CREDIT_CARD)
                     (query_accounts db business_id)) with
  | Some a => Z.max 0 (- (opening_balance a + account_activity db a d))
  | None => 0
  end.

(** By how much the net assets of the balance sheet of the year [y] as of
    [d] exceed its equity, read off the ledger:
    - a negative VAT position, which the sheet shows as no liability;
    - the transfers received less the transfers sent;
    - twice the income tax and payroll tax paid, which the bank pays and the
      sheet adds to the liabilities;
    - the profit of earlier years, which the equity leaves out;
    - the opening balances of the credit cards, which the opening retained
      earnings subtract;
    - less the activity of the accounts that are not bank accounts, which no
      asset shows;
    - less the credit card liability the sheet shows. *)
Definition balance_discrepancy (db : Session) (business_id y : Z) (d : date) : Z :=
  Z.min 0 (vat_position db business_id d)
  + (special_total db business_id d TRANSFER_IN
     - special_total db business_id d TRANSFER_OUT)
  - 2 * (special_total db business_id d INCOME_TAX
         + special_total db business_id d PAYROLL_TAX)
  + prior_profit db business_id y
  + sum_with opening_balance
      (filter (fun a => acc_type a = CREDIT_CARD) (query_accounts db business_id))
  - sum_with (fun a => account_activity db a d)
      (filter (fun a => acc_type a <> BANK) (query_accounts db business_id))
  - card_liability_shown db business_id d.


(** [models.create_default_accounts(business_id)]: two bank accounts and a
    credit card, opened at 0.00.  The identifiers are those the table gives
    the rows when it held none before. *)
Definition create_default_accounts (business_id : Z) : list Account :=
  [ {| acc_id := 1; acc_business_id := business_id; acc_name := "Bank Account #1";
       acc_type := BANK; opening_balance := 0 |};
    {| acc_id := 2; acc_business_id := business_id; acc_name := "Bank Account #2";
       acc_type := BANK; opening_balance := 0 |};
    {| acc_id := 3; acc_business_id := business_id; acc_name := "Credit Card Account";
       acc_type := CREDIT_CARD; opening_balance := 0 |} ].

(** [models.create_default_categories(business_id)]: [head_1] to [head_5]
    for income, [head_6] to [head_11] for the cost of goods sold, [head_12]
    to [head_26] for expenses. *)
Definition create_default_categories (business_id : Z) : list Category :=
  let category := fun (type : CategoryType) (i : Z) =>
    {| cat_id := i; cat_business_id := business_id;
       code := "head_" +:+ pretty i; cat_type := type |} in
  (category INCOME <$> seqZ 1 5)
  ++ (category COGS <$> seqZ 6 6)
  ++ (category EXPENSE <$> seqZ 12 15).

(** The ledger of [tests/test_reports.py],
    [test_balance_sheet_validation_equity_equals_net_assets]: a business with
    the default accounts and categories and one income of 1000.00 on
    2026-01-15, received on the first bank account and allocated to the
    first income category. *)
Definition default_accounts_ledger : Session :=
  {| businesses := [ {| biz_id := 1; biz_name := "Test Business"; currency := "CHF" |} ];
     accounts := create_default_accounts 1;
     categories := create_default_categories 1;
     transactions :=
       [ {| txn_id := 1; account_id := 1; txn_date := mkdate 2026 1 15;
            direction := IN; gross_amount := 100000; tax_amount := 0;
            net_amount := 100000; is_reconciled := false |} ];
     transaction_lines :=
       [ {| line_id := 1; transaction_id := 1; category_id := Some 1;
            special_type := None; amount := 100000 |} ] |}.

(** The same business after a transfer of 200.00 from the first bank account
    to the second on 2026-02-10 and an expense of 50.00 paid with the credit
    card on 2026-03-05. *)
Definition transfer_and_card_ledger : Session :=
  {| businesses := businesses default_accounts_ledger;
     accounts := accounts default_accounts_ledger;
     categories := categories default_accounts_ledger;
     transactions :=
       transactions default_accounts_ledger
       ++ [ {| txn_id := 2; account_id := 1; txn_date := mkdate 2026 2 10;
               direction := OUT; gross_amount := 20000; tax_amount := 0;
               net_amount := 20000; is_reconciled := false |};
            {| txn_id := 3; account_id := 2; txn_date := mkdate 2026 2 10;
               direction := IN; gross_amount := 20000; tax_amount := 0;
               net_amount := 20000; is_reconciled := false |};
            {| txn_id := 4; account_id := 3; txn_date := mkdate 2026 3 5;
               direction := OUT; gross_amount := 5000; tax_amount := 0;
               net_amount := 5000; is_reconciled := false |} ];
     transaction_lines :=
       transaction_lines default_accounts_ledger
       ++ [ {| line_id := 2; transaction_id := 2; category_id := None;
               special_type := Some TRANSFER_OUT; amount := 20000 |};
            {| line_id := 3; transaction_id := 3; category_id := None;
               special_type := Some TRANSFER_IN; amount := 20000 |};
            {| line_id := 4; transaction_id := 4; category_id := Some 12;
               special_type := None; amount := 5000 |} ] |}.

(** ** Proof steps *)

(** Equality of two present amounts from equality of the amounts. *)
Ltac some_eq := apply (f_equal (@Some Z)).

(** Closes [valid_dates] for a ledger written out in full. *)
Ltac solve_valid_dates :=
  unfold valid_dates; simpl;
  repeat (apply Forall_cons; split); try apply Forall_nil;
  vm_compute; repeat split; intros ?; discriminate.

(** ** Sales tax report service ([app/reports.py], lines 623-735) *)

Record TaxMonth : Type := mkTaxMonth {
  tm_month : Z;
  tax_collected : Z;
  tax_paid : Z;
  tax_payments : Z;
  net_tax_payable : Z
}.

Record TaxSummary : Type := mkTaxSummary {
  total_tax_collected : Z;
  total_tax_paid : Z;
  total_tax_payments : Z;
  summary_net_tax_payable : Z
}.

Record TaxReport : Type := mkTaxReport {
  txr_business_id : Z;
  txr_year : Z;
  txr_currency : string;
  txr_months : list (Z * TaxMonth);
  summary : TaxSummary
}.

(** [TaxReportService._calculate_month] *)
Definition tax_calculate_month (db : Session) (business_id year month : Z)
    : result TaxMonth :=
  '(start_date, end_date) ← month_bounds year month;
  let txns := query_transactions db business_id (in_window start_date end_date month) in
  let tax_collected :=
    foldl (fun acc txn => match direction txn with
                          | IN => acc + tax_amount txn
                          | OUT => acc
                          end) 0 txns in
  let tax_paid :=
    foldl (fun acc txn => match direction txn with
                          | OUT => if 0 <? tax_amount txn then acc + tax_amount txn else acc
                          | IN => acc
                          end) 0 txns in
  let tax_payments :=
    sum_amounts (query_special_lines db business_id
                   (in_window start_date end_date month) TAX_PAYMENT) in
  let net_tax_payable := tax_collected - tax_paid - tax_payments in
  Ok {| tm_month := month;
        tax_collected := tax_collected;
        tax_paid := tax_paid;
        tax_payments := tax_payments;
        net_tax_payable := net_tax_payable |}.

(** The accumulation of the summary in the loop of
    [TaxReportService.generate_report]. *)
Definition summary_step (s : TaxSummary) (month_data : TaxMonth) : TaxSummary :=
  {| total_tax_collected := total_tax_collected s + tax_collected month_data;
     total_tax_paid := total_tax_paid s + tax_paid month_data;
     total_tax_payments := total_tax_payments s + tax_payments month_data;
     summary_net_tax_payable := summary_net_tax_payable s + net_tax_payable month_data |}.

(** [TaxReportService.generate_report] *)
Definition tax_generate_report (db : Session) (business_id year : Z) : result TaxReport :=
  match query_business db business_id with
  | None => Raise (BusinessNotFound business_id)
  | Some business =>
      months ← mapM_result
        (fun month =>
           month_data ← tax_calculate_month db business_id year month;
           Ok (month, month_data))
        months_1_12;
      Ok {| txr_business_id := business_id;
            txr_year := year;
            txr_currency := currency business;
            txr_months := months;
            summary :=
              foldl summary_step
                    {| total_tax_collected := 0; total_tax_paid := 0;
                       total_tax_payments := 0; summary_net_tax_payable := 0 |}
                    (snd <$> months) |}
  end.

(** ** Validation summary service ([app/validation.py], lines 316-368) *)

Record ValidationReport : Type := mkValidationReport {
  vr_business_id : Z;
  vr_year : Z;
  status : string;
  has_errors : bool;
  has_warnings : bool;
  total_errors : Z;
  total_warnings : Z;
  unbalanced_transfer_months : list Z;
  transfer_validation : TransferValidation;
  transaction_validation : TransactionValidation
}.

(** [ValidationSummaryService.get_full_validation_report], run when the
    system clock shows the date [today]. *)
Definition get_full_validation_report (today : date) (db : Session)
    (business_id year : Z) : result ValidationReport :=
  transfer_validation ← validate_transfers db business_id year None;
  let transaction_errors :=
    validate_transactions today db business_id (Some year) None in
  let has_errors :=
    (0 <? error_count transaction_errors) || negb (all_balanced transfer_validation) in
  let has_warnings := 0 <? warning_count transaction_errors in
  let status :=
    if has_errors then "invalid" else if has_warnings then "warnings" else "valid" in
  Ok {| vr_business_id := business_id;
        vr_year := year;
        status := status;
        has_errors := has_errors;
        has_warnings := has_warnings;
        total_errors := error_count transaction_errors;
        total_warnings := warning_count transaction_errors;
        unbalanced_transfer_months := unbalanced_months transfer_validation;
        transfer_validation := transfer_validation;
        transaction_validation := transaction_errors |}.

(** ** Account balance ([app/crud.py], lines 92-93 and 146-177) *)

(** [get_account(db, account_id)] *)
Definition get_account (db : Session) (acct_id : Z) : option Account :=
  head (filter (fun a => acc_id a = acct_id) (accounts db)).

Record AccountBalance : Type := mkAccountBalance {
  ab_account_id : Z;
  ab_account_name : string;
  ab_opening_balance : Z;
  current_balance : Z;
  total_in : Z;
  total_out : Z
}.

(** The loop of [get_account_balance]: the state is [(total_in, total_out)]. *)
Definition totals_step (st : Z * Z) (tx : Transaction) : Z * Z :=
  match direction tx with
  | IN => (st.1 + gross_amount tx, st.2)
  | OUT => (st.1, st.2 + gross_amount tx)
  end.

(** [get_account_balance(db, account_id)]; the result [None] is the Python
    [None] returned for an unknown account. *)
Definition get_account_balance (db : Session) (acct_id : Z) : option AccountBalance :=
  match get_account db acct_id with
  | None => None
  | Some account =>
      let txns := filter (fun t => account_id t = acct_id) (transactions db) in
      let '(total_in, total_out) := foldl totals_step (0, 0) txns in
      Some {| ab_account_id := acc_id account;
              ab_account_name := acc_name account;
              ab_opening_balance := opening_balance account;
              current_balance := opening_balance account + total_in - total_out;
              total_in := total_in;
              total_out := total_out |}
  end.

(** ** The two validators of the allocations of a request
    ([app/schemas.py], lines 179-182 and 306-324; [app/crud.py], lines
    439-464) *)

Section Allocations.

(** The values of [decimal.Decimal] that a request carries, with the two
    computations the validators make on them: [sum(a.amount for a in
    allocations)] and the test [abs(total_allocated - gross_amount) >
    Decimal("0.01")].  Either is [None] where the arithmetic of [decimal]
    raises its signal (an overflow of the sum or of the difference). *)
Variable Decimal : Type.
Variable decimal_sum : list Decimal -> option Decimal.
Variable decimal_apart : Decimal -> Decimal -> option bool.

(** [schemas.TransactionAllocation] as a request carries it: the special
    type is any string, the amount any decimal. *)
Record AllocationBody : Type := mkAllocationBody {
  body_category_id : option Z;
  body_special_type : option string;
  body_amount : Decimal
}.

(** Why a list of allocations is refused; the constructors carry the values
    the messages of the source are formatted from. *)
Inductive AllocationError : Type :=
  | NoAllocation
  | SumMismatch (total_allocated expected : Decimal)
  | MissingTarget (index : option nat).

(** How a validator ends: it accepts ([(True, "")] in [crud], the body
    returned in the schema), it refuses ([(False, message)] in [crud], a
    [ValueError] in the schema), or the decimal arithmetic raises. *)
Inductive Verdict : Type :=
  | Accepted
  | Refused (e : AllocationError)
  | ArithmeticRaised.

(** [alloc.category_id is None and alloc.special_type is None] *)
Definition untargeted (a : AllocationBody) : bool :=
  match body_category_id a, body_special_type a with
  | None, None => true
  | _, _ => false
  end.

(** The first allocation, with its index, that has neither a category nor a
    special type. *)
Fixpoint first_untargeted (i : nat) (allocs : list AllocationBody) : option nat :=
  match allocs with
  | [] => None
  | a :: rest => if untargeted a then Some i else first_untargeted (S i) rest
  end.

(** [crud.validate_transaction_allocations(gross_amount, allocations)] *)
Definition validate_transaction_allocations (gross_amount : Decimal)
    (allocs : list AllocationBody) : Verdict :=
  match allocs with
  | [] => Refused NoAllocation
  | _ =>
      match decimal_sum (body_amount <$> allocs) with
      | None => ArithmeticRaised
      | Some total_allocated =>
          match decimal_apart total_allocated gross_amount with
          | None => ArithmeticRaised
          | Some true => Refused (SumMismatch total_allocated gross_amount)
          | Some false =>
              match first_untargeted 0 allocs with
              | Some i => Refused (MissingTarget (Some i))
              | None => Accepted
              end
          end
      end
  end.

(** The validator [TransactionCreate.validate_allocations] of the schema,
    run on the fields [gross_amount] and [allocations] of the body; the
    message of its last refusal does not name the allocation. *)
Definition schema_validate_allocations (gross_amount : Decimal)
    (allocs : list AllocationBody) : Verdict :=
  match allocs with
  | [] => Refused NoAllocation
  | _ =>
      match decimal_sum (body_amount <$> allocs) with
      | None => ArithmeticRaised
      | Some total_allocated =>
          match decimal_apart total_allocated gross_amount with
          | None => ArithmeticRaised
          | Some true => Refused (SumMismatch total_allocated gross_amount)
          | Some false =>
              if existsb untargeted allocs
              then Refused (MissingTarget None)
              else Accepted
          end
      end
  end.

End Allocations.

Arguments mkAllocationBody {Decimal} _ _ _.
Arguments body_category_id {Decimal} _.
Arguments body_special_type {Decimal} _.
Arguments body_amount {Decimal} _.
Arguments NoAllocation {Decimal}.
Arguments SumMismatch {Decimal} _ _.
Arguments MissingTarget {Decimal} _.
Arguments Accepted {Decimal}.
Arguments Refused {Decimal} _.
Arguments ArithmeticRaised {Decimal}.
Arguments untargeted {Decimal} _.
Arguments first_untargeted {Decimal} _ _.
Arguments validate_transaction_allocations {Decimal} _ _ _ _.
Arguments schema_validate_allocations {Decimal} _ _ _ _.

(** ** Creation and deletion of a transaction ([app/crud.py], lines 253-254,
    328-376 and 430-432) *)

(** The allocation of a request that the table of lines holds as it is: the
    special type is a member of [SpecialType] and the amount a
    [Numeric(15, 2)] value, in cents.  A request with another string for the
    special type, or with an amount that has more decimal places or digits
    than the column keeps, is outside this model of the creation. *)
Record TransactionAllocation : Type := mkTransactionAllocation {
  alloc_category_id : option Z;
  alloc_special_type : option SpecialType;
  alloc_amount : Z
}.

(** [schemas.TransactionCreate] for such a request, without the free-text
    fields. *)
Record TransactionCreate : Type := mkTransactionCreate {
  tc_date : date;
  tc_direction : TransactionDirection;
  tc_gross_amount : Z;
  tc_tax_rate_id : option Z;
  tc_tax_amount : option Z;
  tc_net_amount : option Z;
  allocations : list TransactionAllocation
}.

(** The database with the table of tax rates, which the reports do not
    read. *)
Record Store : Type := mkStore {
  session : Session;
  tax_rates : list TaxRate
}.

(** [get_tax_rate(db, tax_rate_id)] *)
Definition get_tax_rate (db : Store) (tax_rate_id : Z) : option TaxRate :=
  head (filter (fun r => tr_id r = tax_rate_id) (tax_rates db)).

(** The identifier SQLite gives to a new row of a table whose identifiers
    are [ids] (an [INTEGER PRIMARY KEY] without [AUTOINCREMENT]): one more
    than the largest in use, 1 for an empty table. *)
Definition next_id (ids : list Z) : Z :=
  match ids with
  | [] => 1
  | i :: rest => foldr Z.max i rest + 1
  end.

(** The lines [create_transaction] adds for the allocations, numbered from
    [first_id]. *)
Fixpoint new_lines (tid first_id : Z) (allocs : list TransactionAllocation)
    : list TransactionLine :=
  match allocs with
  | [] => []
  | a :: rest =>
      {| line_id := first_id; transaction_id := tid;
         category_id := alloc_category_id a;
         special_type := alloc_special_type a;
         amount := alloc_amount a |}
      :: new_lines tid (first_id + 1) rest
  end.

(** The row [create_transaction] builds: the amounts of the request when it
    gives them, the computed ones otherwise. *)
Definition new_transaction (db : Store) (tid acct_id : Z) (tc : TransactionCreate)
    : Transaction :=
  let tax_rate :=
    match tc_tax_rate_id tc with
    | Some i => if i =? 0 then None else get_tax_rate db i
    | None => None
    end in
  let tax_amount :=
    match tc_tax_amount tc with
    | Some t => t
    | None => calculate_tax_amount (tc_gross_amount tc) tax_rate
    end in
  let net_amount :=
    match tc_net_amount tc with
    | Some n => n
    | None => calculate_net_amount (tc_gross_amount tc) tax_amount
    end in
  {| txn_id := tid; account_id := acct_id; txn_date := tc_date tc;
     direction := tc_direction tc; gross_amount := tc_gross_amount tc;
     tax_amount := tax_amount; net_amount := net_amount;
     is_reconciled := false |}.

(** [crud.create_transaction(db, account_id, transaction)]: the database
    after the commit and the transaction returned, for a request whose
    amounts the [Numeric(15, 2)] columns keep as they are (the rows added
    and their identifiers do not depend on the amounts). *)
Definition create_transaction (db : Store) (acct_id : Z) (tc : TransactionCreate)
    : Store * Transaction :=
  let s := session db in
  let tid := next_id (txn_id <$> transactions s) in
  let txn := new_transaction db tid acct_id tc in
  let ls := new_lines tid (next_id (line_id <$> transaction_lines s)) (allocations tc) in
  ({| session := {| businesses := businesses s;
                    accounts := accounts s;
                    categories := categories s;
                    transactions := transactions s ++ [txn];
                    transaction_lines := transaction_lines s ++ ls |};
      tax_rates := tax_rates db |},
   txn).

(** [crud.delete_transaction(db, transaction)]: the row goes, and with the
    cascade of the relationship [Transaction.lines] its lines go. *)
Definition delete_transaction (db : Store) (txn : Transaction) : Store :=
  let s := session db in
  {| session := {| businesses := businesses s;
                   accounts := accounts s;
                   categories := categories s;
                   transactions := filter (fun t => txn_id t <> txn_id txn) (transactions s);
                   transaction_lines :=
                     filter (fun l => transaction_id l <> txn_id txn) (transaction_lines s) |};
     tax_rates := tax_rates db |}.

(** The transactions of the business dated in the calendar month [m] of the
    year [y]. *)
Definition transactions_of_month (db : Session) (business_id y m : Z) : list Transaction :=
  query_transactions db business_id (fun d => (year d =? y) && (month d =? m)).

(** Scenario 4 of the specification: an account opened with 1000.00, one IN
    transaction of 500.00 and one OUT transaction of 200.00. *)
Definition scenario4 : Session :=
  {| businesses := [ {| biz_id := 1; biz_name := "Test"; currency := "CHF" |} ];
     accounts :=
       [ {| acc_id := 1; acc_business_id := 1; acc_name := "Bank";
            acc_type := BANK; opening_balance := 100000 |} ];
     categories := [];
     transactions :=
       [ {| txn_id := 1; account_id := 1; txn_date := mkdate 2026 1 10;
            direction := IN; gross_amount := 50000; tax_amount := 0;
            net_amount := 50000; is_reconciled := true |};
         {| txn_id := 2; account_id := 1; txn_date := mkdate 2026 1 15;
            direction := OUT; gross_amount := 20000; tax_amount := 0;
            net_amount := 20000; is_reconciled := true |} ];
     transaction_lines := [] |}.

(** Every allocation line belongs to a transaction of the table (the foreign
    key of [transaction_lines.transaction_id]). *)
Definition lines_reference_transactions (db : Session) : Prop :=
  Forall (fun l => transaction_id l ∈ txn_id <$> transactions db) (transaction_lines db).

(** Scenario 3 with its tax rate of 8.1%. *)
Definition scenario3_store : Store :=
  {| session := scenario3; tax_rates := [ {| tr_id := 1; rate := 810 |} ] |}.

(** A request to record 108.10 received on 2026-02-01 at the tax rate 1,
    allocated in full to the income category 1. *)
Definition taxed_request : TransactionCreate :=
  {| tc_date := mkdate 2026 2 1; tc_direction := IN; tc_gross_amount := 10810;
     tc_tax_rate_id := Some 1; tc_tax_amount := None; tc_net_amount := None;
     allocations := [ {| alloc_category_id := Some 1; alloc_special_type := None;
                         alloc_amount := 10810 |} ] |}.

(** A ledger with the transaction that [create_transaction] stores for
    108.10 received at the tax rate of 8.1% and allocated in full to an
    income category: the tax is the rounded quotient, 100.00, and the net the
    remainder, 8.10. *)
Definition split_txn : Transaction :=
  {| txn_id := 1; account_id := 1; txn_date := mkdate 2026 2 1;
     direction := IN; gross_amount := 10810; tax_amount := 10000;
     net_amount := 810; is_reconciled := false |}.

Definition split_ledger : Session :=
  {| businesses := [ {| biz_id := 1; biz_name := "Test"; currency := "CHF" |} ];
     accounts :=
       [ {| acc_id := 1; acc_business_id := 1; acc_name := "Bank";
            acc_type := BANK; opening_balance := 0 |} ];
     categories :=
       [ {| cat_id := 1; cat_business_id := 1; code := "head_1"; cat_type := INCOME |} ];
     transactions := [ split_txn ];
     transaction_lines :=
       [ {| line_id := 1; transaction_id := 1; category_id := Some 1;
            special_type := None; amount := 10810 |} ] |}.

(** The lines whose transaction belongs to the business and is dated in the
    year [y], in a month up to [m]. *)
Definition lines_through_month (db : Session) (business_id y m : Z)
    : list TransactionLine :=
  query_lines db business_id (fun d => (year d =? y) && (month d <=? m)).

(** The net profits of the months of a P&L report up to the month [m],
    added up. *)
Definition net_profit_through (months : list (Z * PLMonth)) (m : Z) : Z :=
  sum_with (fun p => net_profit p.2) (filter (fun p => p.1 <= m) months).

(** The amounts of a per-category dictionary, added up. *)
Definition dict_total (d : gmap string Z) : Z := sum_Z ((map_to_list d).*2).

(** The tax of a transaction with the sign of its direction. *)
Definition signed_tax (t : Transaction) : Z :=
  match direction t with
  | IN => tax_amount t
  | OUT => - tax_amount t
  end.

(** The net tax payable of the months of a sales tax report up to the month
    [m], added up. *)
Definition net_tax_through (months : list (Z * TaxMonth)) (m : Z) : Z :=
  sum_with (fun p => net_tax_payable p.2) (filter (fun p => p.1 <= m) months).

(** * Properties *)

(** ** Tax split *)

Lemma quantize_cents_nearest (num den : Z) :
  0 < den ->
  Z.abs (2 * (quantize_cents num den * den - num)) <= den
  /\ (Z.abs (2 * (quantize_cents num den * den - num)) = den ->
      Z.even (quantize_cents num den) = true).
Proof.
  intros Hden. unfold quantize_cents.
  pose proof (Z.div_mod num den ltac:(lia)) as Hdm.
  pose proof (Z.mod_pos_bound num den Hden) as Hr.
  set (q := num / den) in *. set (r := num mod den) in *.
  destruct (Z.ltb_spec (2 * r) den) as [Hlt | Hge].
  - replace (q * den - num) with (- r) by lia. split; lia.
  - destruct (Z.ltb_spec den (2 * r)) as [Hgt | Hle].
    + replace ((q + 1) * den - num) with (den - r) by lia. split; lia.
    + assert (Heq : 2 * r = den) by lia.
      destruct (Z.even q) eqn:Hev.
      * replace (q * den - num) with (- r) by lia. split; [lia | done].
      * replace ((q + 1) * den - num) with (den - r) by lia.
        split; [lia |]. intros _.
        replace (q + 1) with (Z.succ q) by lia.
        rewrite Z.even_succ, <- Z.negb_even, Hev. done.
Qed.

Lemma quantize_cents_bounds (num den c : Z) :
  0 < den -> 0 <= num -> num <= c * den ->
  0 <= quantize_cents num den <= c.
Proof.
  intros Hden Hnum Hc. unfold quantize_cents.
  pose proof (Z.div_mod num den ltac:(lia)) as Hdm.
  pose proof (Z.mod_pos_bound num den Hden) as Hr.
  assert (Hq0 : 0 <= num / den) by (apply Z.div_pos; lia).
  assert (Hqc : num / den <= c).
  { apply Z.div_le_upper_bound; lia. }
  set (q := num / den) in *. set (r := num mod den) in *.
  assert (Hup : 0 < r -> q + 1 <= c).
  { intros Hpos. destruct (Z.eq_dec q c) as [-> | Hne]; [nia | lia]. }
  repeat case_match; lia.
Qed.

Lemma tax_split_no_rate (gross : Z) : tax_split gross None = (0, gross).
Proof. unfold tax_split, calculate_net_amount. simpl. f_equal. lia. Qed.

Lemma tax_split_zero_rate (gross : Z) (tr : TaxRate) :
  rate tr = 0 -> tax_split gross (Some tr) = (0, gross).
Proof.
  intros H. unfold tax_split, calculate_net_amount, calculate_tax_amount.
  rewrite H. simpl. f_equal. lia.
Qed.

(** C1.  The claim wants [net = round2(gross / (1 + rate))] and
    [tax = gross - net], so net 100.00 and tax 8.10 for gross 108.10 at
    8.1%.  [calculate_tax_amount] returns the rounded quotient as the TAX and
    [calculate_net_amount] the remainder as the net: for gross 108.10 at 8.1%
    the stored tax is 100.00 and the stored net is 8.10.  With no rate, or
    the rate 0, the split is tax 0.00 and net = gross, as claimed. *)
Theorem C1_tax_split_quotient_is_tax :
  tax_split 10810 (Some {| tr_id := 1; rate := 810 |}) = (10000, 810)
  /\ (forall gross, tax_split gross None = (0, gross))
  /\ (forall gross tr, rate tr = 0 -> tax_split gross (Some tr) = (0, gross))
  /\ (forall gross tr, rate tr <> 0 ->
        (tax_split gross (Some tr)).1
        = quantize_cents (gross * 10000) (10000 + rate tr)).
Proof.
  split; [reflexivity |].
  split; [apply tax_split_no_rate |].
  split; [apply tax_split_zero_rate |].
  intros gross tr Hr. unfold tax_split, calculate_tax_amount. simpl.
  destruct (Z.eqb_spec (rate tr) 0); [done | reflexivity].
Qed.

(** C4.  For every gross amount [>= 0] and every rate in [[0, 1)], absent
    rate included, the stored pair satisfies [net + tax = gross], [net >= 0]
    and [tax >= 0]. *)
Theorem C4_tax_split_identity (gross : Z) (tax_rate : option TaxRate) :
  0 <= gross ->
  (forall tr, tax_rate = Some tr -> 0 <= rate tr < 10000) ->
  let '(tax, net) := tax_split gross tax_rate in
  net + tax = gross /\ 0 <= net /\ 0 <= tax.
Proof.
  intros Hg Hrate. unfold tax_split, calculate_net_amount.
  assert (Hb : 0 <= calculate_tax_amount gross tax_rate <= gross).
  { unfold calculate_tax_amount. destruct tax_rate as [tr |]; [| lia].
    specialize (Hrate tr eq_refl).
    destruct (Z.eqb_spec (rate tr) 0); [lia |].
    apply quantize_cents_bounds; nia. }
  lia.
Qed.

Lemma C4_tax_split_identity_witness :
  let '(tax, net) := tax_split 10810 (Some {| tr_id := 1; rate := 810 |}) in
  net + tax = 10810 /\ 0 <= net /\ 0 <= tax.
Proof.
  apply (C4_tax_split_identity 10810 (Some {| tr_id := 1; rate := 810 |})).
  - lia.
  - intros tr [= <-]. simpl. lia.
Defined.

(** C5, as stated, fails: 0.03 at the rate 0.20 has the quotient 0.025, an
    exact half-cent; half-up rounding gives 0.03, [calculate_tax_amount]
    gives 0.02. *)
Lemma C5_half_up_counterexample :
  calculate_tax_amount 3 (Some {| tr_id := 1; rate := 2000 |}) = 2
  /\ round_half_up (3 * 10000) (10000 + 2000) = 3
  /\ calculate_tax_amount 3 (Some {| tr_id := 1; rate := 2000 |})
     <> round_half_up (3 * 10000) (10000 + 2000).
Proof. vm_compute. repeat split; congruence. Qed.

(** C5, amended.  The rounding to 2 decimal places is applied once, to the
    quotient [gross / (1 + rate)], and is to the nearest cent with an exact
    half-cent going to the even cent (half-even): the result [t] is within
    half a cent of the quotient, and when it is exactly half a cent away
    [t] is even. *)
Theorem C5_rounding_half_even (gross : Z) (tr : TaxRate) :
  rate tr <> 0 -> 0 < 10000 + rate tr ->
  let t := calculate_tax_amount gross (Some tr) in
  let d := 10000 + rate tr in
  Z.abs (2 * (t * d - gross * 10000)) <= d
  /\ (Z.abs (2 * (t * d - gross * 10000)) = d -> Z.even t = true).
Proof.
  intros Hr Hd. cbv zeta. unfold calculate_tax_amount.
  destruct (Z.eqb_spec (rate tr) 0); [done |].
  by apply quantize_cents_nearest.
Qed.

Lemma C5_rounding_half_even_witness :
  let t := calculate_tax_amount 3 (Some {| tr_id := 1; rate := 2000 |}) in
  let d := 10000 + 2000 in
  Z.abs (2 * (t * d - 3 * 10000)) <= d
  /\ (Z.abs (2 * (t * d - 3 * 10000)) = d -> Z.even t = true).
Proof.
  apply (C5_rounding_half_even 3 {| tr_id := 1; rate := 2000 |}); simpl; lia.
Defined.

(** ** Dates and month windows *)

Lemma days_in_month_bounds (y m : Z) : 28 <= days_in_month y m <= 31.
Proof. unfold days_in_month. repeat case_match; lia. Qed.

Lemma date_new_ok (y m d : Z) :
  1 <= y <= 9999 -> 1 <= m <= 12 -> 1 <= d <= days_in_month y m ->
  date_new y m d = Ok (mkdate y m d).
Proof.
  intros Hy Hm Hd. unfold date_new.
  rewrite !andb_true_intro; [done | ..]; repeat split; try apply Z.leb_le; lia.
Qed.

Lemma month_bounds_ok (y m : Z) :
  1 <= y <= 9999 -> 1 <= m <= 12 ->
  month_bounds y m
  = Ok (mkdate y m 1, if m =? 12 then mkdate y 12 31 else mkdate y (m + 1) 1).
Proof.
  intros Hy Hm. unfold month_bounds.
  pose proof (days_in_month_bounds y m).
  rewrite (date_new_ok y m 1) by lia. simpl.
  destruct (Z.eqb_spec m 12) as [-> | Hne].
  - rewrite (date_new_ok y 12 31); [done | lia | lia | by vm_compute].
  - pose proof (days_in_month_bounds y (m + 1)).
    rewrite (date_new_ok y (m + 1) 1) by lia. done.
Qed.

(** For a date of the calendar, the window of a month selects exactly the
    dates of that month. *)
Lemma in_window_month (y m : Z) (d : date) :
  1 <= m <= 12 -> valid_date d ->
  in_window (mkdate y m 1)
            (if m =? 12 then mkdate y 12 31 else mkdate y (m + 1) 1) m d
  = (year d =? y) && (month d =? m).
Proof.
  intros Hm (Hy & Hmo & Hd).
  pose proof (days_in_month_bounds (year d) (month d)).
  unfold in_window, date_le, date_lt.
  destruct (Z.eqb_spec m 12) as [-> | Hne]; simpl;
    repeat (match goal with
            | |- context [?a <? ?b] => destruct (Z.ltb_spec a b)
            | |- context [?a =? ?b] => destruct (Z.eqb_spec a b)
            end; simpl; try lia; try done).
Qed.

Lemma query_lines_ext (db : Session) (business_id : Z) (f g : date -> bool) :
  (forall t, t ∈ transactions db -> txn_in_business db business_id t ->
             f (txn_date t) = g (txn_date t)) ->
  query_lines db business_id f = query_lines db business_id g.
Proof.
  intros Hfg. unfold query_lines.
  apply list_filter_iff. intros l.
  assert (Hex : forall ts, (forall t, t ∈ ts -> t ∈ transactions db) ->
    existsb (fun t => (txn_id t =? transaction_id l)
                      && txn_in_business db business_id t && f (txn_date t)) ts
    = existsb (fun t => (txn_id t =? transaction_id l)
                      && txn_in_business db business_id t && g (txn_date t)) ts).
  { induction ts as [| t ts IH]; intros Hin; [done |]. simpl.
    rewrite IH by (intros t' Ht'; apply Hin; by right). f_equal.
    destruct (txn_in_business db business_id t) eqn:Hb;
      [| by rewrite !andb_false_r].
    rewrite (Hfg t); [done | apply Hin; left | by rewrite Hb]. }
  rewrite Hex; done.
Qed.

Lemma month_window_lines (db : Session) (business_id y m : Z) :
  1 <= m <= 12 -> valid_dates db ->
  query_lines db business_id
    (in_window (mkdate y m 1)
       (if m =? 12 then mkdate y 12 31 else mkdate y (m + 1) 1) m)
  = lines_of_month db business_id y m.
Proof.
  intros Hm Hv. apply query_lines_ext. intros t Ht _.
  apply in_window_month; [done |].
  unfold valid_dates in Hv. rewrite Forall_forall in Hv. by apply Hv.
Qed.

(** ** Sums of line amounts *)

Lemma foldl_amounts (acc : Z) (ls : list TransactionLine) :
  foldl (fun acc l => acc + amount l) acc ls = acc + sum_amounts ls.
Proof.
  unfold sum_amounts. revert acc.
  induction ls as [| l ls IH]; intros acc; simpl; [lia |].
  rewrite IH, (IH (0 + amount l)). lia.
Qed.

Lemma sum_amounts_cons (l : TransactionLine) (ls : list TransactionLine) :
  sum_amounts (l :: ls) = amount l + sum_amounts ls.
Proof. unfold sum_amounts at 1. simpl. rewrite foldl_amounts. lia. Qed.

Lemma sum_amounts_app (ls1 ls2 : list TransactionLine) :
  sum_amounts (ls1 ++ ls2) = sum_amounts ls1 + sum_amounts ls2.
Proof.
  induction ls1 as [| l ls1 IH]; simpl; [done |].
  rewrite !sum_amounts_cons, IH. lia.
Qed.

(** ** Transfer validation *)

Lemma transfer_fold (ls : list TransactionLine) (a b : Z) (o i : list TransferEntry) :
  foldl transfer_step (a, o, b, i) ls
  = (a + sum_amounts (filter (fun l => special_type l = Some TRANSFER_OUT) ls),
     o ++ (transfer_entry <$> filter (fun l => special_type l = Some TRANSFER_OUT) ls),
     b + sum_amounts (filter (fun l => special_type l = Some TRANSFER_IN) ls),
     i ++ (transfer_entry <$> filter (fun l => special_type l = Some TRANSFER_IN) ls)).
Proof.
  revert a b o i. induction ls as [| l ls IH]; intros a b o i; simpl.
  - rewrite !app_nil_r. repeat f_equal; unfold sum_amounts; simpl; lia.
  - rewrite !filter_cons.
    destruct (special_type l) as [[] |] eqn:Hst; simpl;
      repeat case_decide; try congruence; rewrite IH;
      rewrite ?sum_amounts_cons, ?fmap_cons, <- ?app_assoc; simpl;
      repeat (match goal with |- (_, _) = (_, _) => f_equal end);
      try done; lia.
Qed.

Lemma filter_special_transfer (st : SpecialType) (ls : list TransactionLine) :
  st = TRANSFER_IN \/ st = TRANSFER_OUT ->
  filter (fun l => special_type l = Some st)
         (filter (fun l => special_type l ∈ [Some TRANSFER_IN; Some TRANSFER_OUT]) ls)
  = filter (fun l => special_type l = Some st) ls.
Proof.
  intros Hst. rewrite list_filter_filter. apply list_filter_iff.
  intros l. split; [by intros [? _] |].
  intros H. split; [done |]. rewrite H. destruct Hst as [-> | ->]; set_solver.
Qed.

(** C6.  For a business, a year and a month, over a ledger whose dates are
    dates of the calendar, the transfer validation of the month returns a
    result in which the totals are the sums of the TRANSFER_OUT and of the
    TRANSFER_IN line amounts of that month, [difference] is the signed
    difference of the two, [is_balanced] is true exactly when the difference
    is 0 (no tolerance), and the two lists name the contributing lines: entry
    by entry, in the order of the lines, the identifier of the transaction,
    the identifier of the line and the amount of the line, with the counts
    being the numbers of those lines.  The result is a function of the tables
    of the session, which are only read. *)
Theorem C6_transfer_validation (db : Session) (business_id y m : Z) :
  1 <= y <= 9999 -> 1 <= m <= 12 -> valid_dates db ->
  let outs := special_lines_of_month db business_id y m TRANSFER_OUT in
  let ins := special_lines_of_month db business_id y m TRANSFER_IN in
  exists r,
    validate_transfers_month db business_id y m = Ok r
    /\ mt_month r = m
    /\ total_transfers_out r = sum_amounts outs
    /\ total_transfers_in r = sum_amounts ins
    /\ difference r = sum_amounts outs - sum_amounts ins
    /\ (is_balanced r = true <-> sum_amounts outs - sum_amounts ins = 0)
    /\ te_transaction_id <$> transfers_out r = transaction_id <$> outs
    /\ te_line_id <$> transfers_out r = line_id <$> outs
    /\ te_amount <$> transfers_out r = amount <$> outs
    /\ te_transaction_id <$> transfers_in r = transaction_id <$> ins
    /\ te_line_id <$> transfers_in r = line_id <$> ins
    /\ te_amount <$> transfers_in r = amount <$> ins
    /\ transfers_out_count r = Z.of_nat (length outs)
    /\ transfers_in_count r = Z.of_nat (length ins).
Proof.
  intros Hy Hm Hv outs ins. unfold validate_transfers_month.
  rewrite month_bounds_ok by done. simpl.
  rewrite month_window_lines by done.
  rewrite transfer_fold.
  rewrite !filter_special_transfer by auto.
  fold (special_lines_of_month db business_id y m TRANSFER_OUT).
  fold (special_lines_of_month db business_id y m TRANSFER_IN).
  fold outs. fold ins.
  eexists. split; [reflexivity |]. simpl.
  rewrite <- !list_fmap_compose, !length_fmap.
  repeat split; try lia; try done.
Qed.

Lemma C6_transfer_validation_scenario5 :
  exists r,
    validate_transfers_month scenario5 1 2026 3 = Ok r
    /\ is_balanced r = false /\ difference r = 50000.
Proof.
  destruct (C6_transfer_validation scenario5 1 2026 3)
    as (r & Hr & _ & _ & _ & Hdiff & Hbal & _).
  - lia.
  - lia.
  - solve_valid_dates.
  - exists r. split; [exact Hr |].
    assert (Hd : difference r = 50000) by (rewrite Hdiff; reflexivity).
    split; [| exact Hd].
    destruct (is_balanced r); [| reflexivity].
    destruct Hbal as [Hbal _]. specialize (Hbal eq_refl).
    rewrite <- Hdiff, Hd in Hbal. discriminate.
Defined.

(** ** The exception monad *)

Lemma mapM_result_ext {A B : Type} (f g : A -> result B) (xs : list A) :
  (forall x, x ∈ xs -> f x = g x) -> mapM_result f xs = mapM_result g xs.
Proof.
  induction xs as [| x xs IH]; intros H; simpl; [done |].
  rewrite H by left. rewrite IH; [done |]. intros x' Hx'. apply H. by right.
Qed.

Lemma mapM_result_pairs {A B : Type} (g : A -> result B) (xs : list A) :
  (forall x, x ∈ xs -> exists y, g x = Ok y) ->
  exists ys,
    mapM_result (fun x => y ← g x; Ok (x, y)) xs = Ok ys
    /\ fst <$> ys = xs
    /\ Forall (fun p => g p.1 = Ok p.2) ys.
Proof.
  induction xs as [| x xs IH]; intros H; simpl.
  - exists []. repeat split. constructor.
  - destruct (H x) as [y Hy]; [left |].
    destruct IH as (ys & Hys & Hfst & Hall).
    { intros x' Hx'. apply H. by right. }
    exists ((x, y) :: ys). rewrite Hy. simpl. rewrite Hys. simpl.
    repeat split; [| by constructor].
    change (x :: (fst <$> ys) = x :: xs). by rewrite Hfst.
Qed.

(** ** Balance sheet *)

Lemma month_as_of_date_ok (y m : Z) :
  1 <= y <= 9999 -> m ∈ months_1_12 ->
  month_as_of_date y m = Ok (mkdate y m (days_in_month y m)).
Proof.
  intros Hy Hm. unfold month_as_of_date.
  assert (H12 : 1 <= m <= 12).
  { unfold months_1_12 in Hm. set_unfold. lia. }
  pose proof (days_in_month_bounds y m).
  rewrite (date_new_ok y m 1) by lia. simpl.
  unfold months_1_12 in Hm. set_unfold.
  destruct Hm as [-> | [-> | [-> | [-> | [-> | [-> | [-> | [-> | [-> | [-> | [-> | [-> | []]]]]]]]]]]]];
    simpl; unfold days_in_month, is_leap; simpl;
    try (rewrite date_new_ok; [done | lia | lia | by vm_compute]).
  destruct ((y mod 4 =? 0) && negb (y mod 100 =? 0) || (y mod 400 =? 0)) eqn:Hl;
    (rewrite date_new_ok; [done | lia | lia |]);
    unfold days_in_month, is_leap; rewrite Hl; simpl; lia.
Qed.

Lemma calculate_net_profit_ytd_ok (db : Session) (business_id y : Z) (as_of : date) :
  1 <= y <= 9999 -> exists p, calculate_net_profit_ytd db business_id y as_of = Ok p.
Proof.
  intros Hy. unfold calculate_net_profit_ytd.
  rewrite (date_new_ok y 1 1); [| lia | lia | by vm_compute]. simpl.
  destruct (foldl _ _ _) as [[inc cg] ex]. eauto.
Qed.

(** The state of the credit card loop after the accounts [accts]: the balance
    variable holds the liability of the last credit card only. *)
Lemma card_fold (db : Session) (as_of : date) (accts : list Account)
    (st : Z * list CardEntry) :
  let cards := filter (fun a => acc_type a = CREDIT_CARD) accts in
  (foldl (card_step db as_of) st accts).1
  = match last cards with
    | Some a => Z.max 0 (- account_balance db a as_of)
    | None => st.1
    end
  /\ (foldl (card_step db as_of) st accts).2
     = st.2 ++ ((fun a => {| ce_id := acc_id a; ce_name := acc_name a;
                             ce_balance := account_balance db a as_of;
                             liability := Z.max 0 (- account_balance db a as_of) |})
                <$> cards).
Proof.
  revert st. induction accts as [| a accts IH]; intros st; simpl.
  - by rewrite app_nil_r.
  - rewrite filter_cons. destruct (IH (card_step db as_of st a)) as [IH1 IH2].
    rewrite IH1, IH2. clear IH IH1 IH2. unfold card_step.
    destruct (acc_type a) eqn:Hty; case_decide; try congruence; try done.
    simpl. split.
    + rewrite last_cons. destruct (last _); [done |].
      destruct (Z.ltb_spec (account_balance db a as_of) 0); lia.
    + rewrite <- app_assoc. simpl. do 3 f_equal.
      destruct (Z.ltb_spec (account_balance db a as_of) 0); lia.
Qed.

Lemma calculate_snapshot_ok (db : Session) (business_id y m : Z) (as_of : date)
    (opening : Z) :
  1 <= y <= 9999 ->
  exists snap,
    calculate_snapshot db business_id y m as_of opening = Ok snap
    /\ as_of_date snap = as_of
    /\ credit_cards_total (liabilities snap)
       = (foldl (card_step db as_of) (0, []) (query_accounts db business_id)).1
    /\ credit_cards (liabilities snap)
       = (foldl (card_step db as_of) (0, []) (query_accounts db business_id)).2.
Proof.
  intros Hy. unfold calculate_snapshot.
  destruct (foldl (bank_step db as_of) _ _) as [bank_balance bank_accts].
  destruct (foldl (card_step db as_of) _ _) as [ccb cards].
  destruct (calculate_net_profit_ytd_ok db business_id y as_of Hy) as [p Hp].
  rewrite Hp. simpl. eexists. split; [reflexivity |]. done.
Qed.

(** C3.  The claim wants the credit-card component of the liabilities to be
    the sum over all the credit cards of each card's negative balance as a
    positive magnitude.  The loop of [_calculate_snapshot] assigns the
    variable [credit_card_balance] for each card where the loop over the bank
    accounts adds to [bank_balance], so the component is the liability of the
    last card alone: with two cards owing 100.00 and 200.00 the per-card
    entries carry 100.00 and 200.00, and the component, and with it the
    total of the liabilities, is 200.00 and not 300.00. *)
Theorem C3_credit_cards_total_is_last_card :
  exists snap,
    calculate_snapshot two_cards 1 2026 1 (mkdate 2026 1 31) 0 = Ok snap
    /\ (liability <$> credit_cards (liabilities snap)) = [10000; 20000]
    /\ sum_card_liabilities (credit_cards (liabilities snap)) = 30000
    /\ credit_cards_total (liabilities snap) = 20000
    /\ liabilities_total (liabilities snap) = 20000.
Proof. eexists. split; [vm_compute; reflexivity |]. by vm_compute. Qed.

(** The general form of the same fact: in every snapshot the credit-card
    component is the liability of the last credit card of the business, and
    each per-card entry carries that card's own liability. *)
Lemma credit_cards_total_last (db : Session) (business_id y m : Z) (as_of : date)
    (opening : Z) :
  1 <= y <= 9999 ->
  exists snap,
    calculate_snapshot db business_id y m as_of opening = Ok snap
    /\ credit_cards_total (liabilities snap)
       = match last (filter (fun a => acc_type a = CREDIT_CARD)
                            (query_accounts db business_id)) with
         | Some a => Z.max 0 (- account_balance db a as_of)
         | None => 0
         end
    /\ Forall (fun c => liability c = Z.max 0 (- ce_balance c))
              (credit_cards (liabilities snap)).
Proof.
  intros Hy.
  destruct (calculate_snapshot_ok db business_id y m as_of opening Hy)
    as (snap & Hs & _ & Ht & Hc).
  destruct (card_fold db as_of (query_accounts db business_id) (0, [])) as [H1 H2].
  exists snap. split; [done |]. rewrite Ht, Hc, H1, H2. split; [done |].
  simpl. apply Forall_fmap. by apply Forall_true.
Qed.


(** ** P&L: the sections of a month *)

Lemma lookup_dict_add (k k' : string) (v : Z) (d : gmap string Z) :
  dict_add k v d !! k'
  = if decide (k = k') then Some (default 0 (d !! k) + v) else d !! k'.
Proof. unfold dict_add. apply lookup_insert. Qed.

Lemma section_fold (cats : list Category) (k : string)
    (ls : list TransactionLine) (acc : PLSection) :
  by_category (foldl (section_step cats) acc ls) !! k
  = match lines_with_code cats k ls with
    | [] => by_category acc !! k
    | L => Some (default 0 (by_category acc !! k) + sum_amounts L)
    end
  /\ total (foldl (section_step cats) acc ls)
     = total acc + sum_amounts (filter (fun l => line_in_cats (cat_id <$> cats) l = true) ls).
Proof.
  revert acc. induction ls as [| l ls IH]; intros acc; simpl.
  - split; [done |]. unfold sum_amounts; simpl; lia.
  - destruct (IH (section_step cats acc l)) as [IHc IHt]. rewrite IHc, IHt.
    clear IH IHc IHt. unfold lines_with_code, section_step.
    destruct (line_in_cats (cat_id <$> cats) l) eqn:Hin; simpl.
    + rewrite (filter_cons_True (fun l => line_in_cats (cat_id <$> cats) l = true))
        by done.
      rewrite sum_amounts_cons. split; [| lia].
      rewrite lookup_dict_add.
      destruct (decide (cat_code cats l = k)) as [Hk | Hk].
      * subst k. rewrite filter_cons_True by done. simpl.
        destruct (filter _ ls) as [| l' L'] eqn:HL.
        -- some_eq. unfold sum_amounts. simpl. lia.
        -- some_eq. rewrite (sum_amounts_cons l (l' :: L')). lia.
      * rewrite filter_cons_False by tauto. done.
    + rewrite (filter_cons_False (fun l => line_in_cats (cat_id <$> cats) l = true))
        by congruence.
      rewrite filter_cons_False by (intros [? _]; congruence).
      done.
Qed.

Lemma section_of_lookup (cats : list Category) (k : string) (ls : list TransactionLine) :
  by_category (section_of cats ls) !! k
  = match lines_with_code cats k ls with
    | [] => None
    | L => Some (sum_amounts L)
    end.
Proof.
  unfold section_of. destruct (section_fold cats k ls empty_section) as [H _].
  unfold empty_section in H. rewrite H. simpl. rewrite lookup_empty. simpl.
  destruct (lines_with_code cats k ls); [done |]. some_eq. lia.
Qed.

Lemma pl_calculate_month_ok (db : Session) (business_id y m : Z)
    (income_cats cogs_cats expense_cats : list Category) :
  1 <= y <= 9999 -> 1 <= m <= 12 -> valid_dates db ->
  let ls := lines_of_month db business_id y m in
  exists md,
    pl_calculate_month db business_id y m income_cats cogs_cats expense_cats = Ok md
    /\ by_category (income md) = by_category (section_of income_cats ls)
    /\ by_category (cogs md) = by_category (section_of cogs_cats ls)
    /\ by_category (expenses md) = by_category (section_of expense_cats ls)
    /\ total (income md) = total (section_of income_cats ls)
    /\ total (cogs md) = total (section_of cogs_cats ls)
    /\ total (expenses md) = total (section_of expense_cats ls)
    /\ inventory_adjustment md = 0
    /\ gross_profit md = total (income md) - total (cogs md)
    /\ net_profit md = gross_profit md - total (expenses md).
Proof.
  intros Hy Hm Hv ls. unfold pl_calculate_month.
  rewrite month_bounds_ok by done. simpl.
  rewrite month_window_lines by done. fold ls.
  eexists. split; [reflexivity |]. simpl. repeat split; lia.
Qed.

(** ** P&L: year to date *)

Lemma merge_list_lookup (l : list (string * Z)) (acc : gmap string Z) (k : string) :
  NoDup (fst <$> l) ->
  foldl (fun d kv => dict_add kv.1 kv.2 d) acc l !! k
  = match (list_to_map l : gmap string Z) !! k with
    | Some v => Some (default 0 (acc !! k) + v)
    | None => acc !! k
    end.
Proof.
  revert acc. induction l as [| [k0 v0] l IH]; intros acc Hnd; simpl; [done |].
  apply NoDup_cons in Hnd as [Hk0 Hnd]. rewrite IH by done.
  rewrite lookup_dict_add. simpl.
  destruct (decide (k0 = k)) as [<- | Hne].
  - rewrite lookup_insert_eq.
    rewrite (not_elem_of_list_to_map_1 l k0) by done. done.
  - rewrite lookup_insert_ne by done. done.
Qed.

Lemma merge_by_category_lookup (acc m : gmap string Z) (k : string) :
  merge_by_category acc m !! k
  = match m !! k with
    | Some v => Some (default 0 (acc !! k) + v)
    | None => acc !! k
    end.
Proof.
  unfold merge_by_category. rewrite merge_list_lookup.
  - by rewrite list_to_map_to_list.
  - apply NoDup_fst_map_to_list.
Qed.

Lemma ytd_fold_section (ty : CategoryType) (ms : list PLMonth) (acc : PLMonth) :
  section ty (foldl ytd_step acc ms)
  = foldl merge_section (section ty acc) (section ty <$> ms).
Proof.
  revert acc. induction ms as [| m ms IH]; intros acc; simpl; [done |].
  rewrite IH. by destruct ty.
Qed.

Lemma sum_Z_cons (x : Z) (xs : list Z) : sum_Z (x :: xs) = x + sum_Z xs.
Proof. reflexivity. Qed.

Lemma merge_section_lookup (acc s : PLSection) (k : string) :
  by_category (merge_section acc s) !! k
  = match by_category s !! k with
    | Some v => Some (default 0 (by_category acc !! k) + v)
    | None => by_category acc !! k
    end.
Proof. unfold merge_section. simpl. apply merge_by_category_lookup. Qed.

Lemma merge_sections_lookup (k : string) (secs : list PLSection) (acc : PLSection) :
  by_category (foldl merge_section acc secs) !! k
  = match omap (fun s => by_category s !! k) secs with
    | [] => by_category acc !! k
    | vs => Some (default 0 (by_category acc !! k) + sum_Z vs)
    end
  /\ total (foldl merge_section acc secs)
     = total acc + sum_Z (total <$> secs).
Proof.
  revert acc. induction secs as [| s secs IH]; intros acc.
  - simpl. split; [done | lia].
  - cbn [foldl]. destruct (IH (merge_section acc s)) as [IHc IHt].
    rewrite IHc, IHt. clear IH IHc IHt.
    split; [| rewrite fmap_cons, sum_Z_cons; simpl; lia].
    cbn [omap list_omap]. rewrite merge_section_lookup.
    destruct (by_category s !! k) as [v |] eqn:Hs; [| done].
    destruct (omap _ secs) as [| v' vs]; cbn [default from_option id].
    + some_eq. rewrite sum_Z_cons. simpl. lia.
    + some_eq. rewrite (sum_Z_cons v). lia.
Qed.

Lemma omap_fmap {A B C : Type} (f : B -> option C) (g : A -> B) (l : list A) :
  omap f (g <$> l) = omap (fun x => f (g x)) l.
Proof.
  induction l as [| x l IH]; [done |].
  rewrite fmap_cons. cbn [omap list_omap]. by rewrite IH.
Qed.

Lemma ytd_fold_profit (ms : list PLMonth) (acc : PLMonth) :
  gross_profit (foldl ytd_step acc ms) = gross_profit acc + sum_Z (gross_profit <$> ms)
  /\ net_profit (foldl ytd_step acc ms) = net_profit acc + sum_Z (net_profit <$> ms)
  /\ inventory_adjustment (foldl ytd_step acc ms)
     = inventory_adjustment acc + sum_Z (inventory_adjustment <$> ms).
Proof.
  revert acc. induction ms as [| m ms IH]; intros acc.
  - simpl. lia.
  - cbn [foldl]. destruct (IH (ytd_step acc m)) as (-> & -> & ->).
    rewrite !fmap_cons, !sum_Z_cons. simpl. lia.
Qed.

(** C9.  In the P&L report of a year, over a ledger whose dates are dates of
    the calendar: (1) in each month and each of the three sections, a code is
    a key of the per-category map exactly when some line of the month is
    allocated to a category reported under that code, with the sum of those
    lines as its amount, so a category with no activity in the month is
    absent; (2) in the YTD entry a code is a key exactly when it is a key in
    at least one month, with the sum of its monthly amounts; (3) the totals,
    the inventory adjustment, the gross profit and the net profit of the YTD
    entry are the sums of the monthly ones. *)
Theorem C9_pl_sparse_months_and_ytd (db : Session) (business_id y : Z) :
  1 <= y <= 9999 -> valid_dates db ->
  exists rep,
    pl_generate_report db business_id y = Ok rep
    /\ fst <$> pl_months rep = months_1_12
    /\ (forall (m : Z) (md : PLMonth) (ty : CategoryType) (k : string),
          (m, md) ∈ pl_months rep ->
          by_category (section ty md) !! k
          = match lines_with_code (cats_of_type db business_id ty) k
                    (lines_of_month db business_id y m) with
            | [] => None
            | L => Some (sum_amounts L)
            end)
    /\ (forall (ty : CategoryType) (k : string),
          by_category (section ty (ytd rep)) !! k
          = match monthly_amounts ty k (pl_months rep) with
            | [] => None
            | vs => Some (sum_Z vs)
            end)
    /\ (forall ty : CategoryType,
          total (section ty (ytd rep))
          = sum_Z ((fun p => total (section ty p.2)) <$> pl_months rep))
    /\ inventory_adjustment (ytd rep)
       = sum_Z ((fun p => inventory_adjustment p.2) <$> pl_months rep)
    /\ gross_profit (ytd rep) = sum_Z ((fun p => gross_profit p.2) <$> pl_months rep)
    /\ net_profit (ytd rep) = sum_Z ((fun p => net_profit p.2) <$> pl_months rep).
Proof.
  intros Hy Hv. unfold pl_generate_report. cbv zeta.
  fold (cats_of_type db business_id INCOME).
  fold (cats_of_type db business_id COGS).
  fold (cats_of_type db business_id EXPENSE).
  set (g := fun month : Z =>
              pl_calculate_month db business_id y month
                (cats_of_type db business_id INCOME)
                (cats_of_type db business_id COGS)
                (cats_of_type db business_id EXPENSE)).
  rewrite (mapM_result_ext _ (fun x => s ← g x; Ok (x, s))) by done.
  assert (H12 : forall m, m ∈ months_1_12 -> 1 <= m <= 12).
  { intros m Hm. unfold months_1_12 in Hm. set_unfold. lia. }
  destruct (mapM_result_pairs g months_1_12) as (months & Hmonths & Hfst & Hall).
  { intros m Hm. unfold g.
    destruct (pl_calculate_month_ok db business_id y m
                (cats_of_type db business_id INCOME)
                (cats_of_type db business_id COGS)
                (cats_of_type db business_id EXPENSE) Hy (H12 m Hm) Hv)
      as (md & Hmd & _). eauto. }
  rewrite Hmonths. simpl. eexists. split; [reflexivity |]. simpl.
  split; [done |]. split.
  { intros m md ty k Hin.
    assert (Hm : m ∈ months_1_12).
    { rewrite <- Hfst. apply list_elem_of_fmap. by exists (m, md). }
    rewrite Forall_forall in Hall. specialize (Hall (m, md) Hin).
    unfold g in Hall. simpl in Hall.
    destruct (pl_calculate_month_ok db business_id y m
                (cats_of_type db business_id INCOME)
                (cats_of_type db business_id COGS)
                (cats_of_type db business_id EXPENSE) Hy (H12 m Hm) Hv)
      as (md' & Hmd & Hi & Hc & He & _).
    rewrite Hmd in Hall. injection Hall as ->.
    destruct ty; simpl; rewrite ?Hi, ?Hc, ?He; apply section_of_lookup. }
  unfold calculate_ytd. split.
  { intros ty k. rewrite ytd_fold_section.
    destruct (merge_sections_lookup k (section ty <$> (snd <$> months))
                (section ty ytd_zero)) as [-> _].
    unfold monthly_amounts. rewrite !omap_fmap.
    assert (Hz : by_category (section ty ytd_zero) !! k = None) by (by destruct ty).
    rewrite Hz. simpl.
    destruct (omap _ months); [done |]. some_eq. lia. }
  split.
  { intros ty. rewrite ytd_fold_section.
    destruct (merge_sections_lookup "" (section ty <$> (snd <$> months))
                (section ty ytd_zero)) as [_ ->].
    rewrite <- !list_fmap_compose.
    assert (Hz : total (section ty ytd_zero) = 0) by (by destruct ty).
    rewrite Hz. simpl. done. }
  destruct (ytd_fold_profit (snd <$> months) ytd_zero) as (-> & -> & ->).
  rewrite <- !list_fmap_compose. simpl. done.
Qed.

Lemma C9_pl_sparse_months_and_ytd_witness :
  exists rep,
    pl_generate_report scenario3 1 2026 = Ok rep
    /\ fst <$> pl_months rep = months_1_12
    /\ (forall (m : Z) (md : PLMonth) (ty : CategoryType) (k : string),
          (m, md) ∈ pl_months rep ->
          by_category (section ty md) !! k
          = match lines_with_code (cats_of_type scenario3 1 ty) k
                    (lines_of_month scenario3 1 2026 m) with
            | [] => None
            | L => Some (sum_amounts L)
            end)
    /\ (forall (ty : CategoryType) (k : string),
          by_category (section ty (ytd rep)) !! k
          = match monthly_amounts ty k (pl_months rep) with
            | [] => None
            | vs => Some (sum_Z vs)
            end)
    /\ (forall ty : CategoryType,
          total (section ty (ytd rep))
          = sum_Z ((fun p => total (section ty p.2)) <$> pl_months rep))
    /\ inventory_adjustment (ytd rep)
       = sum_Z ((fun p => inventory_adjustment p.2) <$> pl_months rep)
    /\ gross_profit (ytd rep) = sum_Z ((fun p => gross_profit p.2) <$> pl_months rep)
    /\ net_profit (ytd rep) = sum_Z ((fun p => net_profit p.2) <$> pl_months rep).
Proof.
  apply (C9_pl_sparse_months_and_ytd scenario3 1 2026).
  - lia.
  - solve_valid_dates.
Defined.

(** Scenario 3 of the specification, evaluated: the net profit is 50.00 in
    January and 0.00 in the other months, 50.00 year to date; the only keys
    are [head_1] (income) and [head_12] (expenses) in January and in the YTD
    entry. *)
Example scenario3_report :
  exists rep,
    pl_generate_report scenario3 1 2026 = Ok rep
    /\ (fun p => net_profit p.2) <$> pl_months rep = [5000; 0; 0; 0; 0; 0; 0; 0; 0; 0; 0; 0]
    /\ net_profit (ytd rep) = 5000
    /\ (fun p => map_to_list (by_category (income p.2))) <$> pl_months rep
       = [[("head_1", 10000)]; []; []; []; []; []; []; []; []; []; []; []]
    /\ map_to_list (by_category (income (ytd rep))) = [("head_1", 10000)]
    /\ map_to_list (by_category (cogs (ytd rep))) = []
    /\ map_to_list (by_category (expenses (ytd rep))) = [("head_12", 5000)].
Proof. eexists. split; [vm_compute; reflexivity |]. by vm_compute. Qed.

(** ** P&L: missing business and empty ledger *)

(** A ledger without allocation lines gives the all-zero report, for any
    business identifier. *)
Lemma pl_report_empty_ledger (db : Session) (business_id y : Z) :
  1 <= y <= 9999 -> transaction_lines db = [] ->
  pl_generate_report db business_id y
  = Ok {| pl_business_id := business_id; pl_year := y; pl_currency := "CHF";
          pl_months := (fun m => (m, ytd_zero)) <$> months_1_12;
          ytd := ytd_zero |}.
Proof.
  intros Hy Hl. unfold pl_generate_report. cbv zeta.
  rewrite (mapM_result_ext _ (fun m => Ok (m, ytd_zero))).
  - by vm_compute.
  - intros m Hm.
    assert (H12 : 1 <= m <= 12) by (unfold months_1_12 in Hm; set_unfold; lia).
    unfold pl_calculate_month. rewrite month_bounds_ok by done.
    unfold query_lines. rewrite Hl. reflexivity.
Qed.

(** The only exception of the P&L report is the one of the [date]
    constructor, for a year outside [1..9999]. *)
Example pl_report_year_out_of_range :
  pl_generate_report no_business 999 10000 = Raise DateOutOfRange.
Proof. reflexivity. Qed.

(** C7.  The claim wants the P&L report of a business identifier that does
    not exist to be reported as "not found".  [PLReportService.generate_report]
    never looks the business up: for the identifier 999 in a database without
    any business it returns the all-zero report in CHF, where the balance
    sheet service, which does look the business up, raises "not found". *)
Theorem C7_pl_report_missing_business_not_reported :
  query_business no_business 999 = None
  /\ pl_generate_report no_business 999 2026
     = Ok {| pl_business_id := 999; pl_year := 2026; pl_currency := "CHF";
             pl_months := (fun m => (m, ytd_zero)) <$> months_1_12;
             ytd := ytd_zero |}
  /\ bs_generate_report no_business 999 2026 = Raise (BusinessNotFound 999).
Proof.
  split; [reflexivity |]. split; [| reflexivity].
  apply pl_report_empty_ledger; [lia | reflexivity].
Qed.

(** ** Transaction validation *)

Lemma validate_fold {A : Type} (fe fw : A -> list Finding) (ts : list A)
    (e w : list Finding) :
  foldl (fun '(errors, warnings) t => (errors ++ fe t, warnings ++ fw t)) (e, w) ts
  = (e ++ (ts ≫= fe), w ++ (ts ≫= fw)).
Proof.
  revert e w. induction ts as [| t ts IH]; intros e w; simpl.
  - by rewrite !app_nil_r.
  - rewrite IH. by rewrite <- !app_assoc.
Qed.

Lemma validate_transactions_eq (today : date) (db : Session) (business_id : Z)
    (year month : option Z) :
  let txns := transactions_in_scope db business_id year month in
  validate_transactions today db business_id year month
  = {| tx_business_id := business_id; tx_year := year; tx_month := month;
       total_transactions_checked := Z.of_nat (length txns);
       error_count := Z.of_nat (length (txns ≫= txn_errors db));
       warning_count := Z.of_nat (length (txns ≫= txn_warnings db today));
       errors := txns ≫= txn_errors db;
       warnings := txns ≫= txn_warnings db today |}.
Proof. unfold validate_transactions. rewrite validate_fold. done. Qed.

Lemma filter_bind {A B : Type} (P : B -> Prop) `{!forall x, Decision (P x)}
    (f : A -> list B) (l : list A) :
  filter P (l ≫= f) = l ≫= (fun x => filter P (f x)).
Proof.
  induction l as [| x l IH]; [done |].
  rewrite !bind_cons, filter_app, IH. done.
Qed.

Lemma bind_opt_list {A B : Type} (f : A -> option B) (l : list A) :
  l ≫= (fun x => opt_list (f x)) = omap f l.
Proof.
  induction l as [| x l IH]; [done |].
  rewrite bind_cons, IH. cbn [omap list_omap]. by destruct (f x).
Qed.

Lemma check_transfer_balance_type (db : Session) (txn : Transaction) (f : Finding) :
  check_transfer_balance db txn = Some f ->
  error_type f = UNBALANCED_TRANSFER /\ f_transaction_id f = txn_id txn.
Proof.
  unfold check_transfer_balance. intros H.
  repeat case_match; try discriminate. by injection H as <-.
Qed.

Lemma check_unreconciled_type (today : date) (txn : Transaction) (f : Finding) :
  check_unreconciled_transaction today txn = Some f ->
  error_type f = UNRECONCILED_TRANSACTION /\ f_transaction_id f = txn_id txn.
Proof.
  unfold check_unreconciled_transaction. intros H.
  repeat case_match; try discriminate. by injection H as <-.
Qed.

(** C8, as stated, fails: [validate_transactions] has no [as_of] parameter
    and reads the system clock; for one unreconciled transaction dated
    2026-01-01 a run on 2026-01-15 gives no warning and a run on 2026-03-01
    gives the stale-reconciliation warning, with the same arguments. *)
Lemma C8_two_runs_differ_counterexample :
  warnings (validate_transactions (mkdate 2026 1 15) unreconciled_ledger 1 None None) = []
  /\ warnings (validate_transactions (mkdate 2026 3 1) unreconciled_ledger 1 None None)
     = [ {| f_transaction_id := 1; f_account_id := 1; f_date := mkdate 2026 1 1;
            f_gross_amount := 10000; error_type := UNRECONCILED_TRANSACTION;
            severity := WARNING; detail := UnreconciledDetail 59 |} ]
  /\ validate_transactions (mkdate 2026 1 15) unreconciled_ledger 1 None None
     <> validate_transactions (mkdate 2026 3 1) unreconciled_ledger 1 None None.
Proof.
  split; [reflexivity |]. split; [reflexivity |].
  intros H. apply (f_equal warning_count) in H. vm_compute in H. discriminate.
Qed.

Lemma stale_warnings (today : date) (ts : list Transaction) :
  omap (check_unreconciled_transaction today) ts
  = (fun t => {| f_transaction_id := txn_id t; f_account_id := account_id t;
                 f_date := txn_date t; f_gross_amount := gross_amount t;
                 error_type := UNRECONCILED_TRANSACTION; severity := WARNING;
                 detail := UnreconciledDetail (days_between today (txn_date t)) |})
    <$> filter (fun t => is_reconciled t = false
                         /\ 30 < days_between today (txn_date t)) ts.
Proof.
  induction ts as [| t ts IH]; [done |].
  cbn [omap list_omap]. rewrite filter_cons, IH.
  unfold check_unreconciled_transaction at 1.
  destruct (is_reconciled t) eqn:Hr.
  - rewrite decide_False by (intros [? _]; done). done.
  - destruct (Z.ltb_spec 30 (days_between today (txn_date t))) as [Hd | Hd].
    + rewrite decide_True by done. by rewrite fmap_cons.
    + rewrite decide_False by (intros [_ ?]; lia). done.
Qed.

(** C8, amended.  [validate_transactions] takes the business, the year and
    the month and reads the current date from the system clock.  Two runs on
    the same arguments, whatever the dates of the clock, check the same
    transactions and return the same errors and the same warnings other than
    the stale-reconciliation ones.  The stale-reconciliation warnings of a
    run are, in the order of the transactions, one warning for each
    transaction in scope that is not reconciled and whose date is more than
    30 days before the date the clock shows at that run; the warning names
    the transaction and reports that number of days. *)
Theorem C8_clock_reaches_only_stale_warnings (today1 today2 : date) (db : Session)
    (business_id : Z) (year month : option Z) :
  let r1 := validate_transactions today1 db business_id year month in
  let r2 := validate_transactions today2 db business_id year month in
  let stale := fun today =>
    (fun t => {| f_transaction_id := txn_id t; f_account_id := account_id t;
                 f_date := txn_date t; f_gross_amount := gross_amount t;
                 error_type := UNRECONCILED_TRANSACTION; severity := WARNING;
                 detail := UnreconciledDetail
                             (toordinal today - toordinal (txn_date t)) |})
    <$> filter (fun t => is_reconciled t = false
                         /\ 30 < toordinal today - toordinal (txn_date t))
               (transactions_in_scope db business_id year month) in
  total_transactions_checked r1 = total_transactions_checked r2
  /\ errors r1 = errors r2
  /\ error_count r1 = error_count r2
  /\ filter (fun f => error_type f <> UNRECONCILED_TRANSACTION) (warnings r1)
     = filter (fun f => error_type f <> UNRECONCILED_TRANSACTION) (warnings r2)
  /\ filter (fun f => error_type f = UNRECONCILED_TRANSACTION) (warnings r1)
     = stale today1
  /\ filter (fun f => error_type f = UNRECONCILED_TRANSACTION) (warnings r2)
     = stale today2.
Proof.
  intros r1 r2 stale.
  unfold r1, r2. rewrite !validate_transactions_eq. cbn [total_transactions_checked
    errors error_count warnings]. clear r1 r2.
  assert (Hother : forall today t,
            filter (fun f => error_type f <> UNRECONCILED_TRANSACTION)
                   (txn_warnings db today t)
            = opt_list (check_transfer_balance db t)).
  { intros today t. unfold txn_warnings. rewrite filter_app.
    destruct (check_transfer_balance db t) as [f |] eqn:Hf;
      destruct (check_unreconciled_transaction today t) as [f' |] eqn:Hf'; simpl;
      try (apply check_transfer_balance_type in Hf as [Hf _]);
      try (apply check_unreconciled_type in Hf' as [Hf' _]);
      rewrite ?filter_cons, ?filter_nil; repeat case_decide; try congruence; done. }
  assert (Hstale : forall today t,
            filter (fun f => error_type f = UNRECONCILED_TRANSACTION)
                   (txn_warnings db today t)
            = opt_list (check_unreconciled_transaction today t)).
  { intros today t. unfold txn_warnings. rewrite filter_app.
    destruct (check_transfer_balance db t) as [f |] eqn:Hf;
      destruct (check_unreconciled_transaction today t) as [f' |] eqn:Hf'; simpl;
      try (apply check_transfer_balance_type in Hf as [Hf _]);
      try (apply check_unreconciled_type in Hf' as [Hf' _]);
      rewrite ?filter_cons, ?filter_nil; repeat case_decide; try congruence; done. }
  split; [done |]. split; [done |]. split; [done |].
  rewrite !filter_bind.
  split.
  { apply list_bind_ext; [| done]. intros t. by rewrite !Hother. }
  unfold stale.
  split.
  - rewrite <- (stale_warnings today1), <- bind_opt_list.
    apply list_bind_ext; [| done]. intros t. apply Hstale.
  - rewrite <- (stale_warnings today2), <- bind_opt_list.
    apply list_bind_ext; [| done]. intros t. apply Hstale.
Qed.

Lemma filter_all {A : Type} (P : A -> Prop) `{!forall x, Decision (P x)} (l : list A) :
  Forall P l -> filter P l = l.
Proof.
  induction 1 as [| x l Hx _ IH]; [done |].
  by rewrite filter_cons_True, IH.
Qed.

Lemma filter_none {A : Type} (P : A -> Prop) `{!forall x, Decision (P x)} (l : list A) :
  Forall (fun x => ~ P x) l -> filter P l = [].
Proof.
  induction 1 as [| x l Hx _ IH]; [done |].
  by rewrite filter_cons_False, IH.
Qed.

(** When the identifiers of the transactions [ts] are distinct and every
    finding of [F t] is about [t], the findings about one transaction of [ts]
    are the ones [F] gives for it. *)
Lemma findings_about_bind (F : Transaction -> list Finding) (ts : list Transaction)
    (txn : Transaction) :
  NoDup (txn_id <$> ts) -> txn ∈ ts ->
  (forall t f, f ∈ F t -> f_transaction_id f = txn_id t) ->
  findings_about txn (ts ≫= F) = F txn.
Proof.
  intros Hnd Hin HF. unfold findings_about.
  assert (Hother : forall l, txn_id txn ∉ txn_id <$> l ->
            filter (fun f => f_transaction_id f = txn_id txn) (l ≫= F) = []).
  { intros l Hl. apply filter_none. apply Forall_forall. intros f Hf.
    apply list_elem_of_bind in Hf as (t & Hf & Ht). rewrite (HF t f Hf).
    intros Heq. apply Hl. rewrite <- Heq. apply list_elem_of_fmap. eauto. }
  induction ts as [| t ts IH]; [by apply elem_of_nil in Hin |].
  rewrite fmap_cons in Hnd. apply NoDup_cons in Hnd as [Ht Hnd].
  rewrite bind_cons, filter_app.
  apply elem_of_cons in Hin as [-> | Hin].
  - rewrite Hother by done. rewrite app_nil_r.
    apply filter_all. apply Forall_forall. intros f Hf. by apply HF.
  - rewrite IH by done. rewrite filter_none; [done |].
    apply Forall_forall. intros f Hf. rewrite (HF t f Hf).
    intros Heq. apply Ht. rewrite Heq. apply list_elem_of_fmap. eauto.
Qed.

Lemma txn_errors_about (db : Session) (t : Transaction) (f : Finding) :
  f ∈ txn_errors db t -> f_transaction_id f = txn_id t.
Proof.
  unfold txn_errors. intros Hf. apply elem_of_app in Hf as [Hf | Hf].
  - unfold check_missing_allocation in Hf.
    destruct (lines db t); simpl in Hf; [| by apply elem_of_nil in Hf].
    by apply list_elem_of_singleton in Hf as ->.
  - unfold check_allocation_mismatch in Hf.
    destruct (lines db t); [by apply elem_of_nil in Hf |].
    destruct (1 <? _); simpl in Hf; [| by apply elem_of_nil in Hf].
    by apply list_elem_of_singleton in Hf as ->.
Qed.

Lemma txn_warnings_about (db : Session) (today : date) (t : Transaction) (f : Finding) :
  f ∈ txn_warnings db today t -> f_transaction_id f = txn_id t.
Proof.
  unfold txn_warnings. intros H. apply elem_of_app in H as [H | H].
  - destruct (check_transfer_balance db t) as [f' |] eqn:Hf; simpl in H;
      [| by apply elem_of_nil in H].
    apply list_elem_of_singleton in H as ->.
    by apply check_transfer_balance_type in Hf as [_ Hf].
  - destruct (check_unreconciled_transaction today t) as [f' |] eqn:Hf; simpl in H;
      [| by apply elem_of_nil in H].
    apply list_elem_of_singleton in H as ->.
    by apply check_unreconciled_type in Hf as [_ Hf].
Qed.

(** C10, as stated, fails: a transaction without lines that is also
    unreconciled and older than 30 days gets two findings, the
    missing-allocation error and the stale-reconciliation warning. *)
Lemma C10_two_findings_counterexample :
  let r := validate_transactions (mkdate 2026 3 1) unallocated_ledger 1 None None in
  stale_txn ∈ transactions_in_scope unallocated_ledger 1 None None
  /\ lines unallocated_ledger stale_txn = []
  /\ error_type <$> findings_about stale_txn (errors r ++ warnings r)
     = [MISSING_ALLOCATION; UNRECONCILED_TRANSACTION].
Proof.
  split; [apply list_elem_of_singleton; reflexivity |]. split; reflexivity.
Qed.

(** C10, amended.  For every transaction in scope with zero allocation
    lines, in a ledger whose transaction identifiers are distinct, transaction
    validation emits exactly one error finding for that transaction, the
    missing-allocation error: the allocation-mismatch check produces no
    finding for it, and neither does the transfer check.  The only other
    finding the transaction can get is the stale-reconciliation warning. *)
Theorem C10_missing_allocation_only_error (today : date) (db : Session)
    (business_id : Z) (year month : option Z) (txn : Transaction) :
  NoDup (txn_id <$> transactions db) ->
  txn ∈ transactions_in_scope db business_id year month ->
  lines db txn = [] ->
  let r := validate_transactions today db business_id year month in
  check_allocation_mismatch db txn = None
  /\ check_transfer_balance db txn = None
  /\ findings_about txn (errors r) = [finding txn MISSING_ALLOCATION ERROR NoDetail]
  /\ findings_about txn (warnings r)
     = opt_list (check_unreconciled_transaction today txn).
Proof.
  intros Hnd Hin Hl r. unfold r. rewrite validate_transactions_eq.
  cbn [errors warnings]. clear r.
  assert (Hnd' : NoDup (txn_id <$> transactions_in_scope db business_id year month)).
  { eapply sublist_NoDup; [exact Hnd |]. apply fmap_sublist.
    unfold transactions_in_scope. apply sublist_filter. }
  assert (Hm : check_allocation_mismatch db txn = None).
  { unfold check_allocation_mismatch. by rewrite Hl. }
  assert (Ht : check_transfer_balance db txn = None).
  { unfold check_transfer_balance. by rewrite Hl. }
  split; [done |]. split; [done |]. split.
  - rewrite (findings_about_bind (txn_errors db)) by eauto using txn_errors_about.
    unfold txn_errors. rewrite Hm. unfold check_missing_allocation. by rewrite Hl.
  - rewrite (findings_about_bind (txn_warnings db today))
      by eauto using txn_warnings_about.
    unfold txn_warnings. by rewrite Ht.
Qed.

Lemma C10_missing_allocation_only_error_witness :
  let r := validate_transactions (mkdate 2026 3 1) unallocated_ledger 1 None None in
  check_allocation_mismatch unallocated_ledger stale_txn = None
  /\ check_transfer_balance unallocated_ledger stale_txn = None
  /\ findings_about stale_txn (errors r)
     = [finding stale_txn MISSING_ALLOCATION ERROR NoDetail]
  /\ findings_about stale_txn (warnings r)
     = opt_list (check_unreconciled_transaction (mkdate 2026 3 1) stale_txn).
Proof.
  apply (C10_missing_allocation_only_error (mkdate 2026 3 1) unallocated_ledger
           1 None None stale_txn).
  - simpl. apply NoDup_singleton.
  - apply list_elem_of_singleton. reflexivity.
  - reflexivity.
Defined.

(** ** Sums over lists *)

Lemma sum_with_cons {A : Type} (f : A -> Z) (x : A) (xs : list A) :
  sum_with f (x :: xs) = f x + sum_with f xs.
Proof. reflexivity. Qed.

Lemma sum_with_app {A : Type} (f : A -> Z) (xs ys : list A) :
  sum_with f (xs ++ ys) = sum_with f xs + sum_with f ys.
Proof.
  induction xs as [| x xs IH]; [done |].
  rewrite <- app_comm_cons, !sum_with_cons, IH. lia.
Qed.

Lemma sum_with_ext {A : Type} (f g : A -> Z) (xs : list A) :
  (forall x, x ∈ xs -> f x = g x) -> sum_with f xs = sum_with g xs.
Proof.
  induction xs as [| x xs IH]; intros H; [done |].
  rewrite !sum_with_cons, H by left. rewrite IH; [done |].
  intros x' Hx'. apply H. by right.
Qed.


Lemma sum_with_plus {A : Type} (f g : A -> Z) (xs : list A) :
  sum_with (fun x => f x + g x) xs = sum_with f xs + sum_with g xs.
Proof. induction xs as [| x xs IH]; [done |]. rewrite !sum_with_cons, IH. lia. Qed.

Lemma sum_with_opp {A : Type} (f : A -> Z) (xs : list A) :
  sum_with (fun x => - f x) xs = - sum_with f xs.
Proof. induction xs as [| x xs IH]; [done |]. rewrite !sum_with_cons, IH. lia. Qed.


Lemma sum_with_filter {A : Type} (P : A -> Prop) `{!forall x, Decision (P x)}
    (f : A -> Z) (xs : list A) :
  sum_with f (filter P xs) = sum_with (fun x => if decide (P x) then f x else 0) xs.
Proof.
  induction xs as [| x xs IH]; [done |].
  rewrite filter_cons, sum_with_cons. destruct (decide (P x)).
  - by rewrite sum_with_cons, IH.
  - rewrite IH. lia.
Qed.



Lemma sum_amounts_sum_with (ls : list TransactionLine) :
  sum_amounts ls = sum_with amount ls.
Proof.
  induction ls as [| l ls IH]; [done |].
  by rewrite sum_amounts_cons, sum_with_cons, IH.
Qed.

(** ** Balance sheet of a double-entry ledger *)

Lemma balance_fold (z : Z) (ts : list Transaction) :
  foldl balance_step z ts = z + sum_with signed_gross ts.
Proof.
  revert z. induction ts as [| t ts IH]; intros z; [simpl; lia |].
  cbn [foldl]. rewrite IH, sum_with_cons. unfold balance_step, signed_gross.
  destruct (direction t); lia.
Qed.








Lemma tax_folds (ts : list Transaction) :
  foldl (fun acc txn => match direction txn with IN => acc + tax_amount txn | OUT => acc end)
        0 ts
  - foldl (fun acc txn => match direction txn with IN => acc | OUT => acc + tax_amount txn end)
          0 ts
  = sum_with (fun t => match direction t with
                       | IN => tax_amount t
                       | OUT => - tax_amount t
                       end) ts.
Proof.
  assert (H : forall a b,
            foldl (fun acc txn => match direction txn with
                                  | IN => acc + tax_amount txn | OUT => acc end) a ts
            - foldl (fun acc txn => match direction txn with
                                    | IN => acc | OUT => acc + tax_amount txn end) b ts
            = a - b + sum_with (fun t => match direction t with
                                         | IN => tax_amount t
                                         | OUT => - tax_amount t
                                         end) ts).
  { induction ts as [| t ts IH]; intros a b; [simpl; lia |].
    cbn [foldl]. rewrite IH, sum_with_cons. destruct (direction t); lia. }
  rewrite H. lia.
Qed.

Lemma profit_fold (db : Session) (business_id : Z) (ls : list TransactionLine)
    (a b c : Z) :
  let '(inc, cg, ex) :=
    foldl (fun '(inc, cg, ex) line =>
             match category_id line with
             | Some i =>
                 if i =? 0 then (inc, cg, ex)
                 else if bool_decide (i ∈ cat_id <$> cats_of_type db business_id INCOME)
                 then (inc + amount line, cg, ex)
                 else if bool_decide (i ∈ cat_id <$> cats_of_type db business_id COGS)
                 then (inc, cg + amount line, ex)
                 else if bool_decide (i ∈ cat_id <$> cats_of_type db business_id EXPENSE)
                 then (inc, cg, ex + amount line)
                 else (inc, cg, ex)
             | None => (inc, cg, ex)
             end)
          (a, b, c) ls in
  inc - cg - ex = a - b - c + sum_with (profit_contribution db business_id) ls.
Proof.
  revert a b c. induction ls as [| l ls IH]; intros a b c; [simpl; lia |].
  cbn [foldl]. rewrite sum_with_cons. unfold profit_contribution at 1.
  destruct (category_id l) as [i |];
    [destruct (i =? 0);
     [| destruct (bool_decide (i ∈ cat_id <$> cats_of_type db business_id INCOME));
        [| destruct (bool_decide (i ∈ cat_id <$> cats_of_type db business_id COGS));
           [| destruct (bool_decide (i ∈ cat_id <$> cats_of_type db business_id EXPENSE))]]]
    |];
    match goal with
    | |- context [foldl _ (?x, ?y, ?z) ls] =>
        specialize (IH x y z); destruct (foldl _ (x, y, z) ls) as [[? ?] ?]; lia
    end.
Qed.

Lemma existsb_unique (p q : Transaction -> bool) (k : Z) (ts : list Transaction) :
  NoDup (txn_id <$> ts) ->
  existsb (fun t => (txn_id t =? k) && p t && q t) ts
  = match head (filter (fun t => txn_id t = k) ts) with
    | Some t => p t && q t
    | None => false
    end.
Proof.
  induction ts as [| t ts IH]; intros Hnd; [done |].
  rewrite fmap_cons in Hnd. apply NoDup_cons in Hnd as [Ht Hnd].
  cbn [existsb]. rewrite filter_cons.
  destruct (Z.eqb_spec (txn_id t) k) as [Hk | Hk].
  - rewrite decide_True by done. cbn [head andb].
    destruct (p t && q t) eqn:Hpq; cbn [orb]; [done |].
    apply not_true_is_false. intros Hex. apply existsb_exists in Hex as (t' & Hin & Ht').
    apply andb_prop in Ht' as [Ht' _]. apply andb_prop in Ht' as [Hk' _].
    apply Z.eqb_eq in Hk'.
    apply Ht. rewrite Hk, <- Hk'. apply list_elem_of_fmap. exists t'.
    split; [done |]. by apply list_elem_of_In.
  - rewrite decide_False by done. cbn [andb orb]. by apply IH.
Qed.


Lemma NoDup_fmap_inj {A B : Type} (f : A -> B) (l : list A) (x x' : A) :
  NoDup (f <$> l) -> x ∈ l -> x' ∈ l -> f x = f x' -> x = x'.
Proof.
  induction l as [| a l IH]; intros Hnd Hx Hx' Hf; [by apply elem_of_nil in Hx |].
  rewrite fmap_cons in Hnd. apply NoDup_cons in Hnd as [Ha Hnd].
  apply elem_of_cons in Hx as [-> | Hx]; apply elem_of_cons in Hx' as [-> | Hx'].
  - done.
  - exfalso. apply Ha. rewrite Hf. apply list_elem_of_fmap. eauto.
  - exfalso. apply Ha. rewrite <- Hf. apply list_elem_of_fmap. eauto.
  - by apply IH.
Qed.


Lemma query_categories_NoDup (db : Session) (b : Z) :
  NoDup (cat_id <$> categories db) -> NoDup (cat_id <$> query_categories db b).
Proof.
  intros Hnd. eapply sublist_NoDup; [exact Hnd |].
  apply fmap_sublist. apply sublist_filter.
Qed.


Lemma sum_special (st : SpecialType) (ls : list TransactionLine) :
  sum_amounts (filter (fun l => special_type l = Some st) ls)
  = sum_with (special_amount st) ls.
Proof. by rewrite sum_amounts_sum_with, sum_with_filter. Qed.

Lemma calculate_net_profit_ytd_eq (db : Session) (b y : Z) (d : date) :
  1 <= y <= 9999 ->
  calculate_net_profit_ytd db b y d
  = Ok (sum_with (profit_contribution db b)
          (query_lines db b (fun d' => date_le (mkdate y 1 1) d' && date_le d' d))).
Proof.
  intros Hy. unfold calculate_net_profit_ytd.
  rewrite (date_new_ok y 1 1); [| lia | lia | by vm_compute]. simpl.
  pose proof (profit_fold db b
                (query_lines db b (fun d' => date_le (mkdate y 1 1) d' && date_le d' d))
                0 0 0) as H.
  unfold cats_of_type in H.
  destruct (foldl _ _ _) as [[inc cg] ex]. f_equal. lia.
Qed.



Lemma head_filter_Some {A : Type} (P : A -> Prop) `{!forall x, Decision (P x)}
    (l : list A) (x : A) :
  head (filter P l) = Some x -> P x /\ x ∈ l.
Proof.
  intros Hh. apply (list_elem_of_filter P l x).
  destruct (filter P l) as [| x' l'] eqn:Hf; [done |].
  injection Hh as ->. left.
Qed.


Lemma decide_Is_true {A : Type} (b : bool) (x y : A) :
  (if decide (Is_true b) then x else y) = if b then x else y.
Proof.
  destruct b.
  - destruct (decide (Is_true true)) as [_ | Hn]; [done | by destruct Hn].
  - destruct (decide (Is_true false)) as [[] | _]; done.
Qed.

Lemma query_lines_never (db : Session) (b : Z) (w : date -> bool) :
  (forall t, t ∈ transactions db -> w (txn_date t) = false) ->
  query_lines db b w = [].
Proof.
  intros Hw. unfold query_lines. apply filter_none. apply Forall_forall.
  intros l _ Hex. apply Is_true_true in Hex.
  apply existsb_exists in Hex as (t & Ht & Hp).
  apply list_elem_of_In in Ht. rewrite (Hw t Ht), andb_false_r in Hp. done.
Qed.

(** A window that is the union of two disjoint windows selects the lines of
    both, each once. *)
Lemma query_lines_split (db : Session) (b : Z) (f : TransactionLine -> Z)
    (w w1 w2 : date -> bool) :
  NoDup (txn_id <$> transactions db) ->
  (forall t, t ∈ transactions db ->
             w (txn_date t) = w1 (txn_date t) || w2 (txn_date t)) ->
  (forall t, t ∈ transactions db -> w1 (txn_date t) && w2 (txn_date t) = false) ->
  sum_with f (query_lines db b w)
  = sum_with f (query_lines db b w1) + sum_with f (query_lines db b w2).
Proof.
  intros Hnd Hor Hdis. unfold query_lines.
  rewrite !sum_with_filter, <- sum_with_plus. apply sum_with_ext. intros l _.
  rewrite !decide_Is_true.
  rewrite (existsb_unique (txn_in_business db b) (fun t => w (txn_date t))) by done.
  rewrite (existsb_unique (txn_in_business db b) (fun t => w1 (txn_date t))) by done.
  rewrite (existsb_unique (txn_in_business db b) (fun t => w2 (txn_date t))) by done.
  destruct (head (filter (fun t => txn_id t = transaction_id l) (transactions db)))
    as [t |] eqn:Hh; [| lia].
  apply head_filter_Some in Hh as [_ Ht].
  specialize (Hor t Ht). specialize (Hdis t Ht). rewrite Hor.
  destruct (txn_in_business db b t), (w1 (txn_date t)), (w2 (txn_date t));
    simpl in *; try done; lia.
Qed.





(** Scenario 3, the ledger of the repository's balance sheet test and that
    ledger after a transfer and a purchase by credit card are kept by double
    entry. *)
Example scenario3_double_entry : double_entry_ledger scenario3 1.
Proof.
  split; try compute_done.
  apply Forall_forall. intros t Ht _.
  apply list_elem_of_In in Ht. simpl in Ht.
  destruct Ht as [<- | [<- | []]];
    (split; [reflexivity |]);
    apply Forall_forall; intros l Hl;
    apply list_elem_of_In in Hl; vm_compute in Hl; destruct Hl as [<- | []];
    (split; [done |]); apply Exists_exists.
  - exists {| cat_id := 1; cat_business_id := 1; code := "head_1"; cat_type := INCOME |}.
    split; [apply list_elem_of_In; vm_compute; tauto | done].
  - exists {| cat_id := 12; cat_business_id := 1; code := "head_12";
              cat_type := EXPENSE |}.
    split; [apply list_elem_of_In; vm_compute; tauto |]. split; [done |]. by right.
Qed.



Example transfer_and_card_double_entry :
  double_entry_ledger transfer_and_card_ledger 1.
Proof.
  split; try compute_done.
  apply Forall_forall. intros t Ht _.
  apply list_elem_of_In in Ht. simpl in Ht.
  destruct Ht as [<- | [<- | [<- | [<- | []]]]];
    (split; [reflexivity |]);
    apply Forall_forall; intros l Hl;
    apply list_elem_of_In in Hl; vm_compute in Hl; destruct Hl as [<- | []].
  - split; [done |]. apply Exists_exists.
    exists {| cat_id := 1; cat_business_id := 1; code := "head_1"; cat_type := INCOME |}.
    split; [apply list_elem_of_In; vm_compute; tauto | done].
  - simpl. set_solver.
  - simpl. set_solver.
  - split; [done |]. apply Exists_exists.
    exists {| cat_id := 12; cat_business_id := 1; code := "head_12";
              cat_type := EXPENSE |}.
    split; [apply list_elem_of_In; vm_compute; tauto |]. split; [done |]. by right.
Qed.



(** The ledger with a transfer and a purchase by credit card is not settled
    from March on (the credit card has a transaction), and it has no
    discrepancy: every month balances. *)
Example transfer_and_card_balance_sheet :
  exists rep,
    bs_generate_report transfer_and_card_ledger 1 2026 = Ok rep
    /\ Forall (fun mv => balanced mv.2 = true) (validation rep)
    /\ Forall (fun m => balance_discrepancy transfer_and_card_ledger 1 2026
                          (mkdate 2026 m (days_in_month 2026 m)) = 0)
              months_1_12.
Proof.
  eexists. split; [vm_compute; reflexivity |].
  split; repeat constructor.
Qed.

(** The ledger of the counterexample is kept by double entry; its
    discrepancy is twice the income tax paid. *)
Example income_tax_discrepancy :
  double_entry_ledger income_tax_ledger 1
  /\ balance_discrepancy income_tax_ledger 1 2026 (mkdate 2026 1 31) = -20000.
Proof.
  split; [| reflexivity].
  split; try compute_done.
  apply Forall_forall. intros t Ht _.
  apply list_elem_of_In in Ht. simpl in Ht. destruct Ht as [<- | []].
  split; [reflexivity |].
  apply Forall_forall; intros l Hl.
  apply list_elem_of_In in Hl; vm_compute in Hl; destruct Hl as [<- | []].
  simpl. set_solver.
Qed.

(** Scenario 3, evaluated: in every month the net assets are 50.00 (54.05
    in the bank less 4.05 of VAT payable), the equity is 50.00 (the profit),
    and the month balances. *)
Example scenario3_balance_sheet :
  exists rep,
    bs_generate_report scenario3 1 2026 = Ok rep
    /\ snd <$> validation rep
       = replicate 12 {| net_assets := 5000; mv_equity := 5000; balanced := true |}.
Proof. eexists. split; [vm_compute; reflexivity |]. reflexivity. Qed.

(** * Further properties *)

(** ** Sales tax report *)

Lemma filter_ext_in {A : Type} (P Q : A -> Prop) `{!forall x, Decision (P x)}
    `{!forall x, Decision (Q x)} (l : list A) :
  (forall x, x ∈ l -> P x <-> Q x) -> filter P l = filter Q l.
Proof.
  induction l as [| x l IH]; intros Hpq; [done |].
  rewrite !filter_cons. rewrite IH by (intros x' Hx'; apply Hpq; by right).
  destruct (decide (P x)) as [Hp | Hp], (decide (Q x)) as [Hq | Hq]; try done;
    exfalso; apply (Hpq x) in Hp || apply (Hpq x) in Hq; try done; left.
Qed.

Lemma query_transactions_ext (db : Session) (business_id : Z) (f g : date -> bool) :
  (forall t, t ∈ transactions db -> f (txn_date t) = g (txn_date t)) ->
  query_transactions db business_id f = query_transactions db business_id g.
Proof.
  intros Hfg. unfold query_transactions. apply filter_ext_in.
  intros t Ht. by rewrite (Hfg t Ht).
Qed.

Lemma month_window_transactions (db : Session) (business_id y m : Z) :
  1 <= m <= 12 -> valid_dates db ->
  query_transactions db business_id
    (in_window (mkdate y m 1)
       (if m =? 12 then mkdate y 12 31 else mkdate y (m + 1) 1) m)
  = transactions_of_month db business_id y m.
Proof.
  intros Hm Hv. apply query_transactions_ext. intros t Ht.
  apply in_window_month; [done |].
  unfold valid_dates in Hv. rewrite Forall_forall in Hv. by apply Hv.
Qed.

Lemma tax_collected_fold (ts : list Transaction) (z : Z) :
  foldl (fun acc txn => match direction txn with
                        | IN => acc + tax_amount txn
                        | OUT => acc
                        end) z ts
  = z + sum_with tax_amount (filter (fun t => direction t = IN) ts).
Proof.
  revert z. induction ts as [| t ts IH]; intros z; [simpl; lia |].
  cbn [foldl]. rewrite IH, filter_cons.
  destruct (direction t) eqn:Hd.
  - rewrite decide_True by done. rewrite sum_with_cons. lia.
  - rewrite decide_False by done. lia.
Qed.

Lemma tax_paid_fold (ts : list Transaction) (z : Z) :
  foldl (fun acc txn => match direction txn with
                        | OUT => if 0 <? tax_amount txn then acc + tax_amount txn else acc
                        | IN => acc
                        end) z ts
  = z + sum_with tax_amount
          (filter (fun t => direction t = OUT /\ 0 < tax_amount t) ts).
Proof.
  revert z. induction ts as [| t ts IH]; intros z; [simpl; lia |].
  cbn [foldl]. rewrite IH, filter_cons.
  destruct (direction t) eqn:Hd.
  - rewrite decide_False by (intros [? _]; done). lia.
  - destruct (Z.ltb_spec 0 (tax_amount t)).
    + rewrite decide_True by done. rewrite sum_with_cons. lia.
    + rewrite decide_False by lia. lia.
Qed.

(** X1.  The figures of a month of the sales tax report are those of the
    calendar month: the tax of the IN transactions, the tax of the OUT
    transactions that have a positive tax, the TAX_PAYMENT lines, and
    collected less paid less payments. *)
Theorem tax_month_figures (db : Session) (business_id y m : Z) :
  1 <= y <= 9999 -> 1 <= m <= 12 -> valid_dates db ->
  let txns := transactions_of_month db business_id y m in
  exists r,
    tax_calculate_month db business_id y m = Ok r
    /\ tm_month r = m
    /\ tax_collected r = sum_with tax_amount (filter (fun t => direction t = IN) txns)
    /\ tax_paid r
       = sum_with tax_amount
           (filter (fun t => direction t = OUT /\ 0 < tax_amount t) txns)
    /\ tax_payments r
       = sum_with amount (special_lines_of_month db business_id y m TAX_PAYMENT)
    /\ net_tax_payable r = tax_collected r - tax_paid r - tax_payments r.
Proof.
  intros Hy Hm Hv txns. unfold tax_calculate_month.
  rewrite month_bounds_ok by done. simpl.
  rewrite month_window_transactions by done. fold txns.
  unfold query_special_lines. rewrite month_window_lines by done.
  fold (special_lines_of_month db business_id y m TAX_PAYMENT).
  eexists. split; [reflexivity |]. simpl.
  rewrite tax_collected_fold, tax_paid_fold, sum_amounts_sum_with.
  repeat split; lia.
Qed.

Lemma tax_month_figures_witness :
  let txns := transactions_of_month scenario3 1 2026 1 in
  exists r,
    tax_calculate_month scenario3 1 2026 1 = Ok r
    /\ tm_month r = 1
    /\ tax_collected r = sum_with tax_amount (filter (fun t => direction t = IN) txns)
    /\ tax_paid r
       = sum_with tax_amount
           (filter (fun t => direction t = OUT /\ 0 < tax_amount t) txns)
    /\ tax_payments r
       = sum_with amount (special_lines_of_month scenario3 1 2026 1 TAX_PAYMENT)
    /\ net_tax_payable r = tax_collected r - tax_paid r - tax_payments r.
Proof.
  apply (tax_month_figures scenario3 1 2026 1); [lia | lia | solve_valid_dates].
Defined.

Lemma sum_with_fmap {A B : Type} (f : B -> Z) (g : A -> B) (l : list A) :
  sum_with f (g <$> l) = sum_with (fun x => f (g x)) l.
Proof.
  induction l as [| x l IH]; [done |]. by rewrite fmap_cons, !sum_with_cons, IH.
Qed.

Lemma summary_fold (ms : list TaxMonth) (s : TaxSummary) :
  total_tax_collected (foldl summary_step s ms)
  = total_tax_collected s + sum_with tax_collected ms
  /\ total_tax_paid (foldl summary_step s ms)
     = total_tax_paid s + sum_with tax_paid ms
  /\ total_tax_payments (foldl summary_step s ms)
     = total_tax_payments s + sum_with tax_payments ms
  /\ summary_net_tax_payable (foldl summary_step s ms)
     = summary_net_tax_payable s + sum_with net_tax_payable ms.
Proof.
  revert s. induction ms as [| m ms IH]; intros s; [simpl; lia |].
  cbn [foldl]. destruct (IH (summary_step s m)) as (-> & -> & -> & ->).
  rewrite !sum_with_cons. simpl. lia.
Qed.

Lemma tax_calculate_month_ok (db : Session) (business_id y m : Z) :
  1 <= y <= 9999 -> 1 <= m <= 12 ->
  exists r,
    tax_calculate_month db business_id y m = Ok r
    /\ net_tax_payable r = tax_collected r - tax_paid r - tax_payments r.
Proof.
  intros Hy Hm. unfold tax_calculate_month.
  rewrite month_bounds_ok by done. simpl. eexists. split; [reflexivity |]. done.
Qed.

Lemma tax_generate_report_ok (db : Session) (business_id y : Z) :
  1 <= y <= 9999 -> is_Some (query_business db business_id) ->
  exists rep, tax_generate_report db business_id y = Ok rep.
Proof.
  intros Hy [business Hb]. unfold tax_generate_report. rewrite Hb.
  destruct (mapM_result_pairs (tax_calculate_month db business_id y) months_1_12)
    as (months & Hmonths & _).
  { intros m Hm.
    assert (H12 : 1 <= m <= 12) by (unfold months_1_12 in Hm; set_unfold; lia).
    destruct (tax_calculate_month_ok db business_id y m Hy H12) as (r & Hr & _).
    eauto. }
  rewrite Hmonths. simpl. eauto.
Qed.

(** X2.  For an existing business and a year the calendar has, the sales tax
    report has the twelve months; every total of the summary is the sum of the
    monthly figures, and the net tax payable of the summary is the total
    collected less the total paid less the total of the payments. *)
Theorem tax_summary_sums (db : Session) (business_id y : Z) :
  1 <= y <= 9999 -> is_Some (query_business db business_id) ->
  exists rep,
    tax_generate_report db business_id y = Ok rep
    /\ fst <$> txr_months rep = months_1_12
    /\ Forall (fun p => tm_month p.2 = p.1) (txr_months rep)
    /\ total_tax_collected (summary rep)
       = sum_with (fun p => tax_collected p.2) (txr_months rep)
    /\ total_tax_paid (summary rep) = sum_with (fun p => tax_paid p.2) (txr_months rep)
    /\ total_tax_payments (summary rep)
       = sum_with (fun p => tax_payments p.2) (txr_months rep)
    /\ summary_net_tax_payable (summary rep)
       = sum_with (fun p => net_tax_payable p.2) (txr_months rep)
    /\ summary_net_tax_payable (summary rep)
       = total_tax_collected (summary rep) - total_tax_paid (summary rep)
         - total_tax_payments (summary rep).
Proof.
  intros Hy [business Hb]. unfold tax_generate_report. rewrite Hb.
  assert (H12 : forall m, m ∈ months_1_12 -> 1 <= m <= 12).
  { intros m Hm. unfold months_1_12 in Hm. set_unfold. lia. }
  destruct (mapM_result_pairs (tax_calculate_month db business_id y) months_1_12)
    as (months & Hmonths & Hfst & Hall).
  { intros m Hm.
    destruct (tax_calculate_month_ok db business_id y m Hy (H12 m Hm)) as (r & Hr & _).
    eauto. }
  rewrite Hmonths. simpl. eexists. split; [reflexivity |]. simpl.
  destruct (summary_fold (snd <$> months)
              {| total_tax_collected := 0; total_tax_paid := 0;
                 total_tax_payments := 0; summary_net_tax_payable := 0 |})
    as (-> & -> & -> & ->). simpl.
  clear Hmonths. rewrite !sum_with_fmap.
  assert (Hnet : forall p, p ∈ months ->
            tm_month p.2 = p.1
            /\ net_tax_payable p.2 = tax_collected p.2 - tax_paid p.2 - tax_payments p.2).
  { intros [m r] Hin. rewrite Forall_forall in Hall. specialize (Hall _ Hin).
    simpl in *.
    assert (Hm : m ∈ months_1_12).
    { rewrite <- Hfst. apply list_elem_of_fmap. by exists (m, r). }
    unfold tax_calculate_month in Hall. rewrite month_bounds_ok in Hall by auto.
    simpl in Hall. injection Hall as <-. done. }
  split; [done |]. split; [apply Forall_forall; intros p Hp; apply (Hnet p Hp) |].
  repeat split; try lia.
  rewrite (sum_with_ext _ (fun p => tax_collected p.2 - tax_paid p.2 - tax_payments p.2))
    by (intros p Hp; apply (Hnet p Hp)).
  clear. induction months as [| p ps IH]; [done |]. rewrite !sum_with_cons. lia.
Qed.

Lemma tax_summary_sums_witness :
  exists rep,
    tax_generate_report scenario3 1 2026 = Ok rep
    /\ fst <$> txr_months rep = months_1_12
    /\ Forall (fun p => tm_month p.2 = p.1) (txr_months rep)
    /\ total_tax_collected (summary rep)
       = sum_with (fun p => tax_collected p.2) (txr_months rep)
    /\ total_tax_paid (summary rep) = sum_with (fun p => tax_paid p.2) (txr_months rep)
    /\ total_tax_payments (summary rep)
       = sum_with (fun p => tax_payments p.2) (txr_months rep)
    /\ summary_net_tax_payable (summary rep)
       = sum_with (fun p => net_tax_payable p.2) (txr_months rep)
    /\ summary_net_tax_payable (summary rep)
       = total_tax_collected (summary rep) - total_tax_paid (summary rep)
         - total_tax_payments (summary rep).
Proof.
  apply (tax_summary_sums scenario3 1 2026); [lia | vm_compute; eauto].
Defined.

(** ** When the reports fail *)

Lemma date_new_year_out_of_range (y m d : Z) :
  ~ (1 <= y <= 9999) -> date_new y m d = Raise DateOutOfRange.
Proof.
  intros Hy. unfold date_new.
  destruct (Z.leb_spec 1 y), (Z.leb_spec y 9999); simpl; try done. lia.
Qed.

Lemma pl_generate_report_ok (db : Session) (business_id y : Z) :
  1 <= y <= 9999 -> exists rep, pl_generate_report db business_id y = Ok rep.
Proof.
  intros Hy. unfold pl_generate_report. cbv zeta.
  match goal with
  | |- context [mapM_result ?f months_1_12] =>
      destruct (mapM_result_pairs
                  (fun month => pl_calculate_month db business_id y month
                     (filter (fun c => cat_type c = INCOME) (query_categories db business_id))
                     (filter (fun c => cat_type c = COGS) (query_categories db business_id))
                     (filter (fun c => cat_type c = EXPENSE) (query_categories db business_id)))
                  months_1_12) as (months & Hmonths & _)
  end.
  - intros m Hm.
    assert (H12 : 1 <= m <= 12) by (unfold months_1_12 in Hm; set_unfold; lia).
    unfold pl_calculate_month. rewrite month_bounds_ok by done. simpl. eauto.
  - rewrite Hmonths. simpl. eauto.
Qed.

Lemma bs_generate_report_ok (db : Session) (business_id y : Z) :
  1 <= y <= 9999 -> is_Some (query_business db business_id) ->
  exists rep, bs_generate_report db business_id y = Ok rep.
Proof.
  intros Hy [business Hb]. unfold bs_generate_report. rewrite Hb.
  set (opening := calculate_opening_retained_earnings db business_id y).
  rewrite (mapM_result_ext _
             (fun x => s ← (as_of ← month_as_of_date y x;
                            calculate_snapshot db business_id y x as_of opening);
                       Ok (x, s))).
  2:{ intros x Hx. rewrite month_as_of_date_ok by done. done. }
  destruct (mapM_result_pairs
              (fun x => as_of ← month_as_of_date y x;
                        calculate_snapshot db business_id y x as_of opening)
              months_1_12) as (months & Hmonths & _).
  { intros x Hx. rewrite month_as_of_date_ok by done. simpl.
    destruct (calculate_snapshot_ok db business_id y x
                (mkdate y x (days_in_month y x)) opening Hy) as (s & Hs & _).
    eauto. }
  rewrite Hmonths. simpl. eauto.
Qed.

(** X3.  The three reports succeed exactly when the year is one the calendar
    has ([1..9999]) and, for the balance sheet and the sales tax report, the
    business exists; the P&L report does not depend on the business
    existing.  For a missing business the balance sheet and the sales tax
    report raise "not found", whatever the year. *)
Theorem report_success_conditions (db : Session) (business_id y : Z) :
  ((exists rep, pl_generate_report db business_id y = Ok rep) <-> 1 <= y <= 9999)
  /\ ((exists rep, bs_generate_report db business_id y = Ok rep)
      <-> is_Some (query_business db business_id) /\ 1 <= y <= 9999)
  /\ ((exists rep, tax_generate_report db business_id y = Ok rep)
      <-> is_Some (query_business db business_id) /\ 1 <= y <= 9999)
  /\ (query_business db business_id = None <->
      bs_generate_report db business_id y = Raise (BusinessNotFound business_id))
  /\ (query_business db business_id = None <->
      tax_generate_report db business_id y = Raise (BusinessNotFound business_id)).
Proof.
  assert (Hpl : ~ (1 <= y <= 9999) ->
                pl_generate_report db business_id y = Raise DateOutOfRange).
  { intros Hy. unfold pl_generate_report, months_1_12. cbv zeta. cbn [mapM_result].
    unfold pl_calculate_month, month_bounds.
    by rewrite (date_new_year_out_of_range y 1 1). }
  assert (Hbs : forall business, query_business db business_id = Some business ->
                ~ (1 <= y <= 9999) ->
                bs_generate_report db business_id y = Raise DateOutOfRange).
  { intros business Hb Hy. unfold bs_generate_report. rewrite Hb.
    unfold months_1_12. cbn [mapM_result]. unfold month_as_of_date.
    by rewrite (date_new_year_out_of_range y 1 1). }
  assert (Htax : forall business, query_business db business_id = Some business ->
                 ~ (1 <= y <= 9999) ->
                 tax_generate_report db business_id y = Raise DateOutOfRange).
  { intros business Hb Hy. unfold tax_generate_report. rewrite Hb.
    unfold months_1_12. cbn [mapM_result]. unfold tax_calculate_month, month_bounds.
    by rewrite (date_new_year_out_of_range y 1 1). }
  assert (Hdec : 1 <= y <= 9999 \/ ~ (1 <= y <= 9999)) by lia.
  split; [| split; [| split; [| split]]].
  - split; [| apply pl_generate_report_ok].
    intros [rep Hrep]. destruct Hdec as [? | Hy]; [done |].
    rewrite (Hpl Hy) in Hrep. discriminate.
  - split; [| intros [Hb Hy]; by apply bs_generate_report_ok].
    intros [rep Hrep].
    destruct (query_business db business_id) as [business |] eqn:Hb.
    + split; [eauto |]. destruct Hdec as [? | Hy]; [done |].
      rewrite (Hbs business eq_refl Hy) in Hrep. discriminate.
    + unfold bs_generate_report in Hrep. rewrite Hb in Hrep. discriminate.
  - split.
    + intros [rep Hrep].
      destruct (query_business db business_id) as [business |] eqn:Hb.
      * split; [eauto |]. destruct Hdec as [? | Hy]; [done |].
        rewrite (Htax business eq_refl Hy) in Hrep. discriminate.
      * unfold tax_generate_report in Hrep. rewrite Hb in Hrep. discriminate.
    + intros [Hb Hy].
      destruct (tax_generate_report_ok db business_id y Hy Hb) as (rep & Hrep). eauto.
  - split.
    + intros Hb. unfold bs_generate_report. by rewrite Hb.
    + intros Hr. destruct (query_business db business_id) as [business |] eqn:Hb; [| done].
      destruct Hdec as [Hy | Hy].
      * destruct (bs_generate_report_ok db business_id y Hy) as [rep Hrep]; [done |].
        rewrite Hrep in Hr. discriminate.
      * rewrite (Hbs business eq_refl Hy) in Hr. discriminate.
  - split.
    + intros Hb. unfold tax_generate_report. by rewrite Hb.
    + intros Hr. destruct (query_business db business_id) as [business |] eqn:Hb; [| done].
      destruct Hdec as [Hy | Hy].
      * destruct (tax_generate_report_ok db business_id y Hy) as [rep Hrep]; [done |].
        rewrite Hrep in Hr. discriminate.
      * rewrite (Htax business eq_refl Hy) in Hr. discriminate.
Qed.

(** ** Transfer validation over a year *)

Lemma validate_transfers_month_eq (db : Session) (business_id y m : Z) :
  1 <= y <= 9999 -> 1 <= m <= 12 -> valid_dates db ->
  exists r,
    validate_transfers_month db business_id y m = Ok r
    /\ is_balanced r
       = bool_decide
           (sum_with amount (special_lines_of_month db business_id y m TRANSFER_OUT)
            = sum_with amount (special_lines_of_month db business_id y m TRANSFER_IN)).
Proof.
  intros Hy Hm Hv. unfold validate_transfers_month.
  rewrite month_bounds_ok by done. simpl.
  rewrite month_window_lines by done.
  rewrite transfer_fold, !filter_special_transfer by auto.
  fold (special_lines_of_month db business_id y m TRANSFER_OUT).
  fold (special_lines_of_month db business_id y m TRANSFER_IN).
  eexists. split; [reflexivity |]. simpl. rewrite !sum_amounts_sum_with.
  case_bool_decide as Hd.
  - apply Z.eqb_eq. lia.
  - apply Z.eqb_neq. lia.
Qed.

(** X4.  Validating the transfers of a whole year, over a ledger whose dates
    are dates of the calendar, gives the twelve months; [unbalanced_months]
    lists, in order, exactly the months whose TRANSFER_OUT lines and
    TRANSFER_IN lines have different sums, and [all_balanced] is true exactly
    when that list is empty. *)
Theorem validate_transfers_year (db : Session) (business_id y : Z) :
  1 <= y <= 9999 -> valid_dates db ->
  exists r,
    validate_transfers db business_id y None = Ok r
    /\ fst <$> tv_months r = months_1_12
    /\ unbalanced_months r
       = filter (fun m =>
                   sum_with amount (special_lines_of_month db business_id y m TRANSFER_OUT)
                   <> sum_with amount (special_lines_of_month db business_id y m TRANSFER_IN))
                months_1_12
    /\ (all_balanced r = true <-> unbalanced_months r = []).
Proof.
  intros Hy Hv. unfold validate_transfers.
  assert (H12 : forall m, m ∈ months_1_12 -> 1 <= m <= 12).
  { intros m Hm. unfold months_1_12 in Hm. set_unfold. lia. }
  destruct (mapM_result_pairs (validate_transfers_month db business_id y) months_1_12)
    as (months & Hmonths & Hfst & Hall).
  { intros m Hm.
    destruct (validate_transfers_month_eq db business_id y m Hy (H12 m Hm) Hv)
      as (r & Hr & _). eauto. }
  rewrite Hmonths. simpl. eexists. split; [reflexivity |]. simpl.
  split; [done |].
  assert (Hbal : forall p, p ∈ months ->
            is_balanced p.2 = false
            <-> sum_with amount (special_lines_of_month db business_id y p.1 TRANSFER_OUT)
                <> sum_with amount (special_lines_of_month db business_id y p.1 TRANSFER_IN)).
  { intros [m r] Hin. rewrite Forall_forall in Hall. specialize (Hall _ Hin).
    simpl in *.
    assert (Hm : m ∈ months_1_12).
    { rewrite <- Hfst. apply list_elem_of_fmap. by exists (m, r). }
    destruct (validate_transfers_month_eq db business_id y m Hy (H12 m Hm) Hv)
      as (r' & Hr' & Hb). rewrite Hr' in Hall. injection Hall as <-.
    rewrite Hb. by rewrite bool_decide_eq_false. }
  split.
  - rewrite <- Hfst. clear Hmonths Hfst Hall.
    induction months as [| p ps IH]; [done |].
    assert (IH' := IH (fun p' Hp' => Hbal p' (list_elem_of_further _ _ _ Hp'))).
    pose proof (Hbal p ltac:(left)) as Hp.
    rewrite fmap_cons, !filter_cons.
    destruct (decide (is_balanced p.2 = false)) as [Hd | Hd].
    + rewrite decide_True by (by apply Hp). rewrite fmap_cons. by f_equal.
    + rewrite decide_False by (by rewrite <- Hp). done.
  - rewrite bool_decide_eq_true. split.
    + intros ->. done.
    + intros Hnil. by apply fmap_nil_inv in Hnil.
Qed.

Lemma validate_transfers_year_witness :
  exists r,
    validate_transfers scenario5 1 2026 None = Ok r
    /\ fst <$> tv_months r = months_1_12
    /\ unbalanced_months r
       = filter (fun m =>
                   sum_with amount (special_lines_of_month scenario5 1 2026 m TRANSFER_OUT)
                   <> sum_with amount (special_lines_of_month scenario5 1 2026 m TRANSFER_IN))
                months_1_12
    /\ (all_balanced r = true <-> unbalanced_months r = []).
Proof.
  apply (validate_transfers_year scenario5 1 2026); [lia | solve_valid_dates].
Defined.

(** Scenario 5 over the year: March is the one unbalanced month. *)
Example scenario5_year :
  exists r,
    validate_transfers scenario5 1 2026 None = Ok r
    /\ unbalanced_months r = [3] /\ all_balanced r = false.
Proof. eexists. split; [vm_compute; reflexivity |]. done. Qed.

(** X5.  A month outside [0..12] makes [validate_transfers] raise the
    [ValueError] of the [date] constructor, and the month 0 is read as no
    month: the whole year is validated. *)
Theorem validate_transfers_month_argument (db : Session) (business_id y m : Z) :
  ~ (0 <= m <= 12) ->
  validate_transfers db business_id y (Some m) = Raise DateOutOfRange
  /\ validate_transfers db business_id y (Some 0)
     = validate_transfers db business_id y None.
Proof.
  intros Hm. split; [| reflexivity].
  unfold validate_transfers. destruct (Z.eqb_spec m 0) as [-> | _]; [lia |].
  cbn [mapM_result]. unfold validate_transfers_month, month_bounds, date_new.
  destruct (Z.leb_spec 1 m), (Z.leb_spec m 12); try lia;
    by rewrite ?andb_false_r.
Qed.

Lemma validate_transfers_month_argument_witness :
  validate_transfers scenario5 1 2026 (Some 13) = Raise DateOutOfRange
  /\ validate_transfers scenario5 1 2026 (Some 0)
     = validate_transfers scenario5 1 2026 None.
Proof. apply (validate_transfers_month_argument scenario5 1 2026 13). lia. Defined.

(** ** Findings of a transaction *)

Lemma length_bind_le {A B : Type} (f : A -> list B) (n : nat) (l : list A) :
  (forall x, (length (f x) <= n)%nat) -> (length (l ≫= f) <= n * length l)%nat.
Proof.
  intros Hf. induction l as [| x l IH]; [simpl; lia |].
  rewrite bind_cons, length_app. specialize (Hf x). simpl. lia.
Qed.

Lemma txn_errors_at_most_one (db : Session) (txn : Transaction) :
  (length (txn_errors db txn) <= 1)%nat.
Proof.
  unfold txn_errors, check_missing_allocation, check_allocation_mismatch.
  destruct (lines db txn); [simpl; lia |]. simpl. case_match; simpl; lia.
Qed.

Lemma txn_warnings_at_most_two (db : Session) (today : date) (txn : Transaction) :
  (length (txn_warnings db today txn) <= 2)%nat.
Proof.
  unfold txn_warnings. rewrite length_app.
  destruct (check_transfer_balance db txn), (check_unreconciled_transaction today txn);
    simpl; lia.
Qed.

(** X6.  In the result of a transaction validation the counts are the
    lengths of the lists; a transaction gets at most one error (a
    missing-allocation error and an allocation-mismatch error exclude each
    other) and at most two warnings, so there are at most as many errors as
    transactions checked and at most twice as many warnings. *)
Theorem validation_counts (today : date) (db : Session) (business_id : Z)
    (year month : option Z) :
  let r := validate_transactions today db business_id year month in
  error_count r = Z.of_nat (length (errors r))
  /\ warning_count r = Z.of_nat (length (warnings r))
  /\ 0 <= error_count r <= total_transactions_checked r
  /\ 0 <= warning_count r <= 2 * total_transactions_checked r
  /\ (forall txn, (length (txn_errors db txn) <= 1)%nat).
Proof.
  intros r. unfold r. rewrite validate_transactions_eq. simpl.
  split; [done |]. split; [done |].
  pose proof (length_bind_le (txn_errors db) 1
                (transactions_in_scope db business_id year month)
                (txn_errors_at_most_one db)).
  pose proof (length_bind_le (txn_warnings db today) 2
                (transactions_in_scope db business_id year month)
                (txn_warnings_at_most_two db today)).
  split; [lia |]. split; [lia |]. apply txn_errors_at_most_one.
Qed.

(** X7.  A transaction is free of error findings exactly when it has at
    least one allocation line and the sum of its lines is within one cent of
    the expected amount: the stored net amount, or gross less tax when the
    stored net amount is zero. *)
Theorem error_free_transaction (db : Session) (txn : Transaction) :
  txn_errors db txn = []
  <-> lines db txn <> []
      /\ Z.abs (sum_with amount (lines db txn)
                - (if net_amount txn =? 0 then gross_amount txn - tax_amount txn
                   else net_amount txn)) <= 1.
Proof.
  unfold txn_errors, check_missing_allocation, check_allocation_mismatch.
  rewrite <- sum_amounts_sum_with.
  destruct (lines db txn) as [| l ls] eqn:Hl.
  - simpl. split; [done | by intros [? _]].
  - simpl.
    destruct (Z.ltb_spec 1 (Z.abs (sum_amounts (l :: ls)
               - (if net_amount txn =? 0 then gross_amount txn - tax_amount txn
                  else net_amount txn)))) as [Hgt | Hle]; simpl.
    + split; [done |]. intros [_ H]. lia.
    + split; [| done]. intros _. split; [done | lia].
Qed.

Lemma filter_length_all {A : Type} (P : A -> Prop) `{!forall x, Decision (P x)}
    (l : list A) :
  length (filter P l) = length l <-> Forall P l.
Proof.
  split.
  - induction l as [| x l IH]; intros Hlen; [constructor |].
    rewrite filter_cons in Hlen. pose proof (length_filter P l) as Hle.
    destruct (decide (P x)); simpl in Hlen; [| lia].
    constructor; [done |]. apply IH. lia.
  - intros Hall. by rewrite filter_all.
Qed.

(** X8.  The transfer warning is given exactly to the transactions that have
    lines, all of them TRANSFER_IN or TRANSFER_OUT lines; the warning names
    the special type of the first line. *)
Theorem transfer_warning_iff (db : Session) (txn : Transaction) :
  (is_Some (check_transfer_balance db txn)
   <-> lines db txn <> []
       /\ Forall (fun l => special_type l ∈ [Some TRANSFER_IN; Some TRANSFER_OUT])
                 (lines db txn))
  /\ (forall f, check_transfer_balance db txn = Some f ->
        exists l st, head (lines db txn) = Some l /\ special_type l = Some st
                     /\ detail f = TransferDetail st
                     /\ error_type f = UNBALANCED_TRANSFER /\ severity f = WARNING).
Proof.
  unfold check_transfer_balance.
  pose proof (filter_length_all
                (fun l => special_type l ∈ [Some TRANSFER_IN; Some TRANSFER_OUT])
                (lines db txn)) as Hall.
  destruct (lines db txn) as [| l ls] eqn:Hl.
  - simpl. split; [| done]. split; [by intros [? ?] | by intros [? _]].
  - rewrite filter_cons in *.
    destruct (decide (special_type l ∈ [Some TRANSFER_IN; Some TRANSFER_OUT]))
      as [Hin | Hin].
    + case_bool_decide as Hlen.
      * assert (Hst : exists st, special_type l = Some st).
        { set_unfold. destruct Hin as [-> | [-> | []]]; eauto. }
        destruct Hst as [st Hst]. rewrite Hst. split.
        -- split; [| eauto]. intros _. split; [done |]. by apply Hall.
        -- intros f [= <-]. exists l, st. done.
      * split; [| by destruct (special_type l)].
        split; [by intros [? ?] |]. intros [_ HF]. exfalso. apply Hlen. by apply Hall.
    + assert (Hno : ~ Forall (fun l => special_type l ∈ [Some TRANSFER_IN; Some TRANSFER_OUT])
                             (l :: ls)).
      { intros HF. by apply Forall_inv in HF. }
      destruct (filter _ ls) as [| l' ls'] eqn:Hf.
      * split; [| done]. split; [by intros [? ?] | by intros [_ ?]].
      * case_bool_decide as Hlen.
        -- exfalso. apply Hno. apply Hall. done.
        -- split; [| done]. split; [by intros [? ?] | by intros [_ ?]].
Qed.

(** ** Validation summary *)

Lemma validate_transfers_ok (db : Session) (business_id y : Z) :
  1 <= y <= 9999 ->
  exists r,
    validate_transfers db business_id y None = Ok r
    /\ (all_balanced r = true <-> unbalanced_months r = []).
Proof.
  intros Hy. unfold validate_transfers.
  destruct (mapM_result_pairs (validate_transfers_month db business_id y) months_1_12)
    as (months & Hmonths & _).
  { intros m Hm.
    assert (H12 : 1 <= m <= 12) by (unfold months_1_12 in Hm; set_unfold; lia).
    unfold validate_transfers_month. rewrite month_bounds_ok by done. simpl.
    destruct (foldl transfer_step _ _) as [[[? ?] ?] ?]. eauto. }
  rewrite Hmonths. simpl. eexists. split; [reflexivity |]. simpl.
  rewrite bool_decide_eq_true. split.
  - by intros ->.
  - intros Hnil. by apply fmap_nil_inv in Hnil.
Qed.

(** X9.  For a year the calendar has, the validation summary is produced,
    its status is one of "valid", "warnings" and "invalid", and it is:
    "invalid" exactly when there is an error finding or an unbalanced month of
    transfers; "warnings" exactly when there is neither but there is a
    warning; "valid" exactly when there are no findings and no unbalanced
    month.  Warnings alone never make the status "invalid". *)
Theorem validation_status (today : date) (db : Session) (business_id y : Z) :
  1 <= y <= 9999 ->
  exists r,
    get_full_validation_report today db business_id y = Ok r
    /\ transaction_validation r
       = validate_transactions today db business_id (Some y) None
    /\ (status r = "valid" \/ status r = "warnings" \/ status r = "invalid")
    /\ (status r = "invalid"
        <-> errors (transaction_validation r) <> []
            \/ unbalanced_transfer_months r <> [])
    /\ (status r = "warnings"
        <-> errors (transaction_validation r) = []
            /\ unbalanced_transfer_months r = []
            /\ warnings (transaction_validation r) <> [])
    /\ (status r = "valid"
        <-> errors (transaction_validation r) = []
            /\ unbalanced_transfer_months r = []
            /\ warnings (transaction_validation r) = []).
Proof.
  intros Hy. unfold get_full_validation_report.
  destruct (validate_transfers_ok db business_id y Hy) as (tv & Htv & Hbal).
  rewrite Htv. simpl. eexists. split; [reflexivity |]. simpl.
  split; [done |].
  rewrite validate_transactions_eq. simpl.
  set (es := transactions_in_scope db business_id (Some y) None ≫= txn_errors db).
  set (ws := transactions_in_scope db business_id (Some y) None
             ≫= txn_warnings db today).
  assert (He : (0 <? Z.of_nat (length es)) = true <-> es <> []).
  { rewrite Z.ltb_lt. destruct es; simpl; [split; [lia | done] | split; [done | lia]]. }
  assert (Hw : (0 <? Z.of_nat (length ws)) = true <-> ws <> []).
  { rewrite Z.ltb_lt. destruct ws; simpl; [split; [lia | done] | split; [done | lia]]. }
  destruct (0 <? Z.of_nat (length es)) eqn:Ee;
    destruct (all_balanced tv) eqn:Eb;
    destruct (0 <? Z.of_nat (length ws)) eqn:Ew; simpl;
    (split; [tauto |]);
    assert (Hes : es = [] \/ es <> []) by (destruct es; [by left | by right]);
    assert (Hws : ws = [] \/ ws <> []) by (destruct ws; [by left | by right]);
    assert (Hus : unbalanced_months tv = [] \/ unbalanced_months tv <> [])
      by (destruct (unbalanced_months tv); [by left | by right]);
    repeat split; try discriminate; intuition (try discriminate; try congruence).
Qed.

Lemma validation_status_witness :
  exists r,
    get_full_validation_report (mkdate 2026 3 1) unallocated_ledger 1 2026 = Ok r
    /\ transaction_validation r
       = validate_transactions (mkdate 2026 3 1) unallocated_ledger 1 (Some 2026) None
    /\ (status r = "valid" \/ status r = "warnings" \/ status r = "invalid")
    /\ (status r = "invalid"
        <-> errors (transaction_validation r) <> []
            \/ unbalanced_transfer_months r <> [])
    /\ (status r = "warnings"
        <-> errors (transaction_validation r) = []
            /\ unbalanced_transfer_months r = []
            /\ warnings (transaction_validation r) <> [])
    /\ (status r = "valid"
        <-> errors (transaction_validation r) = []
            /\ unbalanced_transfer_months r = []
            /\ warnings (transaction_validation r) = []).
Proof.
  apply (validation_status (mkdate 2026 3 1) unallocated_ledger 1 2026). lia.
Defined.

(** Three ledgers, three statuses, all read on 2026-03-01. *)
Example validation_status_examples :
  (r ← get_full_validation_report (mkdate 2026 3 1) unallocated_ledger 1 2026; Ok (status r))
  = Ok "invalid"
  /\ (r ← get_full_validation_report (mkdate 2026 3 1) unreconciled_ledger 1 2026; Ok (status r))
     = Ok "warnings"
  /\ (r ← get_full_validation_report (mkdate 2026 3 1) scenario3 1 2026; Ok (status r))
     = Ok "valid"
  /\ (r ← get_full_validation_report (mkdate 2026 3 1) scenario5 1 2026; Ok (status r))
     = Ok "invalid".
Proof. repeat split; reflexivity. Qed.

(** ** Running balance of an account *)

Lemma totals_fold (ts : list Transaction) (a b : Z) :
  foldl totals_step (a, b) ts
  = (a + sum_with gross_amount (filter (fun t => direction t = IN) ts),
     b + sum_with gross_amount (filter (fun t => direction t = OUT) ts)).
Proof.
  revert a b. induction ts as [| t ts IH]; intros a b.
  - simpl. f_equal; lia.
  - cbn [foldl]. destruct (totals_step (a, b) t) as [a' b'] eqn:Hs.
    rewrite IH, !filter_cons. unfold totals_step in Hs.
    destruct (direction t) eqn:Hd; injection Hs as <- <-; simpl;
      repeat case_decide; try congruence; rewrite ?sum_with_cons; f_equal; lia.
Qed.

Lemma signed_gross_split (ts : list Transaction) :
  sum_with signed_gross ts
  = sum_with gross_amount (filter (fun t => direction t = IN) ts)
    - sum_with gross_amount (filter (fun t => direction t = OUT) ts).
Proof.
  induction ts as [| t ts IH]; [done |].
  rewrite !filter_cons, sum_with_cons, IH. unfold signed_gross.
  destruct (direction t) eqn:Hd;
    repeat case_decide; try congruence; rewrite ?sum_with_cons; lia.
Qed.

(** X10.  For an account that exists, the running balance is the opening
    balance plus the gross amounts of its IN transactions less those of its
    OUT transactions, and it is the balance the balance sheet computes for the
    account as of any date that none of its transactions is later than. *)
Theorem running_balance (db : Session) (acct_id : Z) (a : Account) (d : date) :
  get_account db acct_id = Some a ->
  Forall (fun t => account_id t = acct_id -> date_le (txn_date t) d) (transactions db) ->
  exists r,
    get_account_balance db acct_id = Some r
    /\ total_in r
       = sum_with gross_amount
           (filter (fun t => account_id t = acct_id /\ direction t = IN) (transactions db))
    /\ total_out r
       = sum_with gross_amount
           (filter (fun t => account_id t = acct_id /\ direction t = OUT) (transactions db))
    /\ current_balance r = opening_balance a + total_in r - total_out r
    /\ current_balance r = account_balance db a d.
Proof.
  intros Ha Hd. unfold get_account_balance. rewrite Ha.
  rewrite totals_fold. eexists. split; [reflexivity |]. simpl.
  rewrite !list_filter_filter.
  assert (Hid : acc_id a = acct_id).
  { unfold get_account in Ha. by apply head_filter_Some in Ha as [? _]. }
  assert (Hin : filter (fun t => direction t = IN /\ account_id t = acct_id)
                       (transactions db)
                = filter (fun t => account_id t = acct_id /\ direction t = IN)
                         (transactions db)) by (apply list_filter_iff; tauto).
  assert (Hout : filter (fun t => direction t = OUT /\ account_id t = acct_id)
                        (transactions db)
                 = filter (fun t => account_id t = acct_id /\ direction t = OUT)
                          (transactions db)) by (apply list_filter_iff; tauto).
  rewrite Hin, Hout.
  split; [f_equal; lia |]. split; [f_equal; lia |]. split; [lia |].
  rewrite <- Hin, <- Hout, <- !list_filter_filter.
  unfold account_balance. rewrite balance_fold, signed_gross_split.
  unfold query_account_transactions. rewrite Hid.
  rewrite (filter_ext_in (fun t => account_id t = acct_id /\ date_le (txn_date t) d)
             (fun t => account_id t = acct_id)).
  2:{ intros t Ht. rewrite Forall_forall in Hd. specialize (Hd t Ht). tauto. }
  lia.
Qed.

Lemma running_balance_scenario4 :
  exists r,
    get_account_balance scenario4 1 = Some r
    /\ total_in r = 50000 /\ total_out r = 20000 /\ current_balance r = 130000
    /\ current_balance r
       = account_balance scenario4
           {| acc_id := 1; acc_business_id := 1; acc_name := "Bank";
              acc_type := BANK; opening_balance := 100000 |} (mkdate 2026 1 31).
Proof.
  destruct (running_balance scenario4 1
              {| acc_id := 1; acc_business_id := 1; acc_name := "Bank";
                 acc_type := BANK; opening_balance := 100000 |} (mkdate 2026 1 31))
    as (r & Hr & Hin & Hout & Hcur & Hbs).
  - reflexivity.
  - apply Forall_forall. intros t Ht _. apply list_elem_of_In in Ht. simpl in Ht.
    destruct Ht as [<- | [<- | []]]; by vm_compute.
  - exists r. split; [exact Hr |].
    assert (Hi : total_in r = 50000) by (rewrite Hin; reflexivity).
    assert (Ho : total_out r = 20000) by (rewrite Hout; reflexivity).
    split; [exact Hi |]. split; [exact Ho |].
    split; [rewrite Hcur, Hi, Ho; reflexivity | exact Hbs].
Defined.

(** ** Creating and deleting a transaction *)

Lemma first_untargeted_none {Decimal : Type} (i : nat)
    (allocs : list (AllocationBody Decimal)) :
  first_untargeted i allocs = None <-> existsb untargeted allocs = false.
Proof.
  revert i. induction allocs as [| a l IH]; intros i; [done |].
  simpl. destruct (untargeted a); simpl; [split; discriminate | apply IH].
Qed.

Lemma first_untargeted_some {Decimal : Type} (i k : nat)
    (allocs : list (AllocationBody Decimal)) :
  first_untargeted i allocs = Some k ->
  exists n a, k = (i + n)%nat /\ allocs !! n = Some a /\ untargeted a = true
              /\ Forall (fun a' => untargeted a' = false) (take n allocs).
Proof.
  revert i. induction allocs as [| a l IH]; intros i; [done |].
  simpl. destruct (untargeted a) eqn:Ha.
  - intros [= <-]. exists 0%nat, a. repeat split; [lia | done | constructor].
  - intros Hk. destruct (IH (S i) Hk) as (n & a' & -> & Hn & Ha' & Hbefore).
    exists (S n), a'. repeat split; [lia | done | done |].
    simpl. by constructor.
Qed.

(** X11.  The validator of the schema [TransactionCreate] and
    [crud.validate_transaction_allocations] decide alike, whatever the
    decimal amounts and the strings of the request: one accepts exactly when
    the other does, the decimal arithmetic raises in one exactly when it
    does in the other, and each refuses for the reason the other has (no
    allocation; a sum of the allocations that is off the gross amount, with
    the same two values; an allocation with neither category nor special
    type, where the function of [crud] also reports the index of the first
    such allocation).  So the check that the handler of [POST /transactions]
    repeats on a body the schema has accepted never refuses. *)
Theorem validators_agree {Decimal : Type} (decimal_sum : list Decimal -> option Decimal)
    (decimal_apart : Decimal -> Decimal -> option bool) (gross_amount : Decimal)
    (allocs : list (AllocationBody Decimal)) :
  let by_schema :=
    schema_validate_allocations decimal_sum decimal_apart gross_amount allocs in
  let by_crud :=
    validate_transaction_allocations decimal_sum decimal_apart gross_amount allocs in
  (by_schema = Accepted <-> by_crud = Accepted)
  /\ (by_schema = ArithmeticRaised <-> by_crud = ArithmeticRaised)
  /\ (by_schema = Refused NoAllocation <-> by_crud = Refused NoAllocation)
  /\ (by_schema = Refused NoAllocation <-> allocs = [])
  /\ (forall total expected,
        by_schema = Refused (SumMismatch total expected)
        <-> by_crud = Refused (SumMismatch total expected))
  /\ (by_schema = Refused (MissingTarget None)
      <-> exists n, by_crud = Refused (MissingTarget (Some n)))
  /\ (forall n, by_crud = Refused (MissingTarget (Some n)) ->
        exists a, allocs !! n = Some a
                  /\ body_category_id a = None /\ body_special_type a = None
                  /\ Forall (fun a' => untargeted a' = false) (take n allocs)).
Proof.
  intros by_schema by_crud. unfold by_schema, by_crud.
  unfold schema_validate_allocations, validate_transaction_allocations.
  destruct allocs as [| a l]; [repeat split; try done; by intros [? ?] |].
  destruct (decimal_sum _) as [total |];
    [| repeat split; try done; by intros [? ?]].
  destruct (decimal_apart total gross_amount) as [[] |];
    [repeat split; try done; by intros [? ?] | |
     repeat split; try done; by intros [? ?]].
  pose proof (first_untargeted_none 0 (a :: l)) as Hnone.
  destruct (first_untargeted 0 (a :: l)) as [k |] eqn:Hk.
  - destruct (existsb untargeted (a :: l)) eqn:Hex.
    + repeat split; try done; try (by intros [? ?]); [by eauto |].
      intros n [= <-].
      destruct (first_untargeted_some 0 k (a :: l) Hk) as (n & a' & -> & Hn & Ha' & Hb).
      exists a'. unfold untargeted in Ha'.
      destruct (body_category_id a'), (body_special_type a'); try done.
    + destruct Hnone as [_ Hnone]. by specialize (Hnone eq_refl).
  - destruct Hnone as [Hnone _]. rewrite (Hnone eq_refl).
    repeat split; try done; by intros [? ?].
Qed.

Lemma foldr_max_bounds (i : Z) (ids : list Z) :
  i <= foldr Z.max i ids /\ Forall (fun j => j <= foldr Z.max i ids) ids.
Proof.
  induction ids as [| j ids [IH1 IH2]]; simpl; [split; [lia | constructor] |].
  split; [lia |]. constructor; [lia |].
  eapply Forall_impl; [exact IH2 |]. simpl. intros; lia.
Qed.

Lemma next_id_fresh (ids : list Z) (i : Z) : i ∈ ids -> i < next_id ids.
Proof.
  destruct ids as [| j ids]; intros Hi; [by apply elem_of_nil in Hi |].
  unfold next_id. destruct (foldr_max_bounds j ids) as [H1 H2].
  apply elem_of_cons in Hi as [-> | Hi]; [lia |].
  rewrite Forall_forall in H2. specialize (H2 _ Hi). lia.
Qed.

Lemma new_lines_spec (tid first_id : Z) (allocs : list TransactionAllocation) :
  Forall (fun l => transaction_id l = tid) (new_lines tid first_id allocs)
  /\ category_id <$> new_lines tid first_id allocs = alloc_category_id <$> allocs
  /\ special_type <$> new_lines tid first_id allocs = alloc_special_type <$> allocs
  /\ amount <$> new_lines tid first_id allocs = alloc_amount <$> allocs
  /\ line_id <$> new_lines tid first_id allocs
     = seqZ first_id (Z.of_nat (length allocs)).
Proof.
  revert first_id. induction allocs as [| a l IH]; intros first_id.
  - simpl. repeat split. constructor.
  - destruct (IH (first_id + 1)) as (H1 & H2 & H3 & H4 & H5).
    cbn [new_lines]. rewrite !fmap_cons, H2, H3, H4, H5. cbn [length].
    repeat split; [by constructor |].
    rewrite Nat2Z.inj_succ, (seqZ_cons first_id) by lia. simpl.
    replace (Z.succ first_id) with (first_id + 1) by lia.
    by replace (Z.pred (Z.succ (Z.of_nat (length l)))) with (Z.of_nat (length l)) by lia.
Qed.

(** X13.  Deleting a transaction that was just created restores the
    database: over a database whose lines all belong to transactions of the
    table, [delete_transaction] after [create_transaction] leaves every table
    as it was. *)
Theorem create_then_delete (db : Store) (acct_id : Z) (tc : TransactionCreate) :
  lines_reference_transactions (session db) ->
  delete_transaction (create_transaction db acct_id tc).1
                     (create_transaction db acct_id tc).2
  = db.
Proof.
  intros Hfk. destruct db as [[bs acs cs ts ls] rates].
  unfold lines_reference_transactions in Hfk.
  unfold create_transaction, delete_transaction.
  cbn [fst snd session transactions transaction_lines businesses accounts categories
       tax_rates] in *.
  set (tid := next_id (txn_id <$> ts)).
  set (fid := next_id (line_id <$> ls)).
  set (new := new_transaction _ tid acct_id tc).
  assert (Hid : txn_id new = tid) by done. rewrite Hid.
  assert (Hfresh : Forall (fun t => txn_id t <> tid) ts).
  { apply Forall_forall. intros t Ht Heq.
    assert (Hin : tid ∈ txn_id <$> ts) by (rewrite <- Heq; apply list_elem_of_fmap; eauto).
    apply next_id_fresh in Hin. unfold tid in Hin. lia. }
  assert (Hold : Forall (fun l => transaction_id l <> tid) ls).
  { eapply Forall_impl; [exact Hfk |]. simpl. intros l Hl Heq.
    rewrite Heq in Hl. apply next_id_fresh in Hl. unfold tid in Hl. lia. }
  rewrite !filter_app, (filter_cons _ new), filter_nil.
  rewrite decide_False by (intros H; by apply H).
  rewrite (filter_all _ ts) by done.
  rewrite (filter_all _ ls) by done.
  rewrite (filter_none _ (new_lines _ _ _)).
  - by rewrite !app_nil_r.
  - eapply Forall_impl; [apply new_lines_spec |]. simpl. intros l Hl Hne. by apply Hne.
Qed.

Lemma create_then_delete_witness :
  delete_transaction (create_transaction scenario3_store 1 taxed_request).1
                     (create_transaction scenario3_store 1 taxed_request).2
  = scenario3_store.
Proof.
  apply (create_then_delete scenario3_store 1 taxed_request).
  unfold lines_reference_transactions. cbn. repeat constructor; compute_done.
Defined.

(** ** A transaction with a computed tax under the validation *)

Lemma computed_tax_at_least (gross_amount c : Z) (r : TaxRate) :
  0 < rate r -> 0 <= c -> c * (10000 + rate r) <= gross_amount * 10000 ->
  c <= calculate_tax_amount gross_amount (Some r).
Proof.
  intros Hr Hc Hg. unfold calculate_tax_amount.
  destruct (Z.eqb_spec (rate r) 0); [lia |].
  unfold quantize_cents.
  assert (Hq : c <= gross_amount * 10000 / (10000 + rate r)).
  { apply Z.div_le_lower_bound; lia. }
  repeat case_match; lia.
Qed.

(** X15.  A stored transaction whose tax and net amounts are the tax split
    of its gross amount (what [create_transaction] computes when the request
    gives neither) and whose lines sum to the gross amount within 0.01 (what
    the validators of the request ask of the allocations): without a tax
    rate, or at the rate zero, the validation of transactions reports no
    error for it; at a rate above zero, with a gross amount of at least
    three times [1 + rate] cents, it reports the error ALLOCATION_MISMATCH
    and no other, with gross less tax as the expected amount: the request is
    checked against the gross amount, the stored transaction against the
    net amount. *)
Theorem split_transaction_validation (db : Session) (txn : Transaction)
    (tax_rate : option TaxRate) :
  (tax_amount txn, net_amount txn) = tax_split (gross_amount txn) tax_rate ->
  lines db txn <> [] ->
  Z.abs (sum_with amount (lines db txn) - gross_amount txn) <= 1 ->
  (tax_rate = None \/ (exists r, tax_rate = Some r /\ rate r = 0) ->
   txn_errors db txn = [])
  /\ (forall r, tax_rate = Some r -> 0 < rate r ->
        3 * (10000 + rate r) <= gross_amount txn * 10000 ->
        txn_errors db txn
        = [ {| f_transaction_id := txn_id txn; f_account_id := account_id txn;
               f_date := txn_date txn; f_gross_amount := gross_amount txn;
               error_type := ALLOCATION_MISMATCH; severity := ERROR;
               detail := MismatchDetail
                           (gross_amount txn - tax_amount txn)
                           (sum_with amount (lines db txn))
                           (Z.abs (sum_with amount (lines db txn)
                                   - (gross_amount txn - tax_amount txn))) |} ]).
Proof.
  unfold tax_split, calculate_net_amount. intros [= Htax Hnet] Hlines Hsum.
  unfold txn_errors, check_missing_allocation, check_allocation_mismatch.
  rewrite <- sum_amounts_sum_with in *.
  destruct (lines db txn) as [| l ls]; [done |]. cbn [opt_list app].
  set (total := sum_amounts (l :: ls)) in *.
  assert (Hexp : (if net_amount txn =? 0 then gross_amount txn - tax_amount txn
                  else net_amount txn)
                 = gross_amount txn - tax_amount txn).
  { destruct (Z.eqb_spec (net_amount txn) 0); [done |]. rewrite Hnet, <- Htax. done. }
  rewrite Hexp. split.
  - intros Hzero.
    assert (Ht : tax_amount txn = 0).
    { rewrite Htax. destruct Hzero as [-> | (r & -> & Hr)]; [done |].
      unfold calculate_tax_amount. by rewrite Hr. }
    rewrite Ht.
    destruct (Z.ltb_spec 1 (Z.abs (total - (gross_amount txn - 0)))); [lia | done].
  - intros r -> Hpos Hbig.
    pose proof (computed_tax_at_least (gross_amount txn) 3 r Hpos ltac:(lia) Hbig) as H3.
    rewrite <- Htax in H3.
    destruct (Z.ltb_spec 1 (Z.abs (total - (gross_amount txn - tax_amount txn))));
      [done | lia].
Qed.

Lemma split_transaction_validation_witness :
  exists f,
    txn_errors split_ledger split_txn = [f]
    /\ error_type f = ALLOCATION_MISMATCH
    /\ detail f = MismatchDetail 810 10810 10000.
Proof.
  destruct (split_transaction_validation split_ledger split_txn
              (Some {| tr_id := 1; rate := 810 |})) as [_ Hflag].
  - reflexivity.
  - discriminate.
  - by vm_compute.
  - eexists. split; [apply (Hflag _ eq_refl); simpl; lia |]. split; reflexivity.
Defined.

(** ** The profit of the year in the two reports *)

(** For a date of the calendar, the window from the first of January to the
    last day of the month [m] selects the dates of the year in the months up
    to [m]. *)
Lemma ytd_window (y m : Z) (d : date) :
  1 <= m <= 12 -> valid_date d ->
  date_le (mkdate y 1 1) d && date_le d (mkdate y m (days_in_month y m))
  = (year d =? y) && (month d <=? m).
Proof.
  intros Hm (Hy & Hmo & Hd).
  pose proof (days_in_month_bounds y m).
  unfold date_le, date_lt. cbn [year month day].
  destruct (Z.eqb_spec (year d) y) as [<- | Hne].
  - destruct (Z.eqb_spec (month d) m) as [<- | Hne'].
    + repeat (match goal with
              | |- context [?a <? ?b] => destruct (Z.ltb_spec a b)
              | |- context [?a =? ?b] => destruct (Z.eqb_spec a b)
              | |- context [?a <=? ?b] => destruct (Z.leb_spec a b)
              end; simpl; try lia; try done).
    + repeat (match goal with
              | |- context [?a <? ?b] => destruct (Z.ltb_spec a b)
              | |- context [?a =? ?b] => destruct (Z.eqb_spec a b)
              | |- context [?a <=? ?b] => destruct (Z.leb_spec a b)
              end; simpl; try lia; try done).
  - repeat (match goal with
            | |- context [?a <? ?b] => destruct (Z.ltb_spec a b)
            | |- context [?a =? ?b] => destruct (Z.eqb_spec a b)
            | |- context [?a <=? ?b] => destruct (Z.leb_spec a b)
            end; simpl; try lia; try done).
Qed.

Lemma lines_through_months (db : Session) (b y : Z) (f : TransactionLine -> Z) (n : nat) :
  NoDup (txn_id <$> transactions db) -> valid_dates db ->
  sum_with f (lines_through_month db b y (Z.of_nat n))
  = sum_with (fun k => sum_with f (lines_of_month db b y k)) (seqZ 1 (Z.of_nat n)).
Proof.
  intros Hnd Hv. unfold valid_dates in Hv. rewrite Forall_forall in Hv.
  induction n as [| n IH].
  - unfold lines_through_month. rewrite query_lines_never; [done |].
    intros t Ht. destruct (Hv t Ht) as (_ & Hmo & _).
    destruct (Z.leb_spec (month (txn_date t)) (Z.of_nat 0)); [lia |].
    by rewrite andb_false_r.
  - rewrite Nat2Z.inj_succ, <- Z.add_1_r, seqZ_app by lia.
    rewrite sum_with_app, <- IH. cbn [seqZ]. 
    replace (seqZ (1 + Z.of_nat n) 1) with [Z.of_nat n + 1]
      by (rewrite (seqZ_cons (1 + Z.of_nat n)) by lia; simpl; f_equal; lia).
    rewrite sum_with_cons. cbn [sum_with foldr]. rewrite Z.add_0_r.
    unfold lines_through_month, lines_of_month.
    apply query_lines_split; [done | |]; intros t Ht;
      destruct (Hv t Ht) as (_ & Hmo & _);
      destruct (Z.eqb_spec (year (txn_date t)) y); simpl; try done;
      destruct (Z.leb_spec (month (txn_date t)) (Z.of_nat n + 1)),
               (Z.leb_spec (month (txn_date t)) (Z.of_nat n)),
               (Z.eqb_spec (month (txn_date t)) (Z.of_nat n + 1)); simpl; try done; lia.
Qed.

Lemma section_total (cats : list Category) (ls : list TransactionLine) :
  total (section_of cats ls)
  = sum_with (fun l => if line_in_cats (cat_id <$> cats) l then amount l else 0) ls.
Proof.
  unfold section_of.
  destruct (section_fold cats "" ls {| total := 0; by_category := ∅ |}) as [_ ->].
  cbn [total]. rewrite sum_amounts_sum_with, sum_with_filter, Z.add_0_l.
  apply sum_with_ext. intros l _.
  destruct (line_in_cats (cat_id <$> cats) l); case_decide; done.
Qed.

Lemma cat_types_disjoint (db : Session) (b i : Z) (ty ty' : CategoryType) :
  NoDup (cat_id <$> categories db) ->
  i ∈ cat_id <$> cats_of_type db b ty -> i ∈ cat_id <$> cats_of_type db b ty' ->
  ty = ty'.
Proof.
  intros Hnd H1 H2. apply (query_categories_NoDup db b) in Hnd.
  unfold cats_of_type in *.
  apply list_elem_of_fmap in H1 as (c & -> & Hc).
  apply list_elem_of_fmap in H2 as (c' & Hid & Hc').
  apply list_elem_of_filter in Hc as [<- Hc].
  apply list_elem_of_filter in Hc' as [<- Hc'].
  by rewrite (NoDup_fmap_inj cat_id _ c c' Hnd Hc Hc' Hid).
Qed.

(** Income less cost of goods sold less expenses of a set of lines, as the
    P&L report adds them up, is what the balance sheet counts as profit. *)
Lemma profit_of_lines (db : Session) (b : Z) (ls : list TransactionLine) :
  NoDup (cat_id <$> categories db) ->
  total (section_of (cats_of_type db b INCOME) ls)
  - total (section_of (cats_of_type db b COGS) ls)
  - total (section_of (cats_of_type db b EXPENSE) ls)
  = sum_with (profit_contribution db b) ls.
Proof.
  intros Hnd. rewrite !section_total.
  induction ls as [| l ls IH]; [done |].
  rewrite !sum_with_cons, <- IH.
  assert (Hl : (if line_in_cats (cat_id <$> cats_of_type db b INCOME) l
                then amount l else 0)
               - (if line_in_cats (cat_id <$> cats_of_type db b COGS) l
                  then amount l else 0)
               - (if line_in_cats (cat_id <$> cats_of_type db b EXPENSE) l
                  then amount l else 0)
               = profit_contribution db b l); [| lia].
  unfold line_in_cats, profit_contribution.
  destruct (category_id l) as [i |]; [| done].
  destruct (i =? 0); [done |]. cbn [negb andb].
  pose proof (cat_types_disjoint db b i INCOME COGS Hnd).
  pose proof (cat_types_disjoint db b i INCOME EXPENSE Hnd).
  pose proof (cat_types_disjoint db b i COGS EXPENSE Hnd).
  repeat case_bool_decide; try lia; exfalso;
    match goal with H : _ -> _ -> _ = _ |- _ => by discriminate H end.
Qed.

Lemma snapshot_profit (db : Session) (b y m : Z) (d : date) (opening : Z)
    (snap : Snapshot) :
  1 <= y <= 9999 ->
  calculate_snapshot db b y m d opening = Ok snap ->
  current_year_profit (equity snap)
  = sum_with (profit_contribution db b)
      (query_lines db b (fun d' => date_le (mkdate y 1 1) d' && date_le d' d)).
Proof.
  intros Hy. unfold calculate_snapshot.
  destruct (foldl (bank_step db d) _ _) as [bank_balance bank_accts].
  destruct (foldl (card_step db d) _ _) as [ccb cards].
  rewrite calculate_net_profit_ytd_eq by done. simpl. by intros [= <-].
Qed.

Lemma sum_with_months {A : Type} (g : Z -> Z) (m : Z) (l : list (Z * A)) :
  sum_with (fun p => g p.1) (filter (fun p => p.1 <= m) l)
  = sum_with g (filter (fun k => k <= m) (fst <$> l)).
Proof.
  induction l as [| p l IH]; [done |].
  rewrite fmap_cons, !filter_cons. destruct (decide (p.1 <= m)).
  - by rewrite !sum_with_cons, IH.
  - done.
Qed.

Lemma months_up_to (m : Z) :
  m ∈ months_1_12 -> filter (fun k => k <= m) months_1_12 = seqZ 1 m.
Proof.
  unfold months_1_12. intros Hm. set_unfold.
  destruct Hm as [-> | [-> | [-> | [-> | [-> | [-> | [-> | [-> | [-> | [-> | [-> | [-> | []]]]]]]]]]]]];
    by vm_compute.
Qed.

Lemma sum_Z_net_profit (ms : list (Z * PLMonth)) :
  sum_Z (net_profit <$> (snd <$> ms)) = sum_with (fun p => net_profit p.2) ms.
Proof.
  induction ms as [| p ms IH]; [done |].
  by rewrite !fmap_cons, sum_Z_cons, sum_with_cons, IH.
Qed.

(** X16.  Over a ledger with dates of the calendar and with unique
    transaction and category identifiers, for an existing business and a year
    the calendar has, the two reports agree on the profit: the current-year
    profit that the balance sheet shows for a month is the sum of the net
    profits that the P&L report shows for the months up to that month, and
    the one of December is the year-to-date net profit of the P&L report. *)
Theorem profit_reports_agree (db : Session) (business_id y : Z) :
  1 <= y <= 9999 -> valid_dates db ->
  NoDup (txn_id <$> transactions db) -> NoDup (cat_id <$> categories db) ->
  is_Some (query_business db business_id) ->
  exists pl bs,
    pl_generate_report db business_id y = Ok pl
    /\ bs_generate_report db business_id y = Ok bs
    /\ (forall m snap, (m, snap) ∈ bs_months bs ->
          current_year_profit (equity snap) = net_profit_through (pl_months pl) m)
    /\ (forall snap, (12, snap) ∈ bs_months bs ->
          current_year_profit (equity snap) = net_profit (ytd pl)).
Proof.
  intros Hy Hv Hnt Hnc [business Hb].
  (* the P&L report *)
  unfold pl_generate_report. cbv zeta.
  fold (cats_of_type db business_id INCOME) (cats_of_type db business_id COGS)
       (cats_of_type db business_id EXPENSE).
  destruct (mapM_result_pairs
              (fun month => pl_calculate_month db business_id y month
                 (cats_of_type db business_id INCOME)
                 (cats_of_type db business_id COGS)
                 (cats_of_type db business_id EXPENSE))
              months_1_12) as (pms & Hpms & Hpfst & Hpall).
  { intros m Hm.
    assert (H12 : 1 <= m <= 12) by (unfold months_1_12 in Hm; set_unfold; lia).
    unfold pl_calculate_month. rewrite month_bounds_ok by done. simpl. eauto. }
  rewrite Hpms. cbn [mbind result_bind].
  (* the balance sheet *)
  unfold bs_generate_report. rewrite Hb.
  set (opening := calculate_opening_retained_earnings db business_id y).
  rewrite (mapM_result_ext _
             (fun x => s ← (as_of ← month_as_of_date y x;
                            calculate_snapshot db business_id y x as_of opening);
                       Ok (x, s))).
  2:{ intros x Hx. rewrite month_as_of_date_ok by done. done. }
  destruct (mapM_result_pairs
              (fun x => as_of ← month_as_of_date y x;
                        calculate_snapshot db business_id y x as_of opening)
              months_1_12) as (bms & Hbms & Hbfst & Hball).
  { intros x Hx. rewrite month_as_of_date_ok by done. simpl.
    destruct (calculate_snapshot_ok db business_id y x
                (mkdate y x (days_in_month y x)) opening Hy) as (s & Hs & _).
    eauto. }
  rewrite Hbms. cbn [mbind result_bind].
  eexists _, _. split; [reflexivity |]. split; [reflexivity |].
  cbn [bs_months pl_months ytd].
  (* the profit of a month of the P&L report *)
  assert (Hmonth : forall p, p ∈ pms ->
            net_profit p.2
            = sum_with (profit_contribution db business_id)
                (lines_of_month db business_id y p.1)).
  { intros p Hp. rewrite Forall_forall in Hpall. specialize (Hpall p Hp).
    assert (Hm : p.1 ∈ months_1_12).
    { rewrite <- Hpfst. apply list_elem_of_fmap. eauto. }
    assert (H12 : 1 <= p.1 <= 12) by (unfold months_1_12 in Hm; set_unfold; lia).
    destruct (pl_calculate_month_ok db business_id y p.1
                (cats_of_type db business_id INCOME)
                (cats_of_type db business_id COGS)
                (cats_of_type db business_id EXPENSE) Hy H12 Hv)
      as (md & Hmd & _ & _ & _ & Hi & Hc & He & _ & Hg & Hn).
    rewrite Hpall in Hmd. injection Hmd as <-.
    rewrite Hn, Hg, Hi, Hc, He. by apply profit_of_lines. }
  assert (Hthrough : forall m snap, (m, snap) ∈ bms ->
            current_year_profit (equity snap) = net_profit_through pms m).
  { intros m snap Hin. rewrite Forall_forall in Hball. specialize (Hball _ Hin).
    cbn [fst snd] in Hball.
    assert (Hm : m ∈ months_1_12).
    { rewrite <- Hbfst. apply list_elem_of_fmap. by exists (m, snap). }
    assert (H12 : 1 <= m <= 12) by (unfold months_1_12 in Hm; set_unfold; lia).
    rewrite month_as_of_date_ok in Hball by done. cbn [mbind result_bind] in Hball.
    rewrite (snapshot_profit _ _ _ _ _ _ _ Hy Hball).
    rewrite (query_lines_ext _ _ _ (fun d => (year d =? y) && (month d <=? m))).
    2:{ intros t Ht _. apply ytd_window; [done |].
        unfold valid_dates in Hv. rewrite Forall_forall in Hv. by apply Hv. }
    fold (lines_through_month db business_id y m).
    rewrite <- (Z2Nat.id m) at 1 by lia.
    rewrite lines_through_months by done. rewrite Z2Nat.id by lia.
    unfold net_profit_through.
    rewrite (sum_with_ext (fun p => net_profit p.2)
               (fun p => sum_with (profit_contribution db business_id)
                           (lines_of_month db business_id y p.1))).
    2:{ intros p Hp. apply Hmonth. by apply list_elem_of_filter in Hp as [_ Hp]. }
    symmetry.
    etrans; [apply (sum_with_months
                      (fun k => sum_with (profit_contribution db business_id)
                                  (lines_of_month db business_id y k))
                      m pms) |].
    by rewrite Hpfst, months_up_to. }
  split; [exact Hthrough |].
  intros snap Hin. rewrite (Hthrough 12 snap Hin).
  unfold calculate_ytd. destruct (ytd_fold_profit (snd <$> pms) ytd_zero) as (_ & -> & _).
  cbn [net_profit ytd_zero]. rewrite sum_Z_net_profit, Z.add_0_l.
  unfold net_profit_through. f_equal. apply filter_all.
  apply Forall_forall. intros p Hp.
  assert (Hm : p.1 ∈ months_1_12).
  { rewrite <- Hpfst. apply list_elem_of_fmap. eauto. }
  unfold months_1_12 in Hm. set_unfold. lia.
Qed.

Lemma profit_reports_agree_witness :
  exists pl bs,
    pl_generate_report scenario3 1 2026 = Ok pl
    /\ bs_generate_report scenario3 1 2026 = Ok bs
    /\ (forall snap, (12, snap) ∈ bs_months bs ->
          current_year_profit (equity snap) = net_profit (ytd pl)).
Proof.
  destruct (profit_reports_agree scenario3 1 2026) as (pl & bs & Hpl & Hbs & _ & H12).
  - lia.
  - solve_valid_dates.
  - compute_done.
  - compute_done.
  - by eexists.
  - exists pl, bs. repeat split; [exact Hpl | exact Hbs | exact H12].
Defined.

(** ** The per-category amounts of a P&L section add up to its total *)

Lemma sum_Z_perm (xs ys : list Z) : xs ≡ₚ ys -> sum_Z xs = sum_Z ys.
Proof.
  induction 1 as [| x xs ys _ IH | x y xs | xs ys zs _ IH1 _ IH2].
  - done.
  - by rewrite !sum_Z_cons, IH.
  - rewrite !sum_Z_cons. lia.
  - by rewrite IH1.
Qed.

Lemma dict_total_insert (d : gmap string Z) (k : string) (x : Z) :
  dict_total (<[k := x]> d) = dict_total d - default 0 (d !! k) + x.
Proof.
  assert (Hfresh : forall (d' : gmap string Z) (z : Z), d' !! k = None ->
            dict_total (<[k := z]> d') = z + dict_total d').
  { intros d' z Hk. unfold dict_total.
    rewrite (sum_Z_perm _ ((k, z) :: map_to_list d').*2).
    - by rewrite fmap_cons, sum_Z_cons.
    - apply fmap_Permutation. by apply map_to_list_insert. }
  destruct (d !! k) as [y |] eqn:Hk; simpl.
  - rewrite <- (insert_delete_eq d), Hfresh by apply lookup_delete_eq.
    rewrite <- (insert_delete_id d k y Hk) at 2.
    rewrite (Hfresh _ y) by apply lookup_delete_eq. lia.
  - rewrite Hfresh by done. lia.
Qed.

Lemma dict_total_add (k : string) (v : Z) (d : gmap string Z) :
  dict_total (dict_add k v d) = dict_total d + v.
Proof. unfold dict_add. rewrite dict_total_insert. lia. Qed.

Lemma section_step_adds_up (cats : list Category) (acc : PLSection)
    (l : TransactionLine) :
  total acc = dict_total (by_category acc) ->
  total (section_step cats acc l) = dict_total (by_category (section_step cats acc l)).
Proof.
  intros Hacc. unfold section_step.
  destruct (line_in_cats (cat_id <$> cats) l); [| done].
  cbn [total by_category]. rewrite dict_total_add. lia.
Qed.

Lemma section_of_adds_up (cats : list Category) (ls : list TransactionLine) :
  total (section_of cats ls) = dict_total (by_category (section_of cats ls)).
Proof.
  unfold section_of.
  assert (H : forall acc, total acc = dict_total (by_category acc) ->
            total (foldl (section_step cats) acc ls)
            = dict_total (by_category (foldl (section_step cats) acc ls))).
  { induction ls as [| l ls IH]; intros acc Hacc; [done |].
    cbn [foldl]. apply IH. by apply section_step_adds_up. }
  apply H. done.
Qed.

Lemma merge_by_category_total (acc m : gmap string Z) :
  dict_total (merge_by_category acc m) = dict_total acc + dict_total m.
Proof.
  unfold merge_by_category, dict_total at 3.
  generalize (map_to_list m). intros kvs. revert acc.
  induction kvs as [| kv kvs IH]; intros acc.
  - simpl. unfold sum_Z. simpl. lia.
  - cbn [foldl]. rewrite IH, dict_total_add, fmap_cons, sum_Z_cons. lia.
Qed.

Lemma merge_section_adds_up (acc s : PLSection) :
  total acc = dict_total (by_category acc) ->
  total s = dict_total (by_category s) ->
  total (merge_section acc s) = dict_total (by_category (merge_section acc s)).
Proof.
  intros Hacc Hs. unfold merge_section. cbn [total by_category].
  rewrite merge_by_category_total. lia.
Qed.

(** X17.  In the P&L report of a year the calendar has, every section adds
    up: in each month and in the year to date, the total of the income, of
    the cost of goods sold and of the expenses is the sum of the amounts the
    section lists per category code. *)
Theorem pl_sections_add_up (db : Session) (business_id y : Z) :
  1 <= y <= 9999 ->
  exists rep,
    pl_generate_report db business_id y = Ok rep
    /\ (forall m md ty, (m, md) ∈ pl_months rep ->
          total (section ty md) = dict_total (by_category (section ty md)))
    /\ (forall ty,
          total (section ty (ytd rep)) = dict_total (by_category (section ty (ytd rep)))).
Proof.
  intros Hy. unfold pl_generate_report. cbv zeta.
  destruct (mapM_result_pairs
              (fun month => pl_calculate_month db business_id y month
                 (filter (fun c => cat_type c = INCOME) (query_categories db business_id))
                 (filter (fun c => cat_type c = COGS) (query_categories db business_id))
                 (filter (fun c => cat_type c = EXPENSE) (query_categories db business_id)))
              months_1_12) as (months & Hmonths & Hfst & Hall).
  { intros m Hm.
    assert (H12 : 1 <= m <= 12) by (unfold months_1_12 in Hm; set_unfold; lia).
    unfold pl_calculate_month. rewrite month_bounds_ok by done. simpl. eauto. }
  rewrite Hmonths. cbn [mbind result_bind].
  eexists. split; [reflexivity |]. cbn [pl_months ytd].
  assert (Hmonth : forall p ty, p ∈ months ->
            total (section ty p.2) = dict_total (by_category (section ty p.2))).
  { intros p ty Hp. rewrite Forall_forall in Hall. specialize (Hall p Hp).
    unfold pl_calculate_month in Hall.
    destruct (month_bounds y p.1) as [[s e] | err]; [| done].
    cbn [mbind result_bind] in Hall. injection Hall as <-.
    destruct ty; cbn [section income cogs expenses total by_category];
      rewrite ?Z.add_0_r; apply section_of_adds_up. }
  split.
  - intros m md ty Hin. apply (Hmonth (m, md) ty Hin).
  - intros ty. unfold calculate_ytd. rewrite ytd_fold_section.
    assert (H : forall (secs : list PLSection) acc,
              total acc = dict_total (by_category acc) ->
              Forall (fun s => total s = dict_total (by_category s)) secs ->
              total (foldl merge_section acc secs)
              = dict_total (by_category (foldl merge_section acc secs))).
    { induction secs as [| s secs IH]; intros acc Hacc Hsecs; [done |].
      apply Forall_cons in Hsecs as [Hs Hsecs]. cbn [foldl].
      apply IH; [by apply merge_section_adds_up | done]. }
    apply H.
    + by destruct ty.
    + apply Forall_forall. intros s Hs.
      apply list_elem_of_fmap in Hs as (md & -> & Hmd).
      apply list_elem_of_fmap in Hmd as (p & -> & Hp). by apply Hmonth.
Qed.

Lemma pl_sections_add_up_witness :
  exists rep,
    pl_generate_report scenario3 1 2026 = Ok rep
    /\ total (income (ytd rep)) = dict_total (by_category (income (ytd rep))).
Proof.
  destruct (pl_sections_add_up scenario3 1 2026) as (rep & Hrep & _ & Hytd); [lia |].
  exists rep. split; [exact Hrep | exact (Hytd INCOME)].
Defined.

(** ** The VAT of the balance sheet and the sales tax report *)

(** For a date of the calendar, the dates up to the last day of the month
    [m] of the year [y] are those up to the end of the year before and those
    of the year in the months up to [m]. *)
Lemma upto_window (y m : Z) (d : date) :
  1 <= m <= 12 -> valid_date d ->
  date_le d (mkdate y m (days_in_month y m))
  = date_le d (mkdate (y - 1) 12 31) || ((year d =? y) && (month d <=? m))
  /\ date_le d (mkdate (y - 1) 12 31) && ((year d =? y) && (month d <=? m)) = false.
Proof.
  intros Hm (Hy & Hmo & Hd).
  pose proof (days_in_month_bounds y m).
  pose proof (days_in_month_bounds (year d) (month d)).
  unfold date_le, date_lt. cbn [year month day].
  destruct (Z.eqb_spec (year d) y) as [<- | Hne].
  - destruct (Z.eqb_spec (month d) m) as [<- | Hne'];
      repeat (match goal with
              | |- context [?a <? ?b] => destruct (Z.ltb_spec a b)
              | |- context [?a =? ?b] => destruct (Z.eqb_spec a b)
              | |- context [?a <=? ?b] => destruct (Z.leb_spec a b)
              end; simpl; try lia; try done).
  - repeat (match goal with
            | |- context [?a <? ?b] => destruct (Z.ltb_spec a b)
            | |- context [?a =? ?b] => destruct (Z.eqb_spec a b)
            | |- context [?a <=? ?b] => destruct (Z.leb_spec a b)
            end; simpl; try lia; try done).
Qed.

Lemma query_transactions_split (db : Session) (b : Z) (f : Transaction -> Z)
    (w w1 w2 : date -> bool) :
  (forall t, t ∈ transactions db ->
             w (txn_date t) = w1 (txn_date t) || w2 (txn_date t)) ->
  (forall t, t ∈ transactions db -> w1 (txn_date t) && w2 (txn_date t) = false) ->
  sum_with f (query_transactions db b w)
  = sum_with f (query_transactions db b w1) + sum_with f (query_transactions db b w2).
Proof.
  intros Hor Hdis. unfold query_transactions.
  rewrite !sum_with_filter, <- sum_with_plus. apply sum_with_ext. intros t Ht.
  rewrite !decide_Is_true. specialize (Hor t Ht). specialize (Hdis t Ht). rewrite Hor.
  destruct (txn_in_business db b t), (w1 (txn_date t)), (w2 (txn_date t));
    simpl in *; try done; lia.
Qed.

Lemma transactions_through_months (db : Session) (b y : Z) (f : Transaction -> Z)
    (n : nat) :
  valid_dates db ->
  sum_with f (query_transactions db b (fun d => (year d =? y) && (month d <=? Z.of_nat n)))
  = sum_with (fun k => sum_with f (transactions_of_month db b y k)) (seqZ 1 (Z.of_nat n)).
Proof.
  intros Hv. unfold valid_dates in Hv. rewrite Forall_forall in Hv.
  induction n as [| n IH].
  - unfold query_transactions. rewrite filter_none; [done |].
    apply Forall_forall. intros t Ht Hp. apply Is_true_true in Hp.
    destruct (Hv t Ht) as (_ & Hmo & _).
    destruct (Z.leb_spec (month (txn_date t)) (Z.of_nat 0)); [lia |].
    by rewrite !andb_false_r in Hp.
  - rewrite Nat2Z.inj_succ, <- Z.add_1_r, seqZ_app by lia.
    rewrite sum_with_app, <- IH.
    replace (seqZ (1 + Z.of_nat n) 1) with [Z.of_nat n + 1]
      by (rewrite (seqZ_cons (1 + Z.of_nat n)) by lia; simpl; f_equal; lia).
    rewrite sum_with_cons. cbn [sum_with foldr]. rewrite Z.add_0_r.
    unfold transactions_of_month.
    apply query_transactions_split; intros t Ht;
      destruct (Hv t Ht) as (_ & Hmo & _);
      destruct (Z.eqb_spec (year (txn_date t)) y); simpl; try done;
      destruct (Z.leb_spec (month (txn_date t)) (Z.of_nat n + 1)),
               (Z.leb_spec (month (txn_date t)) (Z.of_nat n)),
               (Z.eqb_spec (month (txn_date t)) (Z.of_nat n + 1)); simpl; try done; lia.
Qed.

(** The VAT position at the end of a month of the year [y]: the position at
    the end of the year before and what the months of the year add. *)
Lemma vat_position_months (db : Session) (b y m : Z) :
  1 <= m <= 12 -> valid_dates db -> NoDup (txn_id <$> transactions db) ->
  vat_position db b (mkdate y m (days_in_month y m))
  = vat_position db b (mkdate (y - 1) 12 31)
    + sum_with (fun k => sum_with signed_tax (transactions_of_month db b y k)
                         - sum_with (special_amount TAX_PAYMENT)
                             (lines_of_month db b y k))
               (seqZ 1 m).
Proof.
  intros Hm Hv Hnd. pose proof Hv as Hv'.
  unfold valid_dates in Hv'. rewrite Forall_forall in Hv'.
  unfold vat_position, query_special_lines. fold signed_tax. rewrite !sum_special.
  rewrite (query_transactions_split db b signed_tax _
             (fun d => date_le d (mkdate (y - 1) 12 31))
             (fun d => (year d =? y) && (month d <=? m)));
    [| intros t Ht; by apply upto_window, Hv' ..].
  rewrite (query_lines_split db b (special_amount TAX_PAYMENT) _
             (fun d => date_le d (mkdate (y - 1) 12 31))
             (fun d => (year d =? y) && (month d <=? m)));
    [| done | intros t Ht; by apply upto_window, Hv' ..].
  fold (lines_through_month db b y m).
  pose proof (transactions_through_months db b y signed_tax (Z.to_nat m) Hv) as Ht.
  pose proof (lines_through_months db b y (special_amount TAX_PAYMENT) (Z.to_nat m)
                Hnd Hv) as Hl.
  rewrite Z2Nat.id in Ht, Hl by lia. rewrite Ht, Hl.
  rewrite (sum_with_ext
             (fun k => sum_with signed_tax (transactions_of_month db b y k)
                       - sum_with (special_amount TAX_PAYMENT) (lines_of_month db b y k))
             (fun k => sum_with signed_tax (transactions_of_month db b y k)
                       + - sum_with (special_amount TAX_PAYMENT) (lines_of_month db b y k))
             (seqZ 1 m))
    by (intros; lia).
  rewrite sum_with_plus, sum_with_opp. lia.
Qed.

Lemma snapshot_vat (db : Session) (b y m : Z) (d : date) (opening : Z)
    (snap : Snapshot) :
  1 <= y <= 9999 ->
  calculate_snapshot db b y m d opening = Ok snap ->
  vat (liabilities snap) = Z.max 0 (vat_position db b d).
Proof.
  intros Hy. unfold calculate_snapshot.
  destruct (foldl (bank_step db d) _ _) as [bank_balance bank_accts].
  destruct (foldl (card_step db d) _ _) as [ccb cards].
  rewrite calculate_net_profit_ytd_eq by done. cbn [mbind result_bind].
  intros [= <-]. cbn [liabilities vat].
  unfold vat_position.
  pose proof (tax_folds (query_transactions db b (fun d' => date_le d' d))) as Hf.
  match goal with
  | |- (if ?x <? 0 then 0 else ?x) = _ =>
      replace x with
        (sum_with (fun t => match direction t with
                            | IN => tax_amount t
                            | OUT => - tax_amount t
                            end)
           (query_transactions db b (fun d' => date_le d' d))
         - sum_amounts (query_special_lines db b (fun d' => date_le d' d) TAX_PAYMENT))
        by lia
  end.
  case_match; [apply Z.ltb_lt in H | apply Z.ltb_ge in H]; lia.
Qed.

(** The net tax payable of a month of the sales tax report, when no OUT
    transaction carries a negative tax. *)
Lemma tax_month_net (db : Session) (b y m : Z) (r : TaxMonth) :
  1 <= y <= 9999 -> 1 <= m <= 12 -> valid_dates db ->
  Forall (fun t => direction t = OUT -> 0 <= tax_amount t) (transactions db) ->
  tax_calculate_month db b y m = Ok r ->
  net_tax_payable r
  = sum_with signed_tax (transactions_of_month db b y m)
    - sum_with (special_amount TAX_PAYMENT) (lines_of_month db b y m).
Proof.
  intros Hy Hm Hv Hpos. unfold tax_calculate_month.
  rewrite month_bounds_ok by done. cbn [mbind result_bind].
  rewrite month_window_transactions by done.
  unfold query_special_lines. rewrite month_window_lines by done.
  intros [= <-]. cbn [net_tax_payable].
  rewrite tax_collected_fold, tax_paid_fold, sum_special, !Z.add_0_l.
  f_equal.
  assert (Hts : Forall (fun t => direction t = OUT -> 0 <= tax_amount t)
                       (transactions_of_month db b y m)).
  { rewrite Forall_forall in Hpos. apply Forall_forall. intros t Ht.
    apply Hpos. unfold transactions_of_month, query_transactions in Ht.
    by apply list_elem_of_filter in Ht as [_ Ht]. }
  induction Hts as [| t ts Ht _ IH]; [done |].
  rewrite !filter_cons, sum_with_cons. unfold signed_tax at 1.
  destruct (direction t) eqn:Hd.
  - rewrite decide_True by done. rewrite decide_False by (intros [? _]; done).
    rewrite sum_with_cons. lia.
  - rewrite decide_False by done. specialize (Ht eq_refl).
    destruct (decide (OUT = OUT /\ 0 < tax_amount t)) as [[_ Hp] | Hn].
    + rewrite sum_with_cons. lia.
    + assert (tax_amount t = 0) by (destruct (decide (0 < tax_amount t)); [tauto | lia]).
      lia.
Qed.

(** X18.  Over a ledger with dates of the calendar and unique transaction
    identifiers in which no OUT transaction carries a negative tax, for an
    existing business and a year the calendar has: the VAT liability that the
    balance sheet shows for a month is the VAT position at the end of the
    year before plus the net tax payable of the months of the sales tax
    report up to that month, or zero when that sum is negative. *)
Theorem vat_reports_agree (db : Session) (business_id y : Z) :
  1 <= y <= 9999 -> valid_dates db ->
  NoDup (txn_id <$> transactions db) ->
  Forall (fun t => direction t = OUT -> 0 <= tax_amount t) (transactions db) ->
  is_Some (query_business db business_id) ->
  exists tax bs,
    tax_generate_report db business_id y = Ok tax
    /\ bs_generate_report db business_id y = Ok bs
    /\ (forall m snap, (m, snap) ∈ bs_months bs ->
          vat (liabilities snap)
          = Z.max 0 (vat_position db business_id (mkdate (y - 1) 12 31)
                     + net_tax_through (txr_months tax) m)).
Proof.
  intros Hy Hv Hnt Hpos [business Hb].
  assert (H12 : forall m, m ∈ months_1_12 -> 1 <= m <= 12).
  { intros m Hm. unfold months_1_12 in Hm. set_unfold. lia. }
  (* the sales tax report *)
  unfold tax_generate_report. rewrite Hb.
  destruct (mapM_result_pairs (tax_calculate_month db business_id y) months_1_12)
    as (tms & Htms & Htfst & Htall).
  { intros m Hm.
    destruct (tax_calculate_month_ok db business_id y m Hy (H12 m Hm)) as (r & Hr & _).
    eauto. }
  rewrite Htms. cbn [mbind result_bind].
  (* the balance sheet *)
  unfold bs_generate_report. rewrite Hb.
  set (opening := calculate_opening_retained_earnings db business_id y).
  rewrite (mapM_result_ext _
             (fun x => s ← (as_of ← month_as_of_date y x;
                            calculate_snapshot db business_id y x as_of opening);
                       Ok (x, s))).
  2:{ intros x Hx. rewrite month_as_of_date_ok by done. done. }
  destruct (mapM_result_pairs
              (fun x => as_of ← month_as_of_date y x;
                        calculate_snapshot db business_id y x as_of opening)
              months_1_12) as (bms & Hbms & Hbfst & Hball).
  { intros x Hx. rewrite month_as_of_date_ok by done. simpl.
    destruct (calculate_snapshot_ok db business_id y x
                (mkdate y x (days_in_month y x)) opening Hy) as (s & Hs & _).
    eauto. }
  rewrite Hbms. cbn [mbind result_bind].
  eexists _, _. split; [reflexivity |]. split; [reflexivity |].
  cbn [bs_months txr_months].
  intros m snap Hin. rewrite Forall_forall in Hball. specialize (Hball _ Hin).
  cbn [fst snd] in Hball.
  assert (Hm : m ∈ months_1_12).
  { rewrite <- Hbfst. apply list_elem_of_fmap. by exists (m, snap). }
  rewrite month_as_of_date_ok in Hball by done. cbn [mbind result_bind] in Hball.
  rewrite (snapshot_vat _ _ _ _ _ _ _ Hy Hball).
  rewrite vat_position_months by auto. f_equal. f_equal.
  unfold net_tax_through.
  rewrite (sum_with_ext (fun p => net_tax_payable p.2)
             (fun p => sum_with signed_tax (transactions_of_month db business_id y p.1)
                       - sum_with (special_amount TAX_PAYMENT)
                           (lines_of_month db business_id y p.1))).
  2:{ intros p Hp. apply list_elem_of_filter in Hp as [_ Hp].
      rewrite Forall_forall in Htall.
      apply tax_month_net; [done | | done | done | by apply Htall].
      apply H12. rewrite <- Htfst. apply list_elem_of_fmap. eauto. }
  etrans; [| symmetry;
             apply (sum_with_months
                      (fun k => sum_with signed_tax (transactions_of_month db business_id y k)
                                - sum_with (special_amount TAX_PAYMENT)
                                    (lines_of_month db business_id y k))
                      m tms)].
  by rewrite Htfst, months_up_to.
Qed.

Lemma vat_reports_agree_witness :
  exists tax bs,
    tax_generate_report scenario3 1 2026 = Ok tax
    /\ bs_generate_report scenario3 1 2026 = Ok bs
    /\ (forall m snap, (m, snap) ∈ bs_months bs ->
          vat (liabilities snap)
          = Z.max 0 (vat_position scenario3 1 (mkdate (2026 - 1) 12 31)
                     + net_tax_through (txr_months tax) m)).
Proof.
  apply (vat_reports_agree scenario3 1 2026).
  - lia.
  - solve_valid_dates.
  - compute_done.
  - unfold scenario3. cbn [transactions]. repeat constructor; intros _; simpl; lia.
  - by eexists.
Defined.
